(** * Reconciliation core of the HSDP Terraform provider

    A shallow embedding of the retry classification of the metrics
    autoscaler resource, of the CDR (STU3) organization lifecycle and of the
    IAM organization lifecycle, with the properties their specification
    states about them.

    Go values are modelled as follows.  A nilable pointer or interface that
    the code tests against [nil] is an [option]; an [error] is a small
    inductive type that keeps what [errors.As] can observe; a call on the
    remote API is a function on an abstract [Remote] state, and every call is
    appended to a log, so that "which calls were made" is a statement about
    that log.  A run-time panic (nil dereference, failed type assertion) is
    the [Panic] result of the state monad [M]. *)

From Stdlib Require Import ZArith String List Lia.
From Stdlib Require Import Floats.PrimFloat.
From stdpp Require Import gmap strings list pretty.

Local Open Scope Z_scope.

(** ** Go errors, [fmt], [strings], [net/http] *)

Module Go.

(** An [error] value that is not nil.  [errors.New] and [fmt.Errorf]
    without [%w] give an [errorString]; [fmt.Errorf] with one [%w] operand
    gives a [wrapError], whose [Unwrap] is that operand;
    [backoff.Permanent] gives a [PermanentError]. *)
Inductive error : Type :=
| errorString (s : string)
| wrapError (msg : string) (err : error)
| PermanentError (Err : error).

(** [err.Error()] *)
Fixpoint Error (e : error) : string :=
  match e with
  | errorString s => s
  | wrapError msg _ => msg
  | PermanentError inner => Error inner
  end.

(** [errors.As(err, &permanent)] for [permanent : *backoff.PermanentError]:
    the first [PermanentError] on the [Unwrap] chain, and its [Err]. *)
Fixpoint As_PermanentError (e : error) : option error :=
  match e with
  | errorString _ => None
  | wrapError _ inner => As_PermanentError inner
  | PermanentError inner => Some inner
  end.

(** [%v] of an [error] operand that may be nil. *)
Definition fmt_v (err : option error) : string :=
  match err with
  | Some e => Error e
  | None => "<nil>"
  end.

(** [fmt.Errorf(prefix ++ "%w", err)]: a nil operand is not wrapped, the
    verb prints as a bad verb and the result is a plain error. *)
Definition Errorf_w (prefix : string) (err : option error) : error :=
  match err with
  | Some e => wrapError (prefix +:+ Error e) e
  | None => errorString (prefix +:+ "%!w(<nil>)")
  end.

(** [strings.Contains(s, substr)] *)
Fixpoint Contains (s substr : string) : bool :=
  String.prefix substr s
  || match s with
     | EmptyString => false
     | String _ rest => Contains rest substr
     end.

Definition StatusAccepted : Z := 202.
Definition StatusBadRequest : Z := 400.
Definition StatusNotFound : Z := 404.
Definition StatusInternalServerError : Z := 500.

(** [time.Duration] counts nanoseconds. *)
Definition Duration : Type := Z.
Definition Millisecond : Duration := 1000000.
Definition Second : Duration := 1000 * Millisecond.

End Go.
Export Go.

(** ** The state monad of a Go function body *)

Inductive Res (A : Type) : Type :=
| Ok (a : A)
| Panic
| OutOfFuel.
Arguments Ok {A} a.
Arguments Panic {A}.
Arguments OutOfFuel {A}.

(** A computation over a mutable state [St] either returns, panics, or
    exhausts the fuel of a loop that Go writes as [for { ... }]; the state
    reached is kept in every case. *)
Definition M (St A : Type) : Type := St -> Res A * St.

Definition ret {St A} (a : A) : M St A := fun s => (Ok a, s).

Definition bind {St A B} (m : M St A) (k : A -> M St B) : M St B :=
  fun s =>
    match m s with
    | (Ok a, s') => k a s'
    | (Panic, s') => (Panic, s')
    | (OutOfFuel, s') => (OutOfFuel, s')
    end.

Definition panic {St A} : M St A := fun s => (Panic, s).
Definition liftRes {St A} (r : Res A) : M St A := fun s => (r, s).
Definition diverge {St A} : M St A := fun s => (OutOfFuel, s).

Notation "x <- c ;; k" := (bind c (fun x => k))
  (at level 63, c at next level, right associativity).
Notation "c ;;; k" := (bind c (fun _ => k))
  (at level 63, right associativity).

(** A closure that assigns to variables of the enclosing function runs over
    the pair of those variables and the state. *)
Definition liftSt {C St A} (m : M St A) : M (C * St) A :=
  fun cs =>
    match m (snd cs) with
    | (r, s') => (r, (fst cs, s'))
    end.

Definition setLocal {C St} (c : C) : M (C * St) unit :=
  fun cs => (Ok tt, (c, snd cs)).

(** Runs [m] with its captured variables initialised to [c0] and hands them
    back next to the result. *)
Definition withLocal {C St A} (c0 : C) (m : M (C * St) A) : M St (A * C) :=
  fun s =>
    match m (c0, s) with
    | (Ok a, (c, s')) => (Ok (a, c), s')
    | (Panic, (_, s')) => (Panic, s')
    | (OutOfFuel, (_, s')) => (OutOfFuel, s')
    end.

(** ** [github.com/cenkalti/backoff/v4] *)

Module backoff.

(** [backoff.Stop] *)
Definition Stop : Duration := -1.

(** The [BackOff] interface. *)
Class BackOff (B : Type) : Type := {
  NextBackOff : B -> Duration * B;
  Reset : B -> B
}.

(** [backOffTries], the value behind [WithMaxRetries]; both counters are
    [uint64]. *)
Record backOffTries (B : Type) : Type := {
  delegate : B;
  maxTries : N;
  numTries : N
}.
Arguments delegate {B} _.
Arguments maxTries {B} _.
Arguments numTries {B} _.

(** [numTries] stays below [maxTries], so the increment never wraps. *)
#[global] Instance backOffTries_BackOff {B} `{BackOff B} : BackOff (backOffTries B) := {
  NextBackOff b :=
    if (maxTries b =? 0)%N then (Stop, b)
    else if (maxTries b <=? numTries b)%N then (Stop, b)
    else
      let '(next, d) := NextBackOff (delegate b) in
      (next, {| delegate := d; maxTries := maxTries b; numTries := (numTries b + 1)%N |});
  Reset b :=
    {| delegate := Reset (delegate b); maxTries := maxTries b; numTries := 0%N |}
}.

Definition WithMaxRetries {B} (b : B) (max : N) : backOffTries B :=
  {| delegate := b; maxTries := max; numTries := 0%N |}.

(** [backoff.Permanent(err)]; a nil error stays nil.  (Releases of the
    library that wrap nil as well make [Retry] return the wrapped nil, which
    is the same result.) *)
Definition Permanent (err : option error) : option error :=
  match err with
  | Some e => Some (PermanentError e)
  | None => None
  end.

(** What [Retry] makes of the error an attempt returns: nil ends the loop
    with success, an error that [errors.As] finds to be a
    [*PermanentError] ends it with that error's [Err], any other error is
    retried while the back-off policy allows. *)
Inductive Outcome : Type :=
| Success
| Transient (cause : error)
| PermanentFailure (cause : error).

Definition classify (err : option error) : Outcome :=
  match err with
  | None => Success
  | Some e =>
      match As_PermanentError e with
      | Some inner => PermanentFailure inner
      | None => Transient e
      end
  end.

(** The loop of [RetryNotifyWithTimer], after [b.Reset()].  The timer wait
    between two attempts changes nothing but the time and is left out; the
    context is the background context, which is never cancelled. *)
Fixpoint RetryLoop {St B} `{BackOff B} (fuel : nat)
    (operation : M St (option error)) (b : B) : M St (option error) :=
  match fuel with
  | O => diverge
  | S fuel' =>
      err <- operation ;;
      match classify err with
      | Success => ret None
      | PermanentFailure inner => ret (Some inner)
      | Transient e =>
          let '(next, b') := NextBackOff b in
          if next =? Stop then ret (Some e)
          else RetryLoop fuel' operation b'
      end
  end.

(** [backoff.Retry(operation, b)] *)
Definition Retry {St B} `{BackOff B} (fuel : nat)
    (operation : M St (option error)) (b : B) : M St (option error) :=
  RetryLoop fuel operation (Reset b).

End backoff.

(** ** [github.com/hashicorp/terraform-plugin-sdk/v2/diag] *)

Module diag.

Inductive Severity : Type := Severity_Error | Severity_Warning.

Record Diagnostic : Type := {
  Severity_ : Severity;
  Summary : string
}.

Definition Diagnostics : Type := list Diagnostic.

(** [diag.FromErr(err)] *)
Definition FromErr (err : option error) : Diagnostics :=
  match err with
  | Some e => [ {| Severity_ := Severity_Error; Summary := Error e |} ]
  | None => []
  end.

Definition HasError (diags : Diagnostics) : bool :=
  existsb (fun d => match Severity_ d with Severity_Error => true | Severity_Warning => false end) diags.

End diag.

(** ** [github.com/hashicorp/terraform-plugin-sdk/v2/helper/schema] *)

Module schema.

#[local] Set Warnings "-register-all".

(** What an attribute of a resource can hold; an element of a set is a
    [map[string]interface{}], kept as an association list. *)
Inductive Value : Type :=
| VString (s : string)
| VBool (b : bool)
| VInt (n : Z)
| VFloat (f : float)
| VSet (items : list (list (string * Value))).

(** [*schema.ResourceData]: the identifier, the attribute values that
    [Get] reads and [Set] writes, the attributes for which the planned
    value differs from the last-known one ([HasChange]), and the create
    timeout. *)
Record ResourceData : Type := {
  Id : string;
  attrs : gmap string Value;
  changed : gset string;
  TimeoutCreate : Duration
}.

Definition SetId (v : string) (d : ResourceData) : ResourceData :=
  {| Id := v; attrs := attrs d; changed := changed d; TimeoutCreate := TimeoutCreate d |}.

Definition Set_ (key : string) (v : Value) (d : ResourceData) : ResourceData :=
  {| Id := Id d; attrs := <[key := v]> (attrs d); changed := changed d;
     TimeoutCreate := TimeoutCreate d |}.

(** [d.Set(key, nil)] *)
Definition SetNil (key : string) (d : ResourceData) : ResourceData :=
  {| Id := Id d; attrs := delete key (attrs d); changed := changed d;
     TimeoutCreate := TimeoutCreate d |}.

(** [d.Get(key).(string)] for an attribute of [TypeString]: an unset
    attribute reads as the zero value. *)
Definition GetString (d : ResourceData) (key : string) : string :=
  match attrs d !! key with
  | Some (VString s) => s
  | _ => ""
  end.

(** [d.Get(key).(bool)] for an attribute of [TypeBool]. *)
Definition GetBool (d : ResourceData) (key : string) : bool :=
  match attrs d !! key with
  | Some (VBool b) => b
  | _ => false
  end.

(** [d.Get(key).(int)] for an attribute of [TypeInt]. *)
Definition GetInt (d : ResourceData) (key : string) : Z :=
  match attrs d !! key with
  | Some (VInt n) => n
  | _ => 0
  end.

(** [d.GetOk(key)] followed by [List()] on the set, for an attribute
    of [TypeSet]: not ok when the set is unset or empty. *)
Definition GetOkSet (d : ResourceData) (key : string)
    : option (list (list (string * Value))) :=
  match attrs d !! key with
  | Some (VSet (item :: items)) => Some (item :: items)
  | _ => None
  end.

Definition HasChange (d : ResourceData) (key : string) : bool :=
  bool_decide (key ∈ changed d).

(** [m[key]] on a [map[string]interface{}] *)
Fixpoint index (m : list (string * Value)) (key : string) : option Value :=
  match m with
  | [] => None
  | (k, v) :: rest => if String.eqb k key then Some v else index rest key
  end.

End schema.

(** ** [github.com/philips-software/go-hsdp-api/console] *)

Module console.

Record Threshold : Type := {
  Threshold_Name : string;
  Threshold_Enabled : bool;
  Min : float;
  Max : float
}.

Record Application : Type := {
  Name : string;
  Enabled : bool;
  MinInstances : Z;
  MaxInstances : Z;
  Thresholds : list Threshold
}.

(** [*console.Response]: the status code of the embedded HTTP response and
    [Error.Message]. *)
Record Response : Type := {
  StatusCode : Z;
  Error_Message : string
}.

(** [*console.Client], as far as the autoscaler resource calls it. *)
Record Client (Remote : Type) : Type := {
  Metrics_UpdateApplicationAutoscaler :
    string -> Application -> Remote ->
    (option Application * option Response * option error) * Remote
}.
Arguments Metrics_UpdateApplicationAutoscaler {Remote} _ _ _ _.

End console.

(** ** [github.com/philips-software/go-hsdp-api/cdr] and the FHIR STU3 protos *)

Module cdr.

(** [*datatypes_go_proto.Reference]: the provider writes organization
    references only, the server may answer with another kind. *)
Inductive Reference : Type :=
| Reference_OrganizationId (Value : string)
| Reference_other.

(** [ref.GetOrganizationId()], nil for another kind of reference. *)
Definition GetOrganizationId (r : Reference) : option string :=
  match r with
  | Reference_OrganizationId v => Some v
  | Reference_other => None
  end.

(** [*resources_go_proto.Organization]; [Id] and [Name] stand for
    [Id.Value] and [Name.Value], which the code reads without a nil test. *)
Record Organization : Type := {
  Id : string;
  Name : string;
  PartOf : option Reference
}.

Inductive ParameterValue : Type :=
| StringValue (Value : string)
| OtherValue.

Record Parameters_Parameter : Type := {
  Parameter_Name : string;
  Parameter_Value : ParameterValue
}.

(** [*resources_go_proto.ContainedResource] *)
Inductive ContainedResource : Type :=
| Contained_Parameters (Parameter_ : list Parameters_Parameter)
| Contained_other.

(** [contained.GetParameters()], nil unless the resource is a Parameters
    resource (and for a nil receiver). *)
Definition GetParameters (c : option ContainedResource)
    : option (list Parameters_Parameter) :=
  match c with
  | Some (Contained_Parameters ps) => Some ps
  | _ => None
  end.

(** [*cdr.Response]: status code and header of the embedded HTTP
    response. *)
Record Response : Type := {
  StatusCode : Z;
  Header : gmap string (list string)
}.

(** [resp.Header.Get(key)] *)
Definition Header_Get (h : gmap string (list string)) (key : string) : string :=
  match h !! key with
  | Some (v :: _) => v
  | _ => ""
  end.

(** [*url.URL] *)
Record URL : Type := { URL_String : string }.

(** [*cdr.Client], as far as the organization resource calls it.  The
    request options of [Post] and [Get] only rewrite the request URL; the
    value they install is passed as an argument. *)
Record Client (Remote : Type) : Type := {
  TenantSTU3_GetOrganizationByID :
    string -> Remote ->
    (option Organization * option Response * option error) * Remote;
  TenantSTU3_Onboard :
    Organization -> Remote ->
    (option Organization * option Response * option error) * Remote;
  OperationsSTU3_Patch :
    string -> list Byte.byte -> Remote ->
    (option ContainedResource * option Response * option error) * Remote;
  OperationsSTU3_Delete :
    string -> Remote ->
    (bool * option Response * option error) * Remote;
  OperationsSTU3_Post :
    string -> list Byte.byte -> string -> Remote ->
    (option ContainedResource * option Response * option error) * Remote;
  OperationsSTU3_Get :
    string -> URL -> Remote ->
    (option ContainedResource * option Response * option error) * Remote
}.
Arguments TenantSTU3_GetOrganizationByID {Remote} _ _ _.
Arguments TenantSTU3_Onboard {Remote} _ _ _.
Arguments OperationsSTU3_Patch {Remote} _ _ _ _.
Arguments OperationsSTU3_Delete {Remote} _ _ _.
Arguments OperationsSTU3_Post {Remote} _ _ _ _ _.
Arguments OperationsSTU3_Get {Remote} _ _ _ _.

End cdr.

(** ** [github.com/philips-software/go-hsdp-api/iam] *)

Module iam.

Record Organization : Type := {
  ID : string;
  Name : string;
  Description : string;
  Type_ : string;
  ExternalID : string;
  DisplayName : string;
  Active : bool;
  Parent_Value : string
}.

Record Response : Type := { StatusCode : Z }.

(** [*iam.Client], as far as read, update and delete call it. *)
Record Client (Remote : Type) : Type := {
  Organizations_GetOrganizationByID :
    string -> Remote ->
    (option Organization * option Response * option error) * Remote;
  Organizations_UpdateOrganization :
    Organization -> Remote ->
    (option Organization * option Response * option error) * Remote;
  Organizations_DeleteOrganization :
    Organization -> Remote ->
    (bool * option Response * option error) * Remote
}.
Arguments Organizations_GetOrganizationByID {Remote} _ _ _.
Arguments Organizations_UpdateOrganization {Remote} _ _ _.
Arguments Organizations_DeleteOrganization {Remote} _ _ _.

End iam.

(** ** The remote calls a reconciliation makes, and its state *)

Inductive Call : Type :=
| ConsoleUpdateApplicationAutoscaler (instanceID : string) (app : console.Application)
| CDRGetOrganizationByID (orgID : string)
| CDROnboard (org : cdr.Organization)
| CDRPatch (path : string) (patch : list Byte.byte)
| CDRDelete (path : string)
| CDRPost (path : string) (body : list Byte.byte) (opaque : string)
| CDRGet (id : string) (url : cdr.URL)
| IAMGetOrganizationByID (id : string)
| IAMUpdateOrganization (org : iam.Organization)
| IAMDeleteOrganization (org : iam.Organization).

Definition isOnboard (c : Call) : bool :=
  match c with
  | CDROnboard _ => true
  | _ => false
  end.

Definition isPatch (c : Call) : bool :=
  match c with
  | CDRPatch _ _ => true
  | _ => false
  end.

Definition isUpdateOrganization (c : Call) : bool :=
  match c with
  | IAMUpdateOrganization _ => true
  | _ => false
  end.

(** The state one CRUD callback works on: the resource data [d] it was
    handed (a pointer in Go, updated in place), the remote side, and the
    calls made on it so far, oldest first. *)
Record State (Remote : Type) : Type := {
  data : schema.ResourceData;
  remote : Remote;
  calls : list Call
}.
Arguments data {Remote} _.
Arguments remote {Remote} _.
Arguments calls {Remote} _.

Definition getData {Remote} : M (State Remote) schema.ResourceData :=
  fun s => (Ok (data s), s).

Definition updateData {Remote} (f : schema.ResourceData -> schema.ResourceData)
    : M (State Remote) unit :=
  fun s => (Ok tt, {| data := f (data s); remote := remote s; calls := calls s |}).

(** An action on the remote side that is none of the API calls above. *)
Definition onRemote {Remote A} (f : Remote -> A * Remote) : M (State Remote) A :=
  fun s =>
    match f (remote s) with
    | (a, r) => (Ok a, {| data := data s; remote := r; calls := calls s |})
    end.

(** One call on the remote API: it is logged, and the remote side moves on. *)
Definition invoke {Remote A} (c : Call) (f : Remote -> A * Remote) : M (State Remote) A :=
  fun s =>
    match f (remote s) with
    | (a, r) => (Ok a, {| data := data s; remote := r; calls := calls s ++ [c] |})
    end.

(** ** Package [config] of the provider *)

Module config.

(** [*config.Config]: the clients it hands out (each with the error of its
    construction), the time zone and the STU3 JSON marshaller. *)
Record Config (Remote : Type) : Type := {
  TimeZone : string;
  ConsoleClient : console.Client Remote + error;
  IAMClient : iam.Client Remote + error;
  STU3MA_MarshalResource : option cdr.Organization -> list Byte.byte * option error
}.
Arguments TimeZone {Remote} _.
Arguments ConsoleClient {Remote} _.
Arguments IAMClient {Remote} _.
Arguments STU3MA_MarshalResource {Remote} _ _.

End config.

(** ** What the three files take from elsewhere

    Library functions, and the declarations of the packages [config] and
    [tools] of this provider that the files use: the exponential back-off
    policy, [url.Parse], [path.Join], [jsonpatch.DiffBytes],
    [stu3.NewOrganization], the texts of two sentinel errors and of the
    errors of the state-change waiter, and the classifier of the onboarding
    call, which sees the client, the response and the error (and may act on
    the remote side, for instance to renew a token). *)
Class External (Remote : Type) : Type := {
  ExponentialBackOff : Type;
  ExponentialBackOff_BackOff :: backoff.BackOff ExponentialBackOff;
  NewExponentialBackOff : ExponentialBackOff;
  url_Parse : string -> cdr.URL + error;
  path_Join : list string -> string;
  jsonpatch_DiffBytes : list Byte.byte -> list Byte.byte -> list Byte.byte * option error;
  stu3_NewOrganization : string -> string -> string -> cdr.Organization + error;
  ErrIntermittent_text : string;
  ErrInvalidResponse_text : string;
  tools_CheckForIAMPermissionErrors :
    cdr.Client Remote -> option cdr.Response -> option error ->
    Remote -> option error * Remote;
  UnexpectedStateError_text : string -> list string -> string;
  TimeoutError_text : string -> list string -> Duration -> string;
  NotFoundError_text : nat -> string
}.

(** [config.ErrIntermittent] and [config.ErrInvalidResponse] are
    package-level sentinel errors. *)
Definition ErrIntermittent {Remote} `{!External Remote} : error :=
  errorString ErrIntermittent_text.

Definition ErrInvalidResponse {Remote} `{!External Remote} : error :=
  errorString ErrInvalidResponse_text.

(** ** [helper/resource]: waiting for a state change *)

Module resource.

(** [resource.StateChangeConf], with the fields the purge sets.  [Refresh]
    answers with a result (an [interface{}], nil or not), a state label
    and an error. *)
Record StateChangeConf (St R : Type) : Type := {
  Pending : list string;
  Target : list string;
  Refresh : M St (option R * string * option error);
  Timeout : Duration;
  Delay : Duration;
  MinTimeout : Duration
}.
Arguments Pending {St R} _.
Arguments Target {St R} _.
Arguments Refresh {St R} _.
Arguments Timeout {St R} _.
Arguments Delay {St R} _.
Arguments MinTimeout {St R} _.

Definition inLabels (state : string) (labels : list string) : bool :=
  existsb (String.eqb state) labels.

Section Wait.
Context {Remote : Type} `{!External Remote} {St R : Type}.

(** The refresh loop of [WaitForStateContext], with [NotFoundChecks] at
    its default 20 and [ContinuousTargetOccurence] at its default 1.
    [rounds] is the number of refreshes that complete before
    [conf.Timeout] has passed: the waits between refreshes only
    consume time, and when the time is up the waiter answers with a
    timeout error. *)
Fixpoint refreshLoop (rounds : nat) (conf : StateChangeConf St R)
    (notfoundTick : nat) (lastState : string)
    : M St (option R * option error) :=
  match rounds with
  | O =>
      ret (None, Some (errorString
             (TimeoutError_text lastState (Target conf) (Timeout conf))))
  | S rounds' =>
      r <- Refresh conf ;;
      let '(res, currentState, err) := r in
      match err with
      | Some _ => ret (res, err)
      | None =>
          match res with
          | None =>
              match Target conf with
              | [] => ret (None, None)
              | _ :: _ =>
                  if (20 <? S notfoundTick)%nat
                  then ret (None, Some (errorString (NotFoundError_text (S notfoundTick))))
                  else refreshLoop rounds' conf (S notfoundTick) currentState
              end
          | Some _ =>
              if inLabels currentState (Target conf) then ret (res, None)
              else if inLabels currentState (Pending conf)
              then refreshLoop rounds' conf O currentState
              else
                match Pending conf with
                | _ :: _ =>
                    ret (res, Some (errorString
                           (UnexpectedStateError_text currentState (Target conf))))
                | [] => refreshLoop rounds' conf O currentState
                end
          end
      end
  end.

(** [conf.WaitForStateContext(ctx)], for a context that is not
    cancelled. *)
Definition WaitForStateContext (rounds : nat) (conf : StateChangeConf St R)
    : M St (option R * option error) :=
  refreshLoop rounds conf O "".

End Wait.

End resource.

(** ** [internal/services/metrics/resource_metrics_autoscaler.go] *)

Module metrics.

Record threshold : Type := { fieldName : string }.

(** [thresholdMapping]; the schema constructor of an entry is used by the
    read callback only and is left out. *)
Definition thresholdMapping : list (string * threshold) :=
  [ ("cpu", {| fieldName := "threshold_cpu" |});
    ("memory", {| fieldName := "threshold_memory" |});
    ("http-rate", {| fieldName := "threshold_http_rate" |});
    ("http-latency", {| fieldName := "threshold_http_latency" |}) ].

Section Autoscaler.
Context {Remote : Type} `{!External Remote}.

Definition checkForIntermittentErrors (resp : option console.Response)
    (err : option error) : option error :=
  match resp with
  | None => err
  | Some r =>
      if console.StatusCode r >? 500 then err
      else if console.StatusCode r =? StatusInternalServerError then
        backoff.Permanent
          (Some (Errorf_w ("console: " +:+ console.Error_Message r +:+ " ") err))
      else if (console.StatusCode r =? StatusBadRequest)
              && Contains (console.Error_Message r) "invalid character"
      then Some ErrIntermittent
      else backoff.Permanent err
  end.

(** The closure [operation] of [updateWithRetry]; it assigns the
    variable [created] of the enclosing function. *)
Definition updateOperation (client : console.Client Remote) (instanceID : string)
    (app : console.Application)
    : M (option console.Application * State Remote) (option error) :=
  r <- liftSt (invoke (ConsoleUpdateApplicationAutoscaler instanceID app)
                 (console.Metrics_UpdateApplicationAutoscaler client instanceID app)) ;;
  let '(created, resp, err) := r in
  setLocal created ;;;
  ret (checkForIntermittentErrors resp err).

(** The fuel 31 is one first attempt and the 30 retries of the policy. *)
Definition updateWithRetry (client : console.Client Remote) (instanceID : string)
    (app : console.Application)
    : M (State Remote) (option console.Application * option error) :=
  r <- withLocal None
         (backoff.Retry 31 (updateOperation client instanceID app)
            (backoff.WithMaxRetries NewExponentialBackOff 30)) ;;
  let '(err, created) := r in
  ret (created, err).

(** [v.(float64)] and [v.(bool)] on an [interface{}] read from a map. *)
Definition assertFloat64 {St} (v : option schema.Value) : M St float :=
  match v with
  | Some (schema.VFloat f) => ret f
  | _ => panic
  end.

Definition assertBool {St} (v : option schema.Value) : M St bool :=
  match v with
  | Some (schema.VBool b) => ret b
  | _ => panic
  end.

(** The inner loop of the create callback, over the elements of one
    threshold set. *)
Fixpoint appendThresholds {St} (key : string)
    (vL : list (list (string * schema.Value))) (acc : list console.Threshold)
    : M St (list console.Threshold) :=
  match vL with
  | [] => ret acc
  | mVi :: rest =>
      min <- assertFloat64 (schema.index mVi "min") ;;
      max <- assertFloat64 (schema.index mVi "max") ;;
      enabled <- assertBool (schema.index mVi "enabled") ;;
      appendThresholds key rest
        (acc ++ [ {| console.Threshold_Name := key;
                     console.Threshold_Enabled := enabled;
                     console.Min := min;
                     console.Max := max |} ])
  end.

(** The outer loop, [for key, mapping := range thresholdMapping].  Go
    visits the entries of a map in an order of its choosing; [order] is
    the order of this run. *)
Fixpoint rangeThresholds {St} (d : schema.ResourceData)
    (order : list (string * threshold)) (acc : list console.Threshold)
    : M St (list console.Threshold) :=
  match order with
  | [] => ret acc
  | (key, mapping) :: rest =>
      match schema.GetOkSet d (fieldName mapping) with
      | Some vL =>
          acc' <- appendThresholds key vL acc ;;
          rangeThresholds d rest acc'
      | None => rangeThresholds d rest acc
      end
  end.

Definition resourceMetricsAutoscalerCreate (order : list (string * threshold))
    (m : config.Config Remote) : M (State Remote) diag.Diagnostics :=
  match config.ConsoleClient m with
  | inr err => ret (diag.FromErr (Some err))
  | inl client =>
      d <- getData ;;
      let instanceID := schema.GetString d "metrics_instance_id" in
      thresholds <- rangeThresholds d order [] ;;
      let app :=
        {| console.Name := schema.GetString d "app_name";
           console.Enabled := schema.GetBool d "enabled";
           console.MinInstances := schema.GetInt d "min_instances";
           console.MaxInstances := schema.GetInt d "max_instances";
           console.Thresholds := thresholds |} in
      r <- updateWithRetry client instanceID app ;;
      let '(created, err) := r in
      match err with
      | Some _ => ret (diag.FromErr err)
      | None =>
          match created with
          | None =>
              ret (diag.FromErr (Some (errorString "error creating/updating autoscaler")))
          | Some app' =>
              updateData (schema.SetId (instanceID +:+ console.Name app')) ;;;
              ret []
          end
      end
  end.

Definition resourceMetricsAutoscalerUpdate (order : list (string * threshold))
    (m : config.Config Remote) : M (State Remote) diag.Diagnostics :=
  resourceMetricsAutoscalerCreate order m.

End Autoscaler.

End metrics.

(** ** [internal/services/cdr/org/stu3.go] *)

Module org.

Definition setName (v : string) (o : cdr.Organization) : cdr.Organization :=
  {| cdr.Id := cdr.Id o; cdr.Name := v; cdr.PartOf := cdr.PartOf o |}.

Definition setPartOf (v : option cdr.Reference) (o : cdr.Organization)
    : cdr.Organization :=
  {| cdr.Id := cdr.Id o; cdr.Name := cdr.Name o; cdr.PartOf := v |}.

(** [resp != nil && resp.StatusCode == code] *)
Definition hasStatus (resp : option cdr.Response) (code : Z) : bool :=
  match resp with
  | Some r => cdr.StatusCode r =? code
  | None => false
  end.

Section STU3.
Context {Remote : Type} `{!External Remote}.

(** The closure [operation] of [stu3Create]; it assigns [onboardedOrg]
    (and [err], which the caller overwrites with the result of
    [Retry]).  [resp.Response] dereferences [resp]. *)
Definition onboardOperation (client : cdr.Client Remote) (org : cdr.Organization)
    : M (option cdr.Organization * State Remote) (option error) :=
  r <- liftSt (invoke (CDROnboard org) (cdr.TenantSTU3_Onboard client org)) ;;
  let '(onboardedOrg, resp, err) := r in
  setLocal onboardedOrg ;;;
  match resp with
  | None => panic
  | Some _ => liftSt (onRemote (tools_CheckForIAMPermissionErrors client resp err))
  end.

(** [resourceCDROrgUpdate], the update callback of the resource, is
    declared next to the files at hand and is an argument here.  The
    fuel 9 is one first attempt and the 8 retries of the policy. *)
Definition stu3Create (resourceCDROrgUpdate : M (State Remote) diag.Diagnostics)
    (c : config.Config Remote) (client : cdr.Client Remote)
    : M (State Remote) diag.Diagnostics :=
  d <- getData ;;
  let orgID := schema.GetString d "org_id" in
  let name := schema.GetString d "name" in
  let partOf := schema.GetString d "part_of" in
  match stu3_NewOrganization (config.TimeZone c) orgID name with
  | inr err => ret (diag.FromErr (Some err))
  | inl org0 =>
      let org :=
        if negb (String.eqb partOf "")
        then setPartOf (Some (cdr.Reference_OrganizationId partOf)) org0
        else org0 in
      r <- invoke (CDRGetOrganizationByID orgID)
             (cdr.TenantSTU3_GetOrganizationByID client orgID) ;;
      let '(onboardedOrg, _, err) := r in
      match err, onboardedOrg with
      | None, Some found =>
          updateData (schema.SetId (cdr.Id found)) ;;;
          resourceCDROrgUpdate
      | _, _ =>
          r <- withLocal onboardedOrg
                 (backoff.Retry 9 (onboardOperation client org)
                    (backoff.WithMaxRetries NewExponentialBackOff 8)) ;;
          let '(err, onboardedOrg) := r in
          match err with
          | Some _ => ret (diag.FromErr err)
          | None =>
              match onboardedOrg with
              | None => panic
              | Some onboarded =>
                  updateData (schema.SetId (cdr.Id onboarded)) ;;;
                  ret []
              end
          end
      end
  end.

Definition stu3Read (client : cdr.Client Remote) : M (State Remote) diag.Diagnostics :=
  d <- getData ;;
  let orgID := schema.GetString d "org_id" in
  r <- invoke (CDRGetOrganizationByID orgID)
         (cdr.TenantSTU3_GetOrganizationByID client orgID) ;;
  let '(org, resp, err) := r in
  match err with
  | Some e =>
      if hasStatus resp StatusNotFound then
        updateData (schema.SetId "") ;;;
        ret []
      else
        ret [ {| diag.Severity_ := diag.Severity_Error; diag.Summary := Error e |} ]
  | None =>
      match org with
      | None => panic
      | Some o =>
          updateData (schema.Set_ "name" (schema.VString (cdr.Name o))) ;;;
          match cdr.PartOf o with
          | Some ref =>
              (* [Set] is handed a pointer: a nil one clears the
                 attribute, another one is not a string and is refused,
                 and the code drops the error of [Set]. *)
              match cdr.GetOrganizationId ref with
              | None => updateData (schema.SetNil "part_of")
              | Some _ => ret tt
              end
          | None => ret tt
          end ;;;
          ret []
      end
  end.

Definition stu3Update (client : cdr.Client Remote) (m : config.Config Remote)
    : M (State Remote) diag.Diagnostics :=
  d <- getData ;;
  let id := schema.Id d in
  r <- invoke (CDRGetOrganizationByID id)
         (cdr.TenantSTU3_GetOrganizationByID client id) ;;
  let '(org, _, err) := r in
  match err with
  | Some _ => ret (diag.FromErr err)
  | None =>
      let '(jsonOrg, err) := config.STU3MA_MarshalResource m org in
      match err with
      | Some _ => ret (diag.FromErr err)
      | None =>
          r1 <- (if schema.HasChange d "name" then
                   match org with
                   | None => panic
                   | Some o => ret (Some (setName (schema.GetString d "name") o), true)
                   end
                 else ret (org, false)) ;;
          r2 <- (if schema.HasChange d "part_of" then
                   let partOf := schema.GetString d "part_of" in
                   match fst r1 with
                   | None => panic
                   | Some o =>
                       if negb (String.eqb partOf "")
                       then ret (Some (setPartOf
                                         (Some (cdr.Reference_OrganizationId partOf)) o),
                                 true)
                       else ret (Some (setPartOf None o), true)
                   end
                 else ret r1) ;;
          let '(org', madeChanges) := r2 in
          if negb madeChanges then ret []
          else
            let '(changedOrg, _) := config.STU3MA_MarshalResource m org' in
            let '(patch, err) := jsonpatch_DiffBytes jsonOrg changedOrg in
            match err with
            | Some _ => ret (diag.FromErr err)
            | None =>
                r <- invoke (CDRPatch ("Organization/" +:+ id) patch)
                       (cdr.OperationsSTU3_Patch client ("Organization/" +:+ id) patch) ;;
                let '(_, _, err) := r in
                match err with
                | Some _ => ret (diag.FromErr err)
                | None => ret []
                end
            end
      end
  end.

(** The loop of the refresh function over [params.Parameter]: the value
    of the first parameter named "status"; reading the string value of a
    parameter that holds another kind of value is a nil dereference. *)
Fixpoint statusParameter (params : list cdr.Parameters_Parameter) : Res (option string) :=
  match params with
  | [] => Ok None
  | p :: rest =>
      if String.eqb (cdr.Parameter_Name p) "status" then
        match cdr.Parameter_Value p with
        | cdr.StringValue v => Ok (Some v)
        | cdr.OtherValue => Panic
        end
      else statusParameter rest
  end.

(** The result of a refresh is the [*cdr.Response], nil or not, boxed in
    an [interface{}]; only the literal [nil] of the first closure is a
    nil interface.  In that closure [err] is the closure's own named
    result, which is nil. *)
Definition stu3PurgeStateRefreshFunc (client : cdr.Client Remote)
    (purgeStatusURL id : string)
    : M (State Remote) (option (option cdr.Response) * string * option error) :=
  match url_Parse purgeStatusURL with
  | inr _ => ret (None, "FAILED", None)
  | inl statusURL =>
      r <- invoke (CDRGet id statusURL) (cdr.OperationsSTU3_Get client id statusURL) ;;
      let '(contained, resp, err) := r in
      match err with
      | Some _ => ret (Some resp, "FAILED", err)
      | None =>
          match resp with
          | None => panic
          | Some rsp =>
              if cdr.StatusCode rsp =? StatusAccepted then
                ret (Some resp, "PURGING", None)
              else
                match cdr.GetParameters contained with
                | None => panic
                | Some params =>
                    status <- liftRes (statusParameter params) ;;
                    match status with
                    | Some v => ret (Some resp, v, None)
                    | None =>
                        ret (Some resp, "FAILED",
                             Some (errorString
                                     ("missing status parameter for GET "
                                      +:+ purgeStatusURL)))
                    end
                end
          end
      end
  end.

(** The [StateChangeConf] that [stu3Delete] builds once the purge is
    accepted with response [rsp]. *)
Definition purgeStateConf (client : cdr.Client Remote) (d : schema.ResourceData)
    (rsp : cdr.Response)
    : resource.StateChangeConf (State Remote) (option cdr.Response) :=
  {| resource.Pending := ["PURGING"];
     resource.Target := ["SUCCESS"];
     resource.Refresh :=
       stu3PurgeStateRefreshFunc client
         (cdr.Header_Get (cdr.Header rsp) "Location") (schema.Id d);
     resource.Timeout := schema.TimeoutCreate d;
     resource.Delay := 10 * Second;
     resource.MinTimeout := 3 * Second |}.

Definition stu3Delete (rounds : nat) (client : cdr.Client Remote)
    : M (State Remote) diag.Diagnostics :=
  d <- getData ;;
  let id := schema.Id d in
  let purgeDelete := schema.GetBool d "purge_delete" in
  if negb purgeDelete then
    r <- invoke (CDRDelete (path_Join ["Organization"; id]))
           (cdr.OperationsSTU3_Delete client (path_Join ["Organization"; id])) ;;
    let '(deleted, resp, err) := r in
    if hasStatus resp StatusNotFound then
      updateData (schema.SetId "") ;;;
      ret []
    else
      match err with
      | Some _ => ret (diag.FromErr err)
      | None =>
          if negb deleted then
            match resp with
            | Some rsp =>
                ret (diag.FromErr (Some (errorString
                       ("delete failed with status code "
                        +:+ pretty (cdr.StatusCode rsp)))))
            | None =>
                ret (diag.FromErr (Some (errorString "delete failed with nil response")))
            end
          else
            updateData (schema.SetId "") ;;;
            ret []
      end
  else
    r <- invoke (CDRPost (path_Join ["$purge"]) [] ("/store/fhir/" +:+ id +:+ "/$purge"))
           (cdr.OperationsSTU3_Post client (path_Join ["$purge"]) []
              ("/store/fhir/" +:+ id +:+ "/$purge")) ;;
    let '(_, resp, err) := r in
    if hasStatus resp StatusNotFound then
      updateData (schema.SetId "") ;;;
      ret []
    else
      match err with
      | Some _ => ret (diag.FromErr err)
      | None =>
          match resp with
          | None =>
              ret (diag.FromErr (Some (errorString
                     "unexpected nil response for $purge operation")))
          | Some rsp =>
              if negb (cdr.StatusCode rsp =? StatusAccepted) then
                ret (diag.FromErr (Some (errorString
                       ("$purge operation returned unexpected statusCode "
                        +:+ pretty (cdr.StatusCode rsp)))))
              else
                r <- resource.WaitForStateContext rounds (purgeStateConf client d rsp) ;;
                let '(_, err) := r in
                match err with
                | Some _ =>
                    ret (diag.FromErr (Some (errorString
                           ("error waiting for FHIR ORG purge '" +:+ id
                            +:+ "' operation: " +:+ fmt_v err))))
                | None =>
                    updateData (schema.SetId "") ;;;
                    ret []
                end
          end
      end.

End STU3.

End org.

(** ** [internal/services/iam/resource_iam_organization.go] *)

Module iam_org.

(** [resp != nil && resp.StatusCode == code] *)
Definition hasStatus (resp : option iam.Response) (code : Z) : bool :=
  match resp with
  | Some r => iam.StatusCode r =? code
  | None => false
  end.

Section Organization.
Context {Remote : Type} `{!External Remote}.

Definition resourceIAMOrgRead (m : config.Config Remote)
    : M (State Remote) diag.Diagnostics :=
  match config.IAMClient m with
  | inr err => ret (diag.FromErr (Some err))
  | inl client =>
      d <- getData ;;
      let id := schema.Id d in
      r <- invoke (IAMGetOrganizationByID id)
             (iam.Organizations_GetOrganizationByID client id) ;;
      let '(org, resp, err) := r in
      match err with
      | Some _ =>
          if hasStatus resp StatusNotFound then
            updateData (schema.SetId "") ;;;
            ret []
          else ret (diag.FromErr err)
      | None =>
          match org with
          | None => panic
          | Some o =>
              updateData (schema.Set_ "description" (schema.VString (iam.Description o))) ;;;
              updateData (schema.Set_ "name" (schema.VString (iam.Name o))) ;;;
              updateData (schema.Set_ "external_id" (schema.VString (iam.ExternalID o))) ;;;
              updateData (schema.Set_ "parent_org_id" (schema.VString (iam.Parent_Value o))) ;;;
              updateData (schema.Set_ "display_name" (schema.VString (iam.DisplayName o))) ;;;
              updateData (schema.Set_ "active" (schema.VBool (iam.Active o))) ;;;
              updateData (schema.Set_ "type" (schema.VString (iam.Type_ o))) ;;;
              ret []
          end
      end
  end.

Definition resourceIAMOrgUpdate (m : config.Config Remote)
    : M (State Remote) diag.Diagnostics :=
  match config.IAMClient m with
  | inr err => ret (diag.FromErr (Some err))
  | inl client =>
      d <- getData ;;
      let id := schema.Id d in
      r <- invoke (IAMGetOrganizationByID id)
             (iam.Organizations_GetOrganizationByID client id) ;;
      let '(org, _, err) := r in
      match err with
      | Some _ => ret (diag.FromErr err)
      | None =>
          if schema.HasChange d "description" || schema.HasChange d "name"
             || schema.HasChange d "type" || schema.HasChange d "external_id"
             || schema.HasChange d "display_name"
          then
            match org with
            | None => panic
            | Some o =>
                let org' :=
                  {| iam.ID := iam.ID o;
                     iam.Name := schema.GetString d "name";
                     iam.Description := schema.GetString d "description";
                     iam.Type_ := schema.GetString d "type";
                     iam.ExternalID := schema.GetString d "external_id";
                     iam.DisplayName := schema.GetString d "display_name";
                     iam.Active := iam.Active o;
                     iam.Parent_Value := iam.Parent_Value o |} in
                r <- invoke (IAMUpdateOrganization org')
                       (iam.Organizations_UpdateOrganization client org') ;;
                let '(_, _, err) := r in
                match err with
                | Some _ => ret ([] ++ diag.FromErr err)
                | None => ret []
                end
            end
          else ret []
      end
  end.

Definition resourceIAMOrgDelete (m : config.Config Remote)
    : M (State Remote) diag.Diagnostics :=
  match config.IAMClient m with
  | inr err => ret (diag.FromErr (Some err))
  | inl client =>
      d <- getData ;;
      let id := schema.Id d in
      r <- invoke (IAMGetOrganizationByID id)
             (iam.Organizations_GetOrganizationByID client id) ;;
      let '(org, _, err) := r in
      match err with
      | Some _ => ret (diag.FromErr err)
      | None =>
          match org with
          | None => panic
          | Some o =>
              r <- invoke (IAMDeleteOrganization o)
                     (iam.Organizations_DeleteOrganization client o) ;;
              let '(ok, _, err) := r in
              match err with
              | Some _ => ret (diag.FromErr err)
              | None =>
                  if negb ok then ret (diag.FromErr (Some ErrInvalidResponse))
                  else ret []
              end
          end
      end
  end.

End Organization.

End iam_org.

(** ** Counting attempts

    [counted operation] is [operation] with a counter of its invocations
    next to the state; [afterBackOffs k b] is the policy [b] after [k] calls
    of [NextBackOff]. *)

Definition counted {St} (operation : M St (option error)) : M (nat * St) (option error) :=
  fun cs =>
    match operation (snd cs) with
    | (r, s') => (r, (S (fst cs), s'))
    end.

Fixpoint afterBackOffs {B} `{!backoff.BackOff B} (k : nat) (b : B) : B :=
  match k with
  | O => b
  | S k' => afterBackOffs k' (snd (backoff.NextBackOff b))
  end.

(** Every attempt of [operation] fails with an error that is not
    permanent. *)
Definition alwaysTransient {St} (operation : M St (option error)) : Prop :=
  forall s, exists e s',
    operation s = (Ok (Some e), s') /\ backoff.classify (Some e) = backoff.Transient e.

(** ** A concrete instance

    A remote side that counts the calls made on it, a back-off policy that
    never stops, and simple stand-ins for the library functions, to run the
    definitions above on examples. *)

Module Fixture.

Definition constantBackOff : backoff.BackOff unit :=
  {| backoff.NextBackOff := fun b => (500 * Millisecond, b);
     backoff.Reset := fun b => b |}.

Definition triesBackOff : backoff.BackOff (backoff.backOffTries unit) :=
  @backoff.backOffTries_BackOff unit constantBackOff.

Definition checkForIAMPermissionErrors (client : cdr.Client nat)
    (resp : option cdr.Response) (err : option error) (n : nat)
    : option error * nat :=
  match resp with
  | None => (err, n)
  | Some r =>
      if cdr.StatusCode r >? 500 then (err, n) else (backoff.Permanent err, n)
  end.

Definition external : External nat :=
  {| ExponentialBackOff := unit;
     ExponentialBackOff_BackOff := constantBackOff;
     NewExponentialBackOff := tt;
     url_Parse := fun s => inl {| cdr.URL_String := s |};
     path_Join := String.concat "/";
     jsonpatch_DiffBytes := fun _ after => (after, None);
     stu3_NewOrganization := fun _ orgID name =>
       inl {| cdr.Id := orgID; cdr.Name := name; cdr.PartOf := None |};
     ErrIntermittent_text := "intermittent error";
     ErrInvalidResponse_text := "invalid response";
     tools_CheckForIAMPermissionErrors := checkForIAMPermissionErrors;
     UnexpectedStateError_text := fun state _ => "unexpected state '" +:+ state +:+ "'";
     TimeoutError_text := fun state _ _ => "timeout, last state '" +:+ state +:+ "'";
     NotFoundError_text := fun _ => "couldn't find resource" |}.

(** An operation that fails with the same plain error at every attempt. *)
Definition unavailableOperation : M unit (option error) :=
  fun s => (Ok (Some (errorString "503 Service Unavailable")), s).

(** A console that answers every update with 503 and an error. *)
Definition unavailable : console.Response :=
  {| console.StatusCode := 503; console.Error_Message := "" |}.

Definition console503 : console.Client nat :=
  {| console.Metrics_UpdateApplicationAutoscaler := fun _ _ n =>
       ((None, Some unavailable, Some (errorString "503 Service Unavailable")), S n) |}.

Definition app0 : console.Application :=
  {| console.Name := "app"; console.Enabled := true;
     console.MinInstances := 1; console.MaxInstances := 10;
     console.Thresholds := [] |}.

Definition data0 : schema.ResourceData :=
  {| schema.Id := "org-1";
     schema.attrs := {[ "org_id" := schema.VString "org-1";
                        "name" := schema.VString "Hospital" ]};
     schema.changed := ∅;
     schema.TimeoutCreate := 1200 * Second |}.

Definition state0 : State nat := {| data := data0; remote := O; calls := [] |}.

Definition purgeState0 : State nat :=
  {| data := schema.Set_ "purge_delete" (schema.VBool true) data0;
     remote := O; calls := [] |}.

Definition hospital : cdr.Organization :=
  {| cdr.Id := "org-1"; cdr.Name := "Hospital"; cdr.PartOf := None |}.

Definition response (code : Z) : cdr.Response :=
  {| cdr.StatusCode := code; cdr.Header := {[ "Location" := ["/purge-status/1"] ]} |}.

(** A CDR store that holds the organization, deletes nothing ([Delete]
    answers 404) and accepts a purge, whose status check answers "still
    purging" once and "SUCCESS" afterwards. *)
Definition cdrClient : cdr.Client nat :=
  {| cdr.TenantSTU3_GetOrganizationByID := fun _ n =>
       ((Some hospital, Some (response 200), None), S n);
     cdr.TenantSTU3_Onboard := fun org n =>
       ((Some org, Some (response 201), None), S n);
     cdr.OperationsSTU3_Patch := fun _ _ n =>
       ((None, Some (response 200), None), S n);
     cdr.OperationsSTU3_Delete := fun _ n =>
       ((false, Some (response 404), Some (errorString "404 Not Found")), S n);
     cdr.OperationsSTU3_Post := fun _ _ _ n =>
       ((None, Some (response 202), None), S n);
     cdr.OperationsSTU3_Get := fun _ _ n =>
       if (n <=? 1)%nat
       then ((None, Some (response 202), None), S n)
       else ((Some (cdr.Contained_Parameters
                      [ {| cdr.Parameter_Name := "status";
                           cdr.Parameter_Value := cdr.StringValue "SUCCESS" |} ]),
              Some (response 200), None), S n) |}.

(** A CDR store in which the organization is gone. *)
Definition cdrClientGone : cdr.Client nat :=
  {| cdr.TenantSTU3_GetOrganizationByID := fun _ n =>
       ((None, Some (response 404), Some (errorString "404 Not Found")), S n);
     cdr.TenantSTU3_Onboard := cdr.TenantSTU3_Onboard cdrClient;
     cdr.OperationsSTU3_Patch := cdr.OperationsSTU3_Patch cdrClient;
     cdr.OperationsSTU3_Delete := cdr.OperationsSTU3_Delete cdrClient;
     cdr.OperationsSTU3_Post := cdr.OperationsSTU3_Post cdrClient;
     cdr.OperationsSTU3_Get := cdr.OperationsSTU3_Get cdrClient |}.

Definition iamOrg : iam.Organization :=
  {| iam.ID := "org-1"; iam.Name := "Hospital"; iam.Description := "";
     iam.Type_ := ""; iam.ExternalID := ""; iam.DisplayName := "";
     iam.Active := true; iam.Parent_Value := "root" |}.

(** An IAM in which the organization can be read, and whose delete call
    answers 404. *)
Definition iamClient : iam.Client nat :=
  {| iam.Organizations_GetOrganizationByID := fun _ n =>
       ((Some iamOrg, Some {| iam.StatusCode := 200 |}, None), S n);
     iam.Organizations_UpdateOrganization := fun org n =>
       ((Some org, Some {| iam.StatusCode := 200 |}, None), S n);
     iam.Organizations_DeleteOrganization := fun _ n =>
       ((false, Some {| iam.StatusCode := 404 |}, Some (errorString "404 Not Found")), S n) |}.


Definition configWith (iamc : iam.Client nat) : config.Config nat :=
  {| config.TimeZone := "UTC";
     config.ConsoleClient := inl console503;
     config.IAMClient := inl iamc;
     config.STU3MA_MarshalResource := fun _ => ([], None) |}.

Definition config0 : config.Config nat := configWith iamClient.

(** A CDR store in which the organization is gone and that answers every
    onboarding with 503 and an error. *)
Definition cdrClientUnavailable : cdr.Client nat :=
  {| cdr.TenantSTU3_GetOrganizationByID := cdr.TenantSTU3_GetOrganizationByID cdrClientGone;
     cdr.TenantSTU3_Onboard := fun _ n =>
       ((None, Some (response 503), Some (errorString "503 Service Unavailable")), S n);
     cdr.OperationsSTU3_Patch := cdr.OperationsSTU3_Patch cdrClient;
     cdr.OperationsSTU3_Delete := cdr.OperationsSTU3_Delete cdrClient;
     cdr.OperationsSTU3_Post := cdr.OperationsSTU3_Post cdrClient;
     cdr.OperationsSTU3_Get := cdr.OperationsSTU3_Get cdrClient |}.

(** A CDR store whose purge ends in a state that is neither pending nor
    the target. *)
Definition cdrClientPurgeFails : cdr.Client nat :=
  {| cdr.TenantSTU3_GetOrganizationByID := cdr.TenantSTU3_GetOrganizationByID cdrClient;
     cdr.TenantSTU3_Onboard := cdr.TenantSTU3_Onboard cdrClient;
     cdr.OperationsSTU3_Patch := cdr.OperationsSTU3_Patch cdrClient;
     cdr.OperationsSTU3_Delete := cdr.OperationsSTU3_Delete cdrClient;
     cdr.OperationsSTU3_Post := cdr.OperationsSTU3_Post cdrClient;
     cdr.OperationsSTU3_Get := fun _ _ n =>
       ((Some (cdr.Contained_Parameters
                 [ {| cdr.Parameter_Name := "status";
                      cdr.Parameter_Value := cdr.StringValue "ERROR" |} ]),
         Some (response 200), None), S n) |}.

End Fixture.

(** * The rest of the autoscaler resource *)

(** A state like [State], for callbacks that make other calls than those
    of [Call]: the data [D] the callback works on, the remote side, and the
    log of its calls, of type [C]. *)
Record World (D Remote C : Type) : Type := {
  wdata : D;
  wremote : Remote;
  wcalls : list C
}.
Arguments wdata {D Remote C} _.
Arguments wremote {D Remote C} _.
Arguments wcalls {D Remote C} _.

Definition getWData {D Remote C} : M (World D Remote C) D :=
  fun w => (Ok (wdata w), w).

Definition updateWData {D Remote C} (f : D -> D) : M (World D Remote C) unit :=
  fun w => (Ok tt, {| wdata := f (wdata w); wremote := wremote w; wcalls := wcalls w |}).

Definition invokeW {D Remote C A} (c : C) (f : Remote -> A * Remote)
    : M (World D Remote C) A :=
  fun w =>
    match f (wremote w) with
    | (a, r) => (Ok a, {| wdata := wdata w; wremote := r; wcalls := wcalls w ++ [c] |})
    end.

Module autoscaler.

(** The call of the read callback. *)
Inductive ReadCall : Type :=
| ConsoleGetApplicationAutoscaler (instanceID name : string).

(** The part of [*console.Client] that the read callback calls. *)
Record Reader (Remote : Type) : Type := {
  Metrics_GetApplicationAutoscaler :
    string -> string -> Remote ->
    (option console.Application * option console.Response * option error) * Remote
}.
Arguments Metrics_GetApplicationAutoscaler {Remote} _ _ _ _.

(** [thresholdMapping[name]] *)
Fixpoint lookupMapping (m : list (string * metrics.threshold)) (name : string)
    : option metrics.threshold :=
  match m with
  | [] => None
  | (key, mapping) :: rest =>
      if String.eqb key name then Some mapping else lookupMapping rest name
  end.

(** The map [fields] that the read callback fills for one threshold. *)
Definition fields (th : console.Threshold) : list (string * schema.Value) :=
  [ ("enabled", schema.VBool (console.Threshold_Enabled th));
    ("min", schema.VFloat (console.Min th));
    ("max", schema.VFloat (console.Max th)) ].

Section Rest.
Context {Remote : Type} `{!External Remote}.

(** The application that the delete callback sends: its name, and the zero
    value in every other field, [Enabled] being set to false. *)
Definition disabledApplication (d : schema.ResourceData) : console.Application :=
  {| console.Name := schema.GetString d "app_name";
     console.Enabled := false;
     console.MinInstances := 0;
     console.MaxInstances := 0;
     console.Thresholds := [] |}.

Definition resourceMetricsAutoscalerDelete (m : config.Config Remote)
    : M (State Remote) diag.Diagnostics :=
  match config.ConsoleClient m with
  | inr err => ret (diag.FromErr (Some err))
  | inl client =>
      d <- getData ;;
      let instanceID := schema.GetString d "metrics_instance_id" in
      r <- metrics.updateWithRetry client instanceID (disabledApplication d) ;;
      let '(result, err) := r in
      match err with
      | Some _ => ret (diag.FromErr err)
      | None =>
          match result with
          | None =>
              ret (diag.FromErr (Some (errorString "error creating/updating autoscaler")))
          | Some _ =>
              updateData (schema.SetId "") ;;;
              ret []
          end
      end
  end.

(** The closure [operation] of [getWitRetry]; it assigns the variable
    [app] of the enclosing function. *)
Definition getOperation (client : Reader Remote) (instanceID name : string)
    : M (option console.Application * World schema.ResourceData Remote ReadCall)
        (option error) :=
  r <- liftSt (invokeW (ConsoleGetApplicationAutoscaler instanceID name)
                 (Metrics_GetApplicationAutoscaler client instanceID name)) ;;
  let '(app, resp, err) := r in
  setLocal app ;;;
  ret (metrics.checkForIntermittentErrors resp err).

Definition getWitRetry (client : Reader Remote) (instanceID name : string)
    : M (World schema.ResourceData Remote ReadCall)
        (option console.Application * option error) :=
  r <- withLocal None
         (backoff.Retry 31 (getOperation client instanceID name)
            (backoff.WithMaxRetries NewExponentialBackOff 30)) ;;
  let '(err, app) := r in
  ret (app, err).

(** The loop of the read callback over [app.Thresholds]; a threshold whose
    name is not in [thresholdMapping] ends the callback with an error. *)
Fixpoint rangeAppThresholds {C} (ths : list console.Threshold)
    : M (World schema.ResourceData Remote C) diag.Diagnostics :=
  match ths with
  | [] => ret []
  | th :: rest =>
      match lookupMapping metrics.thresholdMapping (console.Threshold_Name th) with
      | None =>
          ret (diag.FromErr (Some (errorString
                 ("unknown threshold: " +:+ console.Threshold_Name th))))
      | Some mapping =>
          updateWData (schema.Set_ (metrics.fieldName mapping) (schema.VSet [fields th])) ;;;
          rangeAppThresholds rest
      end
  end.

(** [console.Client] above has the update call only: the read call of the
    same client is the [Reader]. *)
Definition resourceMetricsAutoscalerRead (m : config.Config Remote) (client : Reader Remote)
    : M (World schema.ResourceData Remote ReadCall) diag.Diagnostics :=
  match config.ConsoleClient m with
  | inr err => ret (diag.FromErr (Some err))
  | inl _ =>
      d <- getWData ;;
      let instanceID := schema.GetString d "metrics_instance_id" in
      let name := schema.GetString d "app_name" in
      r <- getWitRetry client instanceID name ;;
      let '(app, err) := r in
      match err with
      | Some _ => ret (diag.FromErr err)
      | None =>
          match app with
          | None => panic
          | Some a =>
              updateWData (schema.Set_ "min_instances" (schema.VInt (console.MinInstances a))) ;;;
              updateWData (schema.Set_ "max_instances" (schema.VInt (console.MaxInstances a))) ;;;
              updateWData (schema.Set_ "enabled" (schema.VBool (console.Enabled a))) ;;;
              rangeAppThresholds (console.Thresholds a)
          end
      end
  end.

End Rest.

End autoscaler.

(** ** Names for the statements about the autoscaler

    [fieldOf name] is the attribute in which the read callback stores the
    threshold called [name]; [thresholdNamed ths key] is the threshold of
    [ths] called [key]. *)

Definition fieldOf (name : string) : string :=
  match autoscaler.lookupMapping metrics.thresholdMapping name with
  | Some mapping => metrics.fieldName mapping
  | None => ""
  end.

Definition thresholdNamed (ths : list console.Threshold) (key : string)
    : console.Threshold :=
  match List.find (fun th => String.eqb (console.Threshold_Name th) key) ths with
  | Some th => th
  | None =>
      {| console.Threshold_Name := key; console.Threshold_Enabled := false;
         console.Min := 0%float; console.Max := 0%float |}
  end.

(** ** Names for the statements about the organization

    [changedOrganization d o] is the organization [o] with the changed
    attributes of [d] applied; [stillPurging client id url k r r'] says that
    the store, from the remote state [r], answers [k] status checks in a row
    with status 202 and no error, and is in state [r'] afterwards. *)


Fixpoint stillPurging {Remote} (client : cdr.Client Remote) (id : string) (url : cdr.URL)
    (k : nat) (r r' : Remote) : Prop :=
  match k with
  | O => r = r'
  | S k' =>
      exists contained rsp rmid,
        cdr.OperationsSTU3_Get client id url r = ((contained, Some rsp, None), rmid)
        /\ cdr.StatusCode rsp = 202
        /\ stillPurging client id url k' rmid r'
  end.

(** ** More of the concrete instance *)

Module Examples.

Definition threshold (name : string) (min max : float) : console.Threshold :=
  {| console.Threshold_Name := name; console.Threshold_Enabled := true;
     console.Min := min; console.Max := max |}.

(** An application as the console reports it, with its four thresholds. *)
Definition reported : console.Application :=
  {| console.Name := "app"; console.Enabled := true;
     console.MinInstances := 2; console.MaxInstances := 8;
     console.Thresholds :=
       [ threshold "memory" 20 100; threshold "cpu" 5 100;
         threshold "http-rate" 300 6000000; threshold "http-latency" 10 10000 ] |}.

(** An application with a threshold that the provider does not know. *)
Definition reportedUnknown : console.Application :=
  {| console.Name := "app"; console.Enabled := true;
     console.MinInstances := 2; console.MaxInstances := 8;
     console.Thresholds := [ threshold "cpu" 5 100; threshold "disk" 1 2 ] |}.

Definition ok200 : console.Response :=
  {| console.StatusCode := 200; console.Error_Message := "" |}.

Definition readerOf (app : console.Application) : autoscaler.Reader nat :=
  {| autoscaler.Metrics_GetApplicationAutoscaler := fun _ _ n =>
       ((Some app, Some ok200, None), S n) |}.

Definition world0 : World schema.ResourceData nat autoscaler.ReadCall :=
  {| wdata :=
       {| schema.Id := "instance-1app";
          schema.attrs := {[ "metrics_instance_id" := schema.VString "instance-1";
                             "app_name" := schema.VString "app" ]};
          schema.changed := ∅;
          schema.TimeoutCreate := 720 * Second |};
     wremote := O; wcalls := [] |}.

(** A console that rejects the update with 404 and an error. *)
Definition notFound : console.Response :=
  {| console.StatusCode := 404; console.Error_Message := "no such application" |}.

Definition console404 : console.Client nat :=
  {| console.Metrics_UpdateApplicationAutoscaler := fun _ _ n =>
       ((None, Some notFound, Some (errorString "404 Not Found")), S n) |}.

(** A standard library whose [url.Parse] refuses every location. *)
Definition externalNoURL : External nat :=
  {| ExponentialBackOff := unit;
     ExponentialBackOff_BackOff := Fixture.constantBackOff;
     NewExponentialBackOff := tt;
     url_Parse := fun _ => inr (errorString "parse: missing protocol scheme");
     path_Join := String.concat "/";
     jsonpatch_DiffBytes := fun _ after => (after, None);
     stu3_NewOrganization := fun _ orgID name =>
       inl {| cdr.Id := orgID; cdr.Name := name; cdr.PartOf := None |};
     ErrIntermittent_text := "intermittent error";
     ErrInvalidResponse_text := "invalid response";
     tools_CheckForIAMPermissionErrors := Fixture.checkForIAMPermissionErrors;
     UnexpectedStateError_text := fun state _ => "unexpected state '" +:+ state +:+ "'";
     TimeoutError_text := fun state _ _ => "timeout, last state '" +:+ state +:+ "'";
     NotFoundError_text := fun _ => "couldn't find resource" |}.

(** A CDR store whose purge never ends: every status check answers 202. *)
Definition cdrClientPurging : cdr.Client nat :=
  {| cdr.TenantSTU3_GetOrganizationByID :=
       cdr.TenantSTU3_GetOrganizationByID Fixture.cdrClient;
     cdr.TenantSTU3_Onboard := cdr.TenantSTU3_Onboard Fixture.cdrClient;
     cdr.OperationsSTU3_Patch := cdr.OperationsSTU3_Patch Fixture.cdrClient;
     cdr.OperationsSTU3_Delete := cdr.OperationsSTU3_Delete Fixture.cdrClient;
     cdr.OperationsSTU3_Post := cdr.OperationsSTU3_Post Fixture.cdrClient;
     cdr.OperationsSTU3_Get := fun _ _ n =>
       ((None, Some (Fixture.response 202), None), S n) |}.

(** A CDR store that refuses the purge with 403 and an error. *)
Definition cdrClientPurgeRefused : cdr.Client nat :=
  {| cdr.TenantSTU3_GetOrganizationByID :=
       cdr.TenantSTU3_GetOrganizationByID Fixture.cdrClient;
     cdr.TenantSTU3_Onboard := cdr.TenantSTU3_Onboard Fixture.cdrClient;
     cdr.OperationsSTU3_Patch := cdr.OperationsSTU3_Patch Fixture.cdrClient;
     cdr.OperationsSTU3_Delete := cdr.OperationsSTU3_Delete Fixture.cdrClient;
     cdr.OperationsSTU3_Post := fun _ _ _ n =>
       ((None, Some (Fixture.response 403), Some (errorString "403 Forbidden")), S n);
     cdr.OperationsSTU3_Get := cdr.OperationsSTU3_Get Fixture.cdrClient |}.


Definition renamed : State nat :=
  {| data :=
       {| schema.Id := "org-1";
          schema.attrs := {[ "org_id" := schema.VString "org-1";
                             "name" := schema.VString "Clinic";
                             "part_of" := schema.VString "org-0";
                             "parent_org_id" := schema.VString "root-2" ]};
          schema.changed := {[ "name"; "part_of" ]};
          schema.TimeoutCreate := 1200 * Second |};
     remote := O; calls := [] |}.

(** A resource of which the parent organization alone has changed. *)
Definition moved : State nat :=
  {| data :=
       {| schema.Id := "org-1";
          schema.attrs := {[ "name" := schema.VString "Hospital";
                             "parent_org_id" := schema.VString "root-2" ]};
          schema.changed := {[ "parent_org_id" ]};
          schema.TimeoutCreate := 1200 * Second |};
     remote := O; calls := [] |}.



(** A console that accepts the update and returns the application under
    the name it keeps it by. *)
Definition consoleRenames : console.Client nat :=
  {| console.Metrics_UpdateApplicationAutoscaler := fun _ app n =>
       ((Some {| console.Name := console.Name app +:+ "-blue";
                 console.Enabled := console.Enabled app;
                 console.MinInstances := console.MinInstances app;
                 console.MaxInstances := console.MaxInstances app;
                 console.Thresholds := console.Thresholds app |},
         Some ok200, None), S n) |}.

Definition configConsole (c : console.Client nat) : config.Config nat :=
  {| config.TimeZone := "UTC";
     config.ConsoleClient := inl c;
     config.IAMClient := inl Fixture.iamClient;
     config.STU3MA_MarshalResource := fun _ => ([], None) |}.

Definition autoscalerState0 : State nat :=
  {| data := wdata world0; remote := O; calls := [] |}.

End Examples.

(** * The export route of the data lake *)

(** ** [github.com/philips-software/go-hsdp-api/cdl] *)

Module cdl.

Record ExportLabel : Type := {
  Name : string;
  ApprovalRequired : bool
}.

Record ExportDataObject : Type := {
  Type_ : string;
  DataObject_ExportLabel : list ExportLabel
}.

Record ExportAllowedField : Type := {
  DataObject : list ExportDataObject
}.

(** [Allowed] is a pointer. *)
Record ExportResearchStudySource : Type := {
  Endpoint : string;
  Allowed : option ExportAllowedField
}.

Record Source : Type := {
  Source_CDLResearchStudy : ExportResearchStudySource
}.

Record ExportResearchStudyDestination : Type := {
  Destination_Endpoint : string
}.

Record Destination : Type := {
  Destination_CDLResearchStudy : ExportResearchStudyDestination
}.

Record ExportServiceAccountDetails : Type := {
  ServiceID : string;
  PrivateKey : string;
  AccessTokenEndPoint : string;
  TokenEndPoint : string
}.

Record ExportServiceAccount : Type := {
  CDLServiceAccount : ExportServiceAccountDetails
}.

Record ExportRoute : Type := {
  ID : string;
  ExportRouteName : string;
  Description : string;
  DisplayName : string;
  Source_ : Source;
  AutoExport : bool;
  Destination_ : Destination;
  ServiceAccount : ExportServiceAccount;
  CreatedBy : string;
  CreatedOn : string;
  UpdatedBy : string;
  UpdatedOn : string
}.

Record Response : Type := {
  StatusCode : Z
}.

(** The methods of [*cdl.Client] that the export route calls. *)
Record Client (Remote : Type) : Type := {
  ExportRoute_CreateExportRoute :
    ExportRoute -> Remote ->
    (option ExportRoute * option Response * option error) * Remote;
  ExportRoute_GetExportRouteByID :
    string -> Remote ->
    (option ExportRoute * option Response * option error) * Remote;
  ExportRoute_DeleteExportRouteByID :
    string -> Remote -> (option Response * option error) * Remote;
  Close : Remote -> Remote
}.
Arguments ExportRoute_CreateExportRoute {Remote} _ _ _.
Arguments ExportRoute_GetExportRouteByID {Remote} _ _ _.
Arguments ExportRoute_DeleteExportRouteByID {Remote} _ _ _.
Arguments Close {Remote} _ _.

End cdl.

(** ** The resource, package [hsdp] *)

Module hsdp.

#[local] Set Warnings "-register-all".

(** [http.StatusConflict] *)
Definition http_StatusConflict : Z := 409.

(** The values of this resource nest: a set of blocks, each a
    [map[string]interface{}] that holds strings, booleans and lists of
    further blocks.  A set is kept in the order of its [List()]. *)
Inductive Value : Type :=
| VString (s : string)
| VBool (b : bool)
| VList (items : list Value)
| VMap (fields : list (string * Value))
| VSet (items : list Value).

Inductive ValueType : Type := TypeBool | TypeString | TypeList | TypeSet.

Record ResourceData : Type := {
  Id : string;
  attrs : gmap string Value
}.

(** The top level of the [Schema] of [resourceCDLExportRoute]. *)
Definition resourceCDLExportRoute_Schema : list (string * ValueType) :=
  [ ("cdl_endpoint", TypeString);
    ("export_route_name", TypeString);
    ("description", TypeString);
    ("display_name", TypeString);
    ("source_research_study", TypeSet);
    ("auto_export", TypeBool);
    ("destination_research_study_endpoint", TypeString);
    ("service_account_details", TypeSet);
    ("created_by", TypeString);
    ("created_on", TypeString);
    ("updated_by", TypeString);
    ("updated_on", TypeString) ].

Fixpoint schemaType (schema : list (string * ValueType)) (key : string)
    : option ValueType :=
  match schema with
  | [] => None
  | (k, t) :: rest => if String.eqb k key then Some t else schemaType rest key
  end.

Definition hasType (t : ValueType) (v : Value) : bool :=
  match t, v with
  | TypeBool, VBool _ => true
  | TypeString, VString _ => true
  | TypeList, VList _ => true
  | TypeSet, VSet _ => true
  | _, _ => false
  end.

Definition SetId (v : string) (d : ResourceData) : ResourceData :=
  {| Id := v; attrs := attrs d |}.

(** [_ = d.Set(key, v)]: a key that the schema does not have, or a value
    of another type than the schema gives the key, makes [Set] return an
    error and write nothing; the callbacks drop that error. *)
Definition Set_ (key : string) (v : Value) (d : ResourceData) : ResourceData :=
  match schemaType resourceCDLExportRoute_Schema key with
  | Some t =>
      if hasType t v then {| Id := Id d; attrs := <[key := v]> (attrs d) |} else d
  | None => d
  end.

(** [d.Get(key).(string)] and [d.Get(key).(bool)]: an unset attribute
    reads as the zero value. *)
Definition GetString (d : ResourceData) (key : string) : string :=
  match attrs d !! key with
  | Some (VString s) => s
  | _ => ""
  end.

Definition GetBool (d : ResourceData) (key : string) : bool :=
  match attrs d !! key with
  | Some (VBool b) => b
  | _ => false
  end.

Definition isZero (v : Value) : bool :=
  match v with
  | VString s => String.eqb s ""
  | VBool b => negb b
  | VList [] | VMap [] | VSet [] => true
  | _ => false
  end.

(** [d.GetOk(key)]: not ok when the attribute is unset or holds the zero
    value of its type. *)
Definition GetOk (d : ResourceData) (key : string) : option Value :=
  match attrs d !! key with
  | Some v => if isZero v then None else Some v
  | None => None
  end.

(** [m[key]] on a [map[string]interface{}]. *)
Fixpoint index (m : list (string * Value)) (key : string) : option Value :=
  match m with
  | [] => None
  | (k, v) :: rest => if String.eqb k key then Some v else index rest key
  end.

(** The type assertions; each panics on a nil interface and on a value of
    another type. *)
Definition assertString {St} (v : option Value) : M St string :=
  match v with
  | Some (VString s) => ret s
  | _ => panic
  end.

Definition assertBool {St} (v : option Value) : M St bool :=
  match v with
  | Some (VBool b) => ret b
  | _ => panic
  end.

Definition assertList {St} (v : option Value) : M St (list Value) :=
  match v with
  | Some (VList items) => ret items
  | _ => panic
  end.

Definition assertMap {St} (v : option Value) : M St (list (string * Value)) :=
  match v with
  | Some (VMap fields) => ret fields
  | _ => panic
  end.

(** [List()] on the set that the value is asserted to be. *)
Definition assertSetList {St} (v : option Value) : M St (list Value) :=
  match v with
  | Some (VSet items) => ret items
  | _ => panic
  end.

(** The calls of the export route. *)
Inductive Call : Type :=
| CreateExportRoute (route : cdl.ExportRoute)
| GetExportRouteByID (id : string)
| DeleteExportRouteByID (id : string)
| Close.

(** [*Config]: [getCDLClientFromEndpoint] is declared next to the file at
    hand. *)
Record Config (Remote : Type) : Type := {
  getCDLClientFromEndpoint : string -> cdl.Client Remote + error
}.
Arguments getCDLClientFromEndpoint {Remote} _ _.

(** [encoding/json], at the two types it is called with. *)
Class JSON : Type := {
  json_Marshal_Source : cdl.Source -> list Byte.byte * option error;
  json_Marshal_Destination : cdl.Destination -> list Byte.byte * option error
}.

(** [defer deferred] before [body]: the deferred call runs when the body
    returns and when it panics, and the outcome of the body stands. *)
Definition defer_ {St A} (deferred : M St unit) (body : M St A) : M St A :=
  fun s =>
    match body s with
    | (r, s') => (r, snd (deferred s'))
    end.

(** The loop over [associatedLabels]. *)
Fixpoint rangeLabels {St} (associatedLabels : list Value)
    (exportLabel : list cdl.ExportLabel) : M St (list cdl.ExportLabel) :=
  match associatedLabels with
  | [] => ret exportLabel
  | l :: rest =>
      labelMap <- assertMap (Some l) ;;
      labelName <- assertString (index labelMap "label_name") ;;
      approvalRequired <- assertBool (index labelMap "approval_required") ;;
      rangeLabels rest
        (exportLabel ++ [ {| cdl.Name := labelName;
                             cdl.ApprovalRequired := approvalRequired |} ])
  end.

(** The loop over [allowedDataObjectsArray]. *)
Fixpoint rangeDataObjects {St} (allowedDataObjectsArray : list Value)
    (exportDataObjectArray : list cdl.ExportDataObject)
    : M St (list cdl.ExportDataObject) :=
  match allowedDataObjectsArray with
  | [] => ret exportDataObjectArray
  | i :: rest =>
      allowedDataObjectArrayElem <- assertMap (Some i) ;;
      resourceType <- assertString (index allowedDataObjectArrayElem "resource_type") ;;
      associatedLabels <-
        assertList (index allowedDataObjectArrayElem "associated_labels") ;;
      exportLabel <- rangeLabels associatedLabels [] ;;
      rangeDataObjects rest
        (exportDataObjectArray
           ++ [ {| cdl.Type_ := resourceType;
                   cdl.DataObject_ExportLabel := exportLabel |} ])
  end.

(** The loop over the blocks of [source_research_study]; it assigns the
    fields of [exportResearchStudySource]. *)
Fixpoint rangeSourceResearchStudy {St} (vL : list Value)
    (exportResearchStudySource : cdl.ExportResearchStudySource)
    : M St cdl.ExportResearchStudySource :=
  match vL with
  | [] => ret exportResearchStudySource
  | vi :: rest =>
      sourceResearchStudyField <- assertMap (Some vi) ;;
      sourceCdlEndpoint <-
        assertString (index sourceResearchStudyField "source_research_study_endpoint") ;;
      allowedDataObjectsArray <-
        assertList (index sourceResearchStudyField "allowed_dataobjects") ;;
      exportDataObjectArray <- rangeDataObjects allowedDataObjectsArray [] ;;
      rangeSourceResearchStudy rest
        {| cdl.Endpoint := sourceCdlEndpoint;
           cdl.Allowed :=
             if (0 <? length exportDataObjectArray)%nat
             then Some {| cdl.DataObject := exportDataObjectArray |}
             else cdl.Allowed exportResearchStudySource |}
  end.

Definition getSourceResearchStudyDetails {St} (d : ResourceData)
    : M St cdl.ExportResearchStudySource :=
  let exportResearchStudySource := {| cdl.Endpoint := ""; cdl.Allowed := None |} in
  match GetOk d "source_research_study" with
  | Some v =>
      vL <- assertSetList (Some v) ;;
      rangeSourceResearchStudy vL exportResearchStudySource
  | None => ret exportResearchStudySource
  end.

(** The loop over the blocks of [service_account_details]; it assigns the
    four variables of the function. *)
Fixpoint rangeServiceAccount {St} (vL : list Value)
    (account : cdl.ExportServiceAccountDetails)
    : M St cdl.ExportServiceAccountDetails :=
  match vL with
  | [] => ret account
  | vi :: rest =>
      serviceAccountField <- assertMap (Some vi) ;;
      serviceId <- assertString (index serviceAccountField "service_id") ;;
      privateKey <- assertString (index serviceAccountField "private_key") ;;
      accessTokenEndpoint <-
        assertString (index serviceAccountField "access_token_endpoint") ;;
      tokenEndpoint <- assertString (index serviceAccountField "token_endpoint") ;;
      rangeServiceAccount rest
        {| cdl.ServiceID := serviceId;
           cdl.PrivateKey := privateKey;
           cdl.AccessTokenEndPoint := accessTokenEndpoint;
           cdl.TokenEndPoint := tokenEndpoint |}
  end.

Definition getServiceAccountDetails {St} (d : ResourceData)
    : M St cdl.ExportServiceAccount :=
  let account := {| cdl.ServiceID := ""; cdl.PrivateKey := "";
                    cdl.AccessTokenEndPoint := ""; cdl.TokenEndPoint := "" |} in
  account' <- match GetOk d "service_account_details" with
              | Some v =>
                  vL <- assertSetList (Some v) ;;
                  rangeServiceAccount vL account
              | None => ret account
              end ;;
  ret {| cdl.CDLServiceAccount := account' |}.

Section ExportRoute.
Context {Remote : Type} `{!JSON}.

Definition close (client : cdl.Client Remote)
    : M (World ResourceData Remote Call) unit :=
  invokeW Close (fun r => (tt, cdl.Close client r)).

Definition resourceCDLExportRouteUpdate
    : M (World ResourceData Remote Call) diag.Diagnostics :=
  ret [].

Definition resourceCDLExportRouteDelete (config : Config Remote)
    : M (World ResourceData Remote Call) diag.Diagnostics :=
  d <- getWData ;;
  let endpoint := GetString d "cdl_endpoint" in
  let exportRouteId := Id d in
  match getCDLClientFromEndpoint config endpoint with
  | inr err => ret (diag.FromErr (Some err))
  | inl client =>
      defer_ (close client)
        (r <- invokeW (DeleteExportRouteByID exportRouteId)
                (cdl.ExportRoute_DeleteExportRouteByID client exportRouteId) ;;
         let '(resp, err) := r in
         match err with
         | Some _ =>
             match resp with
             | None => ret (diag.FromErr err)
             | Some _ => ret (diag.FromErr err)
             end
         | None => ret []
         end)
  end.

Definition resourceCDLExportRouteRead (config : Config Remote)
    : M (World ResourceData Remote Call) diag.Diagnostics :=
  d <- getWData ;;
  let endpoint := GetString d "cdl_endpoint" in
  match getCDLClientFromEndpoint config endpoint with
  | inr err => ret (diag.FromErr (Some err))
  | inl client =>
      defer_ (close client)
        (let id := Id d in
         r <- invokeW (GetExportRouteByID id)
                (cdl.ExportRoute_GetExportRouteByID client id) ;;
         let '(exportRoute, _, err) := r in
         match err, exportRoute with
         | Some _, _ => ret (diag.FromErr err)
         | None, None =>
             ret (diag.FromErr
                    (Some (errorString ("ExportRoute with ID " +:+ id +:+ " not found"))))
         | None, Some route =>
             let '(sourceBytes, err) := json_Marshal_Source (cdl.Source_ route) in
             match err with
             | Some _ => ret (diag.FromErr err)
             | None =>
                 let '(destinationBytes, err) :=
                   json_Marshal_Destination (cdl.Destination_ route) in
                 match err with
                 | Some _ => ret (diag.FromErr err)
                 | None =>
                     updateWData (Set_ "export_route_name"
                                    (VString (cdl.ExportRouteName route))) ;;;
                     updateWData (Set_ "description" (VString (cdl.Description route))) ;;;
                     updateWData (Set_ "display_name" (VString (cdl.DisplayName route))) ;;;
                     updateWData (Set_ "source"
                                    (VString (string_of_list_byte sourceBytes))) ;;;
                     updateWData (Set_ "auto_export" (VBool (cdl.AutoExport route))) ;;;
                     updateWData (Set_ "destination"
                                    (VString (string_of_list_byte destinationBytes))) ;;;
                     updateWData (Set_ "created_by" (VString (cdl.CreatedBy route))) ;;;
                     updateWData (Set_ "created_on" (VString (cdl.CreatedOn route))) ;;;
                     updateWData (Set_ "updated_by" (VString (cdl.UpdatedBy route))) ;;;
                     updateWData (Set_ "updated_on" (VString (cdl.UpdatedOn route))) ;;;
                     ret []
                 end
             end
         end)
  end.

(** The route that the create callback builds from the resource data. *)
Definition exportRouteToCreate (d : ResourceData)
    (source : cdl.ExportResearchStudySource) (account : cdl.ExportServiceAccount)
    : cdl.ExportRoute :=
  {| cdl.ID := "";
     cdl.ExportRouteName := GetString d "export_route_name";
     cdl.Description := GetString d "description";
     cdl.DisplayName := GetString d "display_name";
     cdl.Source_ := {| cdl.Source_CDLResearchStudy := source |};
     cdl.AutoExport := GetBool d "auto_export";
     cdl.Destination_ :=
       {| cdl.Destination_CDLResearchStudy :=
            {| cdl.Destination_Endpoint :=
                 GetString d "destination_research_study_endpoint" |} |};
     cdl.ServiceAccount := account;
     cdl.CreatedBy := ""; cdl.CreatedOn := "";
     cdl.UpdatedBy := ""; cdl.UpdatedOn := "" |}.

Definition resourceCDLExportRouteCreate (config : Config Remote)
    : M (World ResourceData Remote Call) diag.Diagnostics :=
  d <- getWData ;;
  let endpoint := GetString d "cdl_endpoint" in
  source <- getSourceResearchStudyDetails d ;;
  account <- getServiceAccountDetails d ;;
  let route := exportRouteToCreate d source account in
  match getCDLClientFromEndpoint config endpoint with
  | inr err => ret (diag.FromErr (Some err))
  | inl client =>
      defer_ (close client)
        (r <- invokeW (CreateExportRoute route)
                (cdl.ExportRoute_CreateExportRoute client route) ;;
         let '(createdExportRoute, resp, err) := r in
         match err with
         | Some _ =>
             match resp with
             | None => ret (diag.FromErr err)
             | Some rsp =>
                 if negb (cdl.StatusCode rsp =? http_StatusConflict)
                 then ret (diag.FromErr err)
                 else ret (diag.FromErr err)
             end
         | None =>
             match createdExportRoute with
             | None => panic
             | Some created =>
                 updateWData (SetId (cdl.ID created)) ;;;
                 resourceCDLExportRouteRead config
             end
         end)
  end.

End ExportRoute.

(** The blocks of the configuration, as the schemas of the resource
    describe them: a label, a data object with its labels, a source
    research study with its data objects, and a service account. *)
Definition labelValue (l : cdl.ExportLabel) : Value :=
  VMap [ ("label_name", VString (cdl.Name l));
         ("approval_required", VBool (cdl.ApprovalRequired l)) ].

Definition dataObjectValue (o : cdl.ExportDataObject) : Value :=
  VMap [ ("resource_type", VString (cdl.Type_ o));
         ("associated_labels", VList (map labelValue (cdl.DataObject_ExportLabel o))) ].

Definition sourceResearchStudyValue
    (block : string * list cdl.ExportDataObject) : Value :=
  VMap [ ("source_research_study_endpoint", VString (fst block));
         ("allowed_dataobjects", VList (map dataObjectValue (snd block))) ].

Definition serviceAccountValue (a : cdl.ExportServiceAccountDetails) : Value :=
  VMap [ ("service_id", VString (cdl.ServiceID a));
         ("private_key", VString (cdl.PrivateKey a));
         ("access_token_endpoint", VString (cdl.AccessTokenEndPoint a));
         ("token_endpoint", VString (cdl.TokenEndPoint a)) ].

(** The data objects of the last block that has any. *)
Definition lastAllowed (blocks : list (string * list cdl.ExportDataObject))
    : option cdl.ExportAllowedField :=
  match find (fun objs => (0 <? length objs)%nat) (rev (map snd blocks)) with
  | Some objs => Some {| cdl.DataObject := objs |}
  | None => None
  end.

(** The attributes that the read callback refreshes, and what it means
    for the resource data to hold them as a route has them. *)
Definition refreshed : list string :=
  [ "export_route_name"; "description"; "display_name"; "auto_export";
    "created_by"; "created_on"; "updated_by"; "updated_on" ].

Definition holdsRoute (d : ResourceData) (route : cdl.ExportRoute) : Prop :=
  GetString d "export_route_name" = cdl.ExportRouteName route
  /\ GetString d "description" = cdl.Description route
  /\ GetString d "display_name" = cdl.DisplayName route
  /\ GetBool d "auto_export" = cdl.AutoExport route
  /\ GetString d "created_by" = cdl.CreatedBy route
  /\ GetString d "created_on" = cdl.CreatedOn route
  /\ GetString d "updated_by" = cdl.UpdatedBy route
  /\ GetString d "updated_on" = cdl.UpdatedOn route.

End hsdp.

(** ** An export route at hand *)

Module Routes.

Definition json : hsdp.JSON :=
  {| hsdp.json_Marshal_Source := fun source =>
       (list_byte_of_string (cdl.Endpoint (cdl.Source_CDLResearchStudy source)), None);
     hsdp.json_Marshal_Destination := fun destination =>
       (list_byte_of_string
          (cdl.Destination_Endpoint (cdl.Destination_CDLResearchStudy destination)),
        None) |}.

Definition observation : cdl.ExportDataObject :=
  {| cdl.Type_ := "Observation";
     cdl.DataObject_ExportLabel :=
       [ {| cdl.Name := "vitals"; cdl.ApprovalRequired := true |};
         {| cdl.Name := "public"; cdl.ApprovalRequired := false |} ] |}.

(** Two source blocks: the first with a data object, the second without. *)
Definition blocks : list (string * list cdl.ExportDataObject) :=
  [ ("https://cdl.example/study-a", [observation]);
    ("https://cdl.example/study-b", []) ].

Definition account : cdl.ExportServiceAccountDetails :=
  {| cdl.ServiceID := "service-1"; cdl.PrivateKey := "key";
     cdl.AccessTokenEndPoint := "https://iam.example/token";
     cdl.TokenEndPoint := "https://iam.example/oauth2" |}.

Definition data0 : hsdp.ResourceData :=
  {| hsdp.Id := "";
     hsdp.attrs :=
       {[ "cdl_endpoint" := hsdp.VString "https://cdl.example/store";
          "export_route_name" := hsdp.VString "route";
          "display_name" := hsdp.VString "Route";
          "auto_export" := hsdp.VBool true;
          "destination_research_study_endpoint" :=
            hsdp.VString "https://cdl.example/study-c";
          "source_research_study" :=
            hsdp.VSet (map hsdp.sourceResearchStudyValue blocks);
          "service_account_details" :=
            hsdp.VSet (map hsdp.serviceAccountValue [account]) ]} |}.

Definition world0 : World hsdp.ResourceData nat hsdp.Call :=
  {| wdata := data0; wremote := O; wcalls := [] |}.

(** The route as the store keeps it. *)
Definition stored (route : cdl.ExportRoute) : cdl.ExportRoute :=
  {| cdl.ID := "route-1";
     cdl.ExportRouteName := cdl.ExportRouteName route;
     cdl.Description := cdl.Description route;
     cdl.DisplayName := cdl.DisplayName route;
     cdl.Source_ := cdl.Source_ route;
     cdl.AutoExport := cdl.AutoExport route;
     cdl.Destination_ := cdl.Destination_ route;
     cdl.ServiceAccount := cdl.ServiceAccount route;
     cdl.CreatedBy := "admin"; cdl.CreatedOn := "2023-01-01";
     cdl.UpdatedBy := "admin"; cdl.UpdatedOn := "2023-01-02" |}.

Definition sent : cdl.ExportRoute :=
  hsdp.exportRouteToCreate data0
    {| cdl.Endpoint := "https://cdl.example/study-b";
       cdl.Allowed := Some {| cdl.DataObject := [observation] |} |}
    {| cdl.CDLServiceAccount := account |}.

(** A store that creates the route and returns it on every fetch. *)
Definition client : cdl.Client nat :=
  {| cdl.ExportRoute_CreateExportRoute := fun route n =>
       ((Some (stored route), Some {| cdl.StatusCode := 201 |}, None), S n);
     cdl.ExportRoute_GetExportRouteByID := fun _ n =>
       ((Some (stored sent), Some {| cdl.StatusCode := 200 |}, None), S n);
     cdl.ExportRoute_DeleteExportRouteByID := fun _ n =>
       ((Some {| cdl.StatusCode := 204 |}, None), S n);
     cdl.Close := fun n => n |}.

(** A store in which a route of that name exists already. *)
Definition clientConflict : cdl.Client nat :=
  {| cdl.ExportRoute_CreateExportRoute := fun _ n =>
       ((None, Some {| cdl.StatusCode := 409 |}, Some (errorString "409 Conflict")), S n);
     cdl.ExportRoute_GetExportRouteByID := cdl.ExportRoute_GetExportRouteByID client;
     cdl.ExportRoute_DeleteExportRouteByID := cdl.ExportRoute_DeleteExportRouteByID client;
     cdl.Close := fun n => n |}.

Definition configOf (c : cdl.Client nat) : hsdp.Config nat :=
  {| hsdp.getCDLClientFromEndpoint := fun _ => inl c |}.

End Routes.

(** * Properties *)

(** ** Strings *)

Lemma prefix_iff_append (p s : string) :
  String.prefix p s = true <-> exists rest, s = p +:+ rest.
Proof.
  revert s. induction p as [|a p IH]; intros s.
  - split; [intros _; exists s; reflexivity | intros _; destruct s; reflexivity].
  - destruct s as [|b s]; simpl.
    + split; [discriminate | intros [rest H]; discriminate].
    + destruct (Ascii.ascii_dec a b) as [->|Hab].
      * rewrite IH. split; intros [rest H]; exists rest.
        -- now rewrite H.
        -- now injection H.
      * split; [discriminate | intros [rest H]; injection H; congruence].
Qed.

(** [Contains] is substring containment. *)
Lemma Contains_iff (s substr : string) :
  Contains s substr = true <-> exists before after, s = before +:+ substr +:+ after.
Proof.
  induction s as [|a s IH]; cbn [Contains].
  - rewrite orb_false_r, prefix_iff_append. split.
    + intros [rest H]. exists "", rest. exact H.
    + intros [before [after H]]. destruct before; [now exists after | discriminate].
  - rewrite orb_true_iff, prefix_iff_append, IH. split.
    + intros [[rest H] | [before [after H]]].
      * exists "", rest. exact H.
      * exists (String a before), after. simpl. now rewrite H.
    + intros [before [after H]]. destruct before as [|b before].
      * left. now exists after.
      * right. injection H as _ H. now exists before, after.
Qed.

(** ** The classifier of the autoscaler calls *)

Section Classifier.
Context {Remote : Type} `{!External Remote}.

Lemma classify_plain (e : error) :
  As_PermanentError e = None -> backoff.classify (Some e) = backoff.Transient e.
Proof. intros H. unfold backoff.classify. now rewrite H. Qed.

Lemma classify_Permanent (e : error) :
  backoff.classify (backoff.Permanent (Some e)) = backoff.PermanentFailure e.
Proof. reflexivity. Qed.

(** C1, as the code has it.  A response with a status code above 500
    leaves the error of the call as it is, so an error that is not already
    permanent is a transient outcome, which the retry loop retries; a
    response with status code 500 exactly is turned into a permanent
    error, which ends the retry loop. *)
Theorem checkForIntermittentErrors_server_error
    (resp : console.Response) (err : option error) (e : error) :
  500 <= console.StatusCode resp ->
  err = Some e ->
  As_PermanentError e = None ->
  (500 < console.StatusCode resp ->
     metrics.checkForIntermittentErrors (Some resp) err = err
     /\ backoff.classify (metrics.checkForIntermittentErrors (Some resp) err)
        = backoff.Transient e)
  /\ (console.StatusCode resp = 500 ->
        exists cause,
          metrics.checkForIntermittentErrors (Some resp) err
          = Some (PermanentError cause)
          /\ backoff.classify (metrics.checkForIntermittentErrors (Some resp) err)
             = backoff.PermanentFailure cause).
Proof.
  intros _ -> Hplain. unfold metrics.checkForIntermittentErrors. split.
  - intros Hgt. apply Z.gtb_lt in Hgt. rewrite Hgt.
    split; [reflexivity | now apply classify_plain].
  - intros ->. simpl. eexists. split; reflexivity.
Qed.

(** C8, as the code has it.  When no response was received the error of
    the call is returned as it is: an error that is not already permanent
    is a transient outcome and is retried.  The classifier takes no flag
    from its call site. *)
Theorem checkForIntermittentErrors_no_response (e : error) :
  As_PermanentError e = None ->
  metrics.checkForIntermittentErrors None (Some e) = Some e
  /\ backoff.classify (metrics.checkForIntermittentErrors None (Some e))
     = backoff.Transient e.
Proof.
  intros Hplain. split; [reflexivity | now apply classify_plain].
Qed.

(** C9.  A response with status code 400 whose error message contains
    "invalid character" gives the intermittent error, whatever the error
    of the call was, and that is a transient outcome for the retry loop. *)
Theorem checkForIntermittentErrors_invalid_character
    (resp : console.Response) (err : option error) :
  console.StatusCode resp = 400 ->
  Contains (console.Error_Message resp) "invalid character" = true ->
  metrics.checkForIntermittentErrors (Some resp) err = Some ErrIntermittent
  /\ backoff.classify (metrics.checkForIntermittentErrors (Some resp) err)
     = backoff.Transient ErrIntermittent.
Proof.
  intros Hcode Hmsg. unfold metrics.checkForIntermittentErrors.
  rewrite Hcode, Hmsg. split; reflexivity.
Qed.

End Classifier.

(** ** The retry loop under [WithMaxRetries] *)

Section RetryLoop.
Context {St B : Type} `{!backoff.BackOff B}.

Implicit Types (operation : M St (option error)) (b : backoff.backOffTries B).

Lemma iter_shift {A} (f : A -> A) (n : nat) (a : A) :
  Nat.iter n f (f a) = f (Nat.iter n f a).
Proof. induction n as [|n IH]; simpl; [reflexivity | now rewrite IH]. Qed.

(** With [k] retries left and a delegate that does not stop during them,
    an operation that always fails transiently is run [k + 1] times, and
    the loop returns the error of the last run. *)
Lemma RetryLoop_always_transient operation (k : nat) :
  alwaysTransient operation ->
  forall (fuel : nat) b (s : St),
    backoff.maxTries b = (backoff.numTries b + N.of_nat k)%N ->
    (forall j, (j < k)%nat ->
       fst (backoff.NextBackOff (afterBackOffs j (backoff.delegate b))) <> backoff.Stop) ->
    (k < fuel)%nat ->
    exists e,
      backoff.RetryLoop fuel operation b s
      = (Ok (Some e), Nat.iter (S k) (fun s => snd (operation s)) s)
      /\ backoff.classify (Some e) = backoff.Transient e.
Proof.
  intros Hop. induction k as [|k IH]; intros fuel b s Hmax Hdel Hfuel.
  - destruct fuel as [|fuel]; [lia|].
    destruct (Hop s) as (e & s' & Hrun & Hcls).
    exists e. split; [|exact Hcls].
    cbn [backoff.RetryLoop Nat.iter]. unfold bind. rewrite Hrun, Hcls. simpl.
    rewrite Hrun, Hmax, N.add_0_r.
    destruct (backoff.numTries b =? 0)%N; [reflexivity|].
    rewrite N.leb_refl. reflexivity.
  - destruct fuel as [|fuel]; [lia|].
    destruct (Hop s) as (e & s' & Hrun & Hcls).
    assert (Hnext := Hdel O ltac:(lia)). cbn [afterBackOffs] in Hnext.
    destruct (IH fuel
                {| backoff.delegate := snd (backoff.NextBackOff (backoff.delegate b));
                   backoff.maxTries := backoff.maxTries b;
                   backoff.numTries := (backoff.numTries b + 1)%N |} s')
      as (e' & Hloop & Hcls').
    + simpl. lia.
    + intros j Hj. simpl. apply (Hdel (S j)). lia.
    + lia.
    + exists e'. split; [|exact Hcls'].
      cbn [backoff.RetryLoop]. unfold bind at 1. rewrite Hrun, Hcls. simpl.
      replace (backoff.maxTries b =? 0)%N with false
        by (symmetry; apply N.eqb_neq; lia).
      replace (backoff.maxTries b <=? backoff.numTries b)%N with false
        by (symmetry; apply N.leb_gt; lia).
      destruct (backoff.NextBackOff (backoff.delegate b)) as [next d] eqn:Hd.
      simpl in Hnext, Hloop.
      apply Z.eqb_neq in Hnext. rewrite Hnext.
      rewrite Hloop.
      assert (Hs : s' = snd (operation s)) by now rewrite Hrun.
      rewrite Hs. cbn [Nat.iter].
      now rewrite (iter_shift (fun s => snd (operation s)) k s).
Qed.

(** A loop under [WithMaxRetries] ends: when the operation always returns,
    the loop returns as soon as the fuel exceeds the retries left. *)
Lemma RetryLoop_returns operation :
  (forall s, exists r s', operation s = (Ok r, s')) ->
  forall (fuel : nat) b (s : St),
    (N.to_nat (backoff.maxTries b - backoff.numTries b) < fuel)%nat ->
    exists r s', backoff.RetryLoop fuel operation b s = (Ok r, s').
Proof.
  intros Hop. induction fuel as [|fuel IH]; intros b s Hfuel; [lia|].
  cbn [backoff.RetryLoop]. unfold bind at 1.
  destruct (Hop s) as (err & s' & ->).
  destruct (backoff.classify err) as [|e|cause];
    [eexists _, _; reflexivity | | eexists _, _; reflexivity].
  simpl.
  destruct (backoff.maxTries b =? 0)%N eqn:H0; [eexists _, _; reflexivity|].
  destruct (backoff.maxTries b <=? backoff.numTries b)%N eqn:Hle;
    [eexists _, _; reflexivity|].
  destruct (backoff.NextBackOff (backoff.delegate b)) as [next d].
  destruct (next =? backoff.Stop); [eexists _, _; reflexivity|].
  apply IH. simpl. apply N.leb_gt in Hle. lia.
Qed.

Lemma counted_iter operation (k n : nat) (s : St) :
  Nat.iter k (fun cs => snd (counted operation cs)) (n, s)
  = ((n + k)%nat, Nat.iter k (fun s => snd (operation s)) s).
Proof.
  induction k as [|k IH].
  - simpl. now rewrite Nat.add_0_r.
  - change (Nat.iter (S k) ?f ?x) with (f (Nat.iter k f x)).
    rewrite IH. unfold counted. simpl.
    destruct (operation _) as [r s']. simpl. f_equal. lia.
Qed.

Lemma counted_alwaysTransient operation :
  alwaysTransient operation ->
  forall cs, exists e cs',
    counted operation cs = (Ok (Some e), cs')
    /\ backoff.classify (Some e) = backoff.Transient e.
Proof.
  intros Hop [n s]. destruct (Hop s) as (e & s' & Hrun & Hcls).
  exists e, (S n, s'). unfold counted. simpl. now rewrite Hrun.
Qed.

End RetryLoop.

Section RetryAttempts.
Context {St B : Type} `{!backoff.BackOff B}.

(** [WithMaxRetries] bounds the retries, not the attempts: when every
    attempt fails transiently and the wrapped policy does not stop during
    the first [maxRetries] retries, the operation is attempted
    [maxRetries + 1] times, and the error of the last attempt is returned. *)
Lemma Retry_counted_attempts
    (operation : M St (option error)) (b0 : B) (maxRetries : N)
    (fuel n0 : nat) (s : St) :
  alwaysTransient operation ->
  (forall j, (j < N.to_nat maxRetries)%nat ->
     fst (backoff.NextBackOff (afterBackOffs j (backoff.Reset b0))) <> backoff.Stop) ->
  (N.to_nat maxRetries < fuel)%nat ->
  exists e s',
    backoff.Retry fuel (counted operation) (backoff.WithMaxRetries b0 maxRetries) (n0, s)
    = (Ok (Some e), ((n0 + (N.to_nat maxRetries + 1))%nat, s'))
    /\ backoff.classify (Some e) = backoff.Transient e.
Proof.
  intros Hop Hdel Hfuel.
  destruct (RetryLoop_always_transient (counted operation) (N.to_nat maxRetries)
              (counted_alwaysTransient operation Hop) fuel
              (backoff.Reset (backoff.WithMaxRetries b0 maxRetries)) (n0, s))
    as (e & Hloop & Hcls).
  - simpl. lia.
  - exact Hdel.
  - exact Hfuel.
  - rewrite counted_iter in Hloop.
    exists e. eexists. split; [|exact Hcls].
    unfold backoff.Retry. rewrite Hloop. do 3 f_equal. lia.
Qed.

End RetryAttempts.

Section UpdateWithRetry.
Context {Remote : Type} `{!External Remote}.

Lemma updateOperation_iter (client : console.Client Remote) (instanceID : string)
    (app : console.Application) (k : nat) (c : option console.Application)
    (s : State Remote) :
  let s' := snd (Nat.iter k
                   (fun cs => snd (metrics.updateOperation client instanceID app cs))
                   (c, s)) in
  data s' = data s
  /\ calls s' = calls s ++ repeat (ConsoleUpdateApplicationAutoscaler instanceID app) k.
Proof.
  induction k as [|k [IHd IHc]]; simpl.
  - now rewrite app_nil_r.
  - change (Nat.iter k ?f ?x) with (Nat.iter k f x) in *.
    destruct (Nat.iter k _ (c, s)) as [c' s'] eqn:Hit. simpl in IHd, IHc.
    unfold metrics.updateOperation, bind, liftSt, invoke, setLocal, ret. simpl.
    destruct (console.Metrics_UpdateApplicationAutoscaler client instanceID app (remote s'))
      as [[[created resp] err] rem']. simpl.
    split; [exact IHd|].
    rewrite IHc, <- app_assoc. f_equal. symmetry. apply repeat_cons.
Qed.

Lemma updateOperation_returns (client : console.Client Remote) (instanceID : string)
    (app : console.Application) (cs : option console.Application * State Remote) :
  exists r cs', metrics.updateOperation client instanceID app cs = (Ok r, cs').
Proof.
  unfold metrics.updateOperation, bind, liftSt, invoke, setLocal, ret. simpl.
  destruct (console.Metrics_UpdateApplicationAutoscaler _ _ _ _) as [[[? ?] ?] ?].
  simpl. eexists _, _; reflexivity.
Qed.

(** The update with retry neither panics nor runs out of fuel. *)
Lemma updateWithRetry_returns (client : console.Client Remote) (instanceID : string)
    (app : console.Application) (s : State Remote) :
  exists created err s',
    metrics.updateWithRetry client instanceID app s = (Ok (created, err), s').
Proof.
  unfold metrics.updateWithRetry, bind, withLocal, backoff.Retry.
  destruct (RetryLoop_returns (metrics.updateOperation client instanceID app)
              (updateOperation_returns client instanceID app) 31%nat
              (backoff.Reset (backoff.WithMaxRetries NewExponentialBackOff 30)) (None, s))
    as (err & [created s'] & ->); [simpl; lia|].
  now exists created, err, s'.
Qed.

(** When every update fails transiently and the exponential policy does
    not stop during the 30 retries, the update call is made 31 times. *)
Lemma updateWithRetry_always_transient (client : console.Client Remote)
    (instanceID : string) (app : console.Application) (s : State Remote) :
  alwaysTransient (metrics.updateOperation client instanceID app) ->
  (forall j, (j < 30)%nat ->
     fst (backoff.NextBackOff (afterBackOffs j (backoff.Reset NewExponentialBackOff)))
     <> backoff.Stop) ->
  exists created e s',
    metrics.updateWithRetry client instanceID app s = (Ok (created, Some e), s')
    /\ data s' = data s
    /\ calls s'
       = calls s ++ repeat (ConsoleUpdateApplicationAutoscaler instanceID app) 31.
Proof.
  intros Hop Hdel.
  destruct (RetryLoop_always_transient (metrics.updateOperation client instanceID app)
              30%nat Hop 31%nat
              (backoff.Reset (backoff.WithMaxRetries NewExponentialBackOff 30)) (None, s))
    as (e & Hloop & _); [reflexivity | exact Hdel | lia |].
  pose proof (updateOperation_iter client instanceID app 31 None s) as Hit.
  destruct (Nat.iter 31 _ (None, s)) as [created s'] eqn:Hend.
  exists created, e, s'. split; [|exact Hit].
  unfold metrics.updateWithRetry, bind, withLocal, backoff.Retry.
  now rewrite Hloop.
Qed.

Lemma onboardOperation_iter (client : cdr.Client Remote) (org0 : cdr.Organization)
    (k : nat) (c : option cdr.Organization) (s : State Remote) :
  let s' := snd (Nat.iter k (fun cs => snd (org.onboardOperation client org0 cs)) (c, s)) in
  data s' = data s /\ calls s' = calls s ++ repeat (CDROnboard org0) k.
Proof.
  induction k as [|k [IHd IHc]]; simpl.
  - now rewrite app_nil_r.
  - change (Nat.iter k ?f ?x) with (Nat.iter k f x) in *.
    destruct (Nat.iter k _ (c, s)) as [c' s'] eqn:Hit. simpl in IHd, IHc.
    unfold org.onboardOperation, bind, liftSt, invoke, onRemote, setLocal, ret, panic. simpl.
    destruct (cdr.TenantSTU3_Onboard client org0 (remote s')) as [[[onboarded resp] err] rem'].
    assert (Hcalls : (calls s' ++ [CDROnboard org0]) = calls s ++ repeat (CDROnboard org0) (S k)).
    { rewrite IHc, <- app_assoc. f_equal. symmetry. apply repeat_cons. }
    destruct resp as [rsp|]; simpl.
    + destruct (tools_CheckForIAMPermissionErrors client (Some rsp) err rem') as [e rem''].
      simpl. split; [exact IHd | exact Hcalls].
    + split; [exact IHd | exact Hcalls].
Qed.

(** When the read by [org_id] does not find the organization, every
    onboarding attempt fails transiently and the exponential policy does
    not stop during the 8 retries, the onboarding call is made 9 times and
    create returns the last error. *)
Lemma stu3Create_always_transient
    (resourceCDROrgUpdate : M (State Remote) diag.Diagnostics)
    (c : config.Config Remote) (client : cdr.Client Remote) (s : State Remote)
    (org0 : cdr.Organization) (found : option cdr.Organization)
    (resp : option cdr.Response) (err : option error) (rem' : Remote) :
  let orgID := schema.GetString (data s) "org_id" in
  let partOf := schema.GetString (data s) "part_of" in
  let org1 :=
    if negb (String.eqb partOf "")
    then org.setPartOf (Some (cdr.Reference_OrganizationId partOf)) org0
    else org0 in
  stu3_NewOrganization (config.TimeZone c) orgID (schema.GetString (data s) "name")
  = inl org0 ->
  cdr.TenantSTU3_GetOrganizationByID client orgID (remote s) = ((found, resp, err), rem') ->
  err <> None \/ found = None ->
  alwaysTransient (org.onboardOperation client org1) ->
  (forall j, (j < 8)%nat ->
     fst (backoff.NextBackOff (afterBackOffs j (backoff.Reset NewExponentialBackOff)))
     <> backoff.Stop) ->
  exists diags s',
    org.stu3Create resourceCDROrgUpdate c client s = (Ok diags, s')
    /\ diag.HasError diags = true
    /\ data s' = data s
    /\ calls s' = calls s ++ [CDRGetOrganizationByID orgID] ++ repeat (CDROnboard org1) 9.
Proof.
  intros orgID partOf org1 Hnew Hget Hmiss Hop Hdel.
  set (s1 := {| data := data s; remote := rem';
                calls := calls s ++ [CDRGetOrganizationByID orgID] |}).
  destruct (RetryLoop_always_transient (org.onboardOperation client org1)
              8%nat Hop 9%nat
              (backoff.Reset (backoff.WithMaxRetries NewExponentialBackOff 8)) (found, s1))
    as (e & Hloop & _); [reflexivity | exact Hdel | lia |].
  pose proof (onboardOperation_iter client org1 9 found s1) as [Hdata Hcalls].
  destruct (Nat.iter 9 _ (found, s1)) as [onboarded s'] eqn:Hend.
  exists (diag.FromErr (Some e)), s'. simpl in Hdata, Hcalls.
  split; [|split; [reflexivity | split; [exact Hdata | now rewrite Hcalls, <- app_assoc]]].
  unfold org.stu3Create. unfold bind at 1, getData. cbv beta iota zeta.
  fold orgID partOf. rewrite Hnew. fold org1.
  unfold bind at 1, invoke. rewrite Hget. fold s1.
  assert (Hretry :
    withLocal found
      (backoff.Retry 9 (org.onboardOperation client org1)
         (backoff.WithMaxRetries NewExponentialBackOff 8)) s1
    = (Ok (Some e, onboarded), s')).
  { unfold withLocal, backoff.Retry. now rewrite Hloop. }
  destruct Hmiss as [Herr | ->].
  - destruct err as [e0|]; [|congruence].
    unfold bind at 1. rewrite Hretry. reflexivity.
  - destruct err as [e0|]; unfold bind at 1; rewrite Hretry; reflexivity.
Qed.

(** C4, as the library and the code have it.  The policy bounds the
    retries, not the attempts.  When every attempt fails transiently and the
    wrapped exponential policy does not stop during the first [maxRetries]
    retries, the retry loop attempts the operation [maxRetries + 1] times
    and returns the error of the last attempt; the autoscaler update, whose
    policy has 30 retries, then calls the console 31 times, and the
    onboarding of an organization, whose policy has 8 retries, makes the
    onboarding call 9 times. *)
Theorem Retry_always_transient_attempts :
  (forall (St B : Type) (H : backoff.BackOff B) (operation : M St (option error))
          (b0 : B) (maxRetries : N) (fuel n0 : nat) (s : St),
     alwaysTransient operation ->
     (forall j, (j < N.to_nat maxRetries)%nat ->
        fst (backoff.NextBackOff (afterBackOffs j (backoff.Reset b0))) <> backoff.Stop) ->
     (N.to_nat maxRetries < fuel)%nat ->
     exists e s',
       backoff.Retry fuel (counted operation) (backoff.WithMaxRetries b0 maxRetries) (n0, s)
       = (Ok (Some e), ((n0 + (N.to_nat maxRetries + 1))%nat, s'))
       /\ backoff.classify (Some e) = backoff.Transient e)
  /\ (forall (client : console.Client Remote) (instanceID : string)
             (app : console.Application) (s : State Remote),
        alwaysTransient (metrics.updateOperation client instanceID app) ->
        (forall j, (j < 30)%nat ->
           fst (backoff.NextBackOff (afterBackOffs j (backoff.Reset NewExponentialBackOff)))
           <> backoff.Stop) ->
        exists created e s',
          metrics.updateWithRetry client instanceID app s = (Ok (created, Some e), s')
          /\ data s' = data s
          /\ calls s'
             = calls s ++ repeat (ConsoleUpdateApplicationAutoscaler instanceID app) 31)
  /\ (forall (resourceCDROrgUpdate : M (State Remote) diag.Diagnostics)
             (c : config.Config Remote) (client : cdr.Client Remote) (s : State Remote)
             (org0 : cdr.Organization) (found : option cdr.Organization)
             (resp : option cdr.Response) (err : option error) (rem' : Remote),
        let orgID := schema.GetString (data s) "org_id" in
        let partOf := schema.GetString (data s) "part_of" in
        let org1 :=
          if negb (String.eqb partOf "")
          then org.setPartOf (Some (cdr.Reference_OrganizationId partOf)) org0
          else org0 in
        stu3_NewOrganization (config.TimeZone c) orgID (schema.GetString (data s) "name")
        = inl org0 ->
        cdr.TenantSTU3_GetOrganizationByID client orgID (remote s)
        = ((found, resp, err), rem') ->
        err <> None \/ found = None ->
        alwaysTransient (org.onboardOperation client org1) ->
        (forall j, (j < 8)%nat ->
           fst (backoff.NextBackOff (afterBackOffs j (backoff.Reset NewExponentialBackOff)))
           <> backoff.Stop) ->
        exists diags s',
          org.stu3Create resourceCDROrgUpdate c client s = (Ok diags, s')
          /\ diag.HasError diags = true
          /\ data s' = data s
          /\ calls s'
             = calls s ++ [CDRGetOrganizationByID orgID] ++ repeat (CDROnboard org1) 9).
Proof.
  split; [|split].
  - intros St B H operation b0 maxRetries fuel n0 s.
    apply Retry_counted_attempts.
  - intros client instanceID app s.
    apply updateWithRetry_always_transient.
  - intros resourceCDROrgUpdate c client s org0 found resp err rem'.
    apply stu3Create_always_transient.
Qed.

End UpdateWithRetry.

(** ** The classifier and the retry loop on examples *)

(** C1 does not hold at status code 500: the outcome is permanent. *)
Lemma checkForIntermittentErrors_500_is_permanent :
  let resp := {| console.StatusCode := 500; console.Error_Message := "boom" |} in
  let e := errorString "500 Internal Server Error" in
  500 <= console.StatusCode resp
  /\ backoff.classify
       (metrics.checkForIntermittentErrors (External0 := Fixture.external) (Some resp) (Some e))
     = backoff.PermanentFailure
         (wrapError "console: boom 500 Internal Server Error" e)
  /\ forall cause,
       backoff.classify
         (metrics.checkForIntermittentErrors (External0 := Fixture.external)
            (Some resp) (Some e))
       <> backoff.Transient cause.
Proof.
  simpl. split; [lia|]. split; [reflexivity | discriminate].
Qed.

Lemma checkForIntermittentErrors_server_error_witness :
  let e := errorString "503 Service Unavailable" in
  let failed := {| console.StatusCode := 500; console.Error_Message := "boom" |} in
  (metrics.checkForIntermittentErrors (External0 := Fixture.external)
     (Some Fixture.unavailable) (Some e) = Some e
   /\ backoff.classify
        (metrics.checkForIntermittentErrors (External0 := Fixture.external)
           (Some Fixture.unavailable) (Some e))
      = backoff.Transient e)
  /\ (exists cause,
        metrics.checkForIntermittentErrors (External0 := Fixture.external)
          (Some failed) (Some e) = Some (PermanentError cause)
        /\ backoff.classify
             (metrics.checkForIntermittentErrors (External0 := Fixture.external)
                (Some failed) (Some e))
           = backoff.PermanentFailure cause).
Proof.
  intros e failed. split.
  - apply (checkForIntermittentErrors_server_error (External0 := Fixture.external)
             Fixture.unavailable (Some e) e);
      [simpl; lia | reflexivity | reflexivity | simpl; lia].
  - apply (checkForIntermittentErrors_server_error (External0 := Fixture.external)
             failed (Some e) e);
      [simpl; lia | reflexivity | reflexivity | reflexivity].
Defined.

(** C8 does not hold: without a response, a plain error is a transient
    outcome, not a permanent one. *)
Lemma checkForIntermittentErrors_no_response_is_transient :
  let e := errorString "dial tcp: i/o timeout" in
  backoff.classify
    (metrics.checkForIntermittentErrors (External0 := Fixture.external) None (Some e))
  = backoff.Transient e
  /\ forall cause,
       backoff.classify
         (metrics.checkForIntermittentErrors (External0 := Fixture.external) None (Some e))
       <> backoff.PermanentFailure cause.
Proof.
  simpl. split; [reflexivity | discriminate].
Qed.

Lemma checkForIntermittentErrors_no_response_witness :
  let e := errorString "dial tcp: i/o timeout" in
  metrics.checkForIntermittentErrors (External0 := Fixture.external) None (Some e) = Some e
  /\ backoff.classify
       (metrics.checkForIntermittentErrors (External0 := Fixture.external) None (Some e))
     = backoff.Transient e.
Proof.
  intros e.
  apply (checkForIntermittentErrors_no_response (External0 := Fixture.external) e).
  reflexivity.
Defined.

Lemma checkForIntermittentErrors_invalid_character_witness :
  let resp := {| console.StatusCode := 400;
                 console.Error_Message := "invalid character '<' looking for value" |} in
  metrics.checkForIntermittentErrors (External0 := Fixture.external) (Some resp) None
  = Some (errorString "intermittent error")
  /\ backoff.classify
       (metrics.checkForIntermittentErrors (External0 := Fixture.external) (Some resp) None)
     = backoff.Transient (errorString "intermittent error").
Proof.
  intros resp.
  apply (checkForIntermittentErrors_invalid_character (External0 := Fixture.external)
           resp None); reflexivity.
Defined.

Lemma unavailableOperation_alwaysTransient : alwaysTransient Fixture.unavailableOperation.
Proof. intros s. eexists _, _. split; reflexivity. Qed.

(** C4 does not hold: with a policy of 8 retries an operation that always
    fails transiently is attempted 9 times; the autoscaler update, whose
    policy has 30 retries, calls a console that always answers 503 31
    times; the onboarding, whose policy has 8 retries, calls a store that
    always answers 503 9 times. *)
Lemma Retry_attempts_one_more_than_maxRetries :
  alwaysTransient Fixture.unavailableOperation
  /\ (exists e,
        backoff.Retry (H := Fixture.triesBackOff) 9
          (counted Fixture.unavailableOperation)
          (backoff.WithMaxRetries tt 8) (O, tt)
        = (Ok (Some e), (9%nat, tt)))
  /\ 9%nat <> 8%nat
  /\ alwaysTransient
       (metrics.updateOperation (External0 := Fixture.external)
          Fixture.console503 "instance" Fixture.app0)
  /\ calls (snd (metrics.updateWithRetry (External0 := Fixture.external)
                   Fixture.console503 "instance" Fixture.app0 Fixture.state0))
     = repeat (ConsoleUpdateApplicationAutoscaler "instance" Fixture.app0) 31
  /\ 31%nat <> 30%nat
  /\ List.filter isOnboard
       (calls (snd (org.stu3Create (External0 := Fixture.external) (ret [])
                      Fixture.config0 Fixture.cdrClientUnavailable Fixture.state0)))
     = repeat (CDROnboard Fixture.hospital) 9.
Proof.
  split; [exact unavailableOperation_alwaysTransient|].
  split; [eexists; vm_compute; reflexivity|].
  split; [lia|].
  split; [intros [c s]; eexists _, _; split; reflexivity|].
  split; [vm_compute; reflexivity|].
  split; [lia | vm_compute; reflexivity].
Qed.

Lemma Retry_always_transient_attempts_witness :
  (exists e s',
     backoff.Retry (H := Fixture.triesBackOff) 9
       (counted Fixture.unavailableOperation) (backoff.WithMaxRetries tt 8) (O, tt)
     = (Ok (Some e), (9%nat, s'))
     /\ backoff.classify (Some e) = backoff.Transient e)
  /\ (exists created e s',
        metrics.updateWithRetry (External0 := Fixture.external)
          Fixture.console503 "instance" Fixture.app0 Fixture.state0
        = (Ok (created, Some e), s')
        /\ data s' = Fixture.data0
        /\ calls s'
           = repeat (ConsoleUpdateApplicationAutoscaler "instance" Fixture.app0) 31)
  /\ (exists diags s',
        org.stu3Create (External0 := Fixture.external) (ret []) Fixture.config0
          Fixture.cdrClientUnavailable Fixture.state0
        = (Ok diags, s')
        /\ diag.HasError diags = true
        /\ data s' = Fixture.data0
        /\ calls s'
           = CDRGetOrganizationByID "org-1" :: repeat (CDROnboard Fixture.hospital) 9).
Proof.
  destruct (Retry_always_transient_attempts (External0 := Fixture.external))
    as (Hloop & Hupdate & Hcreate).
  split; [|split].
  - apply (Hloop unit unit Fixture.constantBackOff Fixture.unavailableOperation
             tt 8%N 9%nat O tt).
    + exact unavailableOperation_alwaysTransient.
    + intros j _. simpl. discriminate.
    + simpl. lia.
  - apply (Hupdate Fixture.console503 "instance" Fixture.app0 Fixture.state0).
    + intros [c s]. eexists _, _. split; reflexivity.
    + intros j _. simpl. discriminate.
  - apply (Hcreate (ret []) Fixture.config0 Fixture.cdrClientUnavailable Fixture.state0
             Fixture.hospital None (Some (Fixture.response 404))
             (Some (errorString "404 Not Found")) 1%nat).
    + reflexivity.
    + reflexivity.
    + left. discriminate.
    + intros [c s]. eexists _, _. split; reflexivity.
    + intros j _. simpl. discriminate.
Defined.

(** ** The callbacks of the three resources *)

Ltac run_monad :=
  unfold bind, ret, panic, liftRes, getData, updateData, invoke; simpl.

(** Case analysis on an innermost scrutinee of the goal. *)
Ltac destruct_match :=
  match goal with
  | |- context [match ?x with _ => _ end] =>
      lazymatch x with
      | context [match _ with _ => _ end] => fail
      | _ => destruct x eqn:?
      end
  end.

Section AutoscalerCallbacks.
Context {Remote : Type} `{!External Remote}.

(** C10.  The update callback of the autoscaler is its create callback: on
    every state, and for every order in which the thresholds are visited,
    both return the same diagnostics and leave the same state, hence the
    same identifier and the same log of remote calls. *)
Theorem resourceMetricsAutoscalerUpdate_is_Create
    (order : list (string * metrics.threshold)) (m : config.Config Remote)
    (s : State Remote) :
  let updated := metrics.resourceMetricsAutoscalerUpdate order m s in
  let created := metrics.resourceMetricsAutoscalerCreate order m s in
  updated = created
  /\ fst updated = fst created
  /\ calls (snd updated) = calls (snd created)
  /\ schema.Id (data (snd updated)) = schema.Id (data (snd created)).
Proof.
  unfold metrics.resourceMetricsAutoscalerUpdate. repeat split.
Qed.

End AutoscalerCallbacks.

Section OrganizationCallbacks.
Context {Remote : Type} `{!External Remote}.

(** The STU3 update reads the organization and, at most, patches it: the
    calls it adds are no onboarding calls. *)
Lemma stu3Update_calls (client : cdr.Client Remote) (m : config.Config Remote)
    (s : State Remote) :
  exists added,
    calls (snd (org.stu3Update client m s)) = calls s ++ added
    /\ List.filter isOnboard added = [].
Proof.
  unfold org.stu3Update. run_monad.
  repeat (destruct_match; simpl);
    try (eexists; split; [reflexivity | reflexivity]);
    try (eexists; split; [rewrite <- app_assoc; reflexivity | reflexivity]).
Qed.

(** C2.  When the organization can be built and the read by [org_id]
    succeeds with an organization, create makes that one read, stores the
    identifier found and is the update callback from there on.  It makes no
    onboarding call of its own, and none at all when the update callback is
    the STU3 update. *)
Theorem stu3Create_existing_delegates_to_update
    (resourceCDROrgUpdate : M (State Remote) diag.Diagnostics)
    (c : config.Config Remote) (client : cdr.Client Remote) (s : State Remote)
    (org0 found : cdr.Organization) (resp : option cdr.Response) (rem' : Remote) :
  let orgID := schema.GetString (data s) "org_id" in
  stu3_NewOrganization (config.TimeZone c) orgID (schema.GetString (data s) "name")
  = inl org0 ->
  cdr.TenantSTU3_GetOrganizationByID client orgID (remote s)
  = ((Some found, resp, None), rem') ->
  let s1 := {| data := schema.SetId (cdr.Id found) (data s);
               remote := rem';
               calls := calls s ++ [CDRGetOrganizationByID orgID] |} in
  org.stu3Create resourceCDROrgUpdate c client s = resourceCDROrgUpdate s1
  /\ List.filter isOnboard (calls s1) = List.filter isOnboard (calls s)
  /\ List.filter isOnboard
       (calls (snd (org.stu3Create (org.stu3Update client c) c client s)))
     = List.filter isOnboard (calls s).
Proof.
  intros orgID Hnew Hget s1.
  assert (Hcreate : forall upd, org.stu3Create upd c client s = upd s1).
  { intros upd. unfold org.stu3Create. run_monad.
    fold orgID. rewrite Hnew. run_monad. rewrite Hget. reflexivity. }
  assert (Hs1 : List.filter isOnboard (calls s1) = List.filter isOnboard (calls s)).
  { unfold s1. simpl. rewrite List.filter_app. simpl. apply app_nil_r. }
  split; [apply Hcreate|]. split; [exact Hs1|].
  rewrite Hcreate.
  destruct (stu3Update_calls client c s1) as (added & -> & Hadded).
  now rewrite List.filter_app, Hadded, app_nil_r.
Qed.

Lemma HasChange_unchanged (d : schema.ResourceData) (key : string) :
  schema.changed d = ∅ -> schema.HasChange d key = false.
Proof.
  intros Hsame. unfold schema.HasChange. rewrite Hsame.
  apply bool_decide_eq_false_2. set_solver.
Qed.

(** C3, as the code has it.  An update with no changed attribute reads the
    current organization and makes no other call: the STU3 update sends no
    patch, the IAM update no update call.  The read is made in every case. *)
Theorem update_without_changes_only_reads :
  (forall (client : cdr.Client Remote) (m : config.Config Remote) (s : State Remote),
     schema.changed (data s) = ∅ ->
     exists diags rem',
       org.stu3Update client m s
       = (Ok diags,
          {| data := data s; remote := rem';
             calls := calls s ++ [CDRGetOrganizationByID (schema.Id (data s))] |}))
  /\ (forall (m : config.Config Remote) (client : iam.Client Remote) (s : State Remote),
        config.IAMClient m = inl client ->
        schema.changed (data s) = ∅ ->
        exists diags rem',
          iam_org.resourceIAMOrgUpdate m s
          = (Ok diags,
             {| data := data s; remote := rem';
                calls := calls s ++ [IAMGetOrganizationByID (schema.Id (data s))] |})).
Proof.
  split.
  - intros client m s Hsame.
    unfold org.stu3Update. run_monad.
    rewrite !(HasChange_unchanged _ _ Hsame).
    repeat (destruct_match; simpl); eexists _, _; reflexivity.
  - intros m client s Hclient Hsame.
    unfold iam_org.resourceIAMOrgUpdate. rewrite Hclient. run_monad.
    rewrite !(HasChange_unchanged _ _ Hsame).
    repeat (destruct_match; simpl); eexists _, _; reflexivity.
Qed.


(** C6, as the code has it.  A soft delete of the STU3 organization whose
    delete call answers with status 404 clears the identifier and returns no
    diagnostics, with or without an error next to the response. *)
Theorem stu3Delete_soft_not_found
    (rounds : nat) (client : cdr.Client Remote) (s : State Remote)
    (deleted : bool) (resp : cdr.Response) (err : option error) (rem' : Remote) :
  let path := path_Join ["Organization"; schema.Id (data s)] in
  schema.GetBool (data s) "purge_delete" = false ->
  cdr.OperationsSTU3_Delete client path (remote s) = ((deleted, Some resp, err), rem') ->
  cdr.StatusCode resp = 404 ->
  org.stu3Delete rounds client s
  = (Ok [],
     {| data := schema.SetId "" (data s); remote := rem';
        calls := calls s ++ [CDRDelete path] |}).
Proof.
  intros path Hsoft Hdelete Hcode.
  unfold org.stu3Delete. run_monad. rewrite Hsoft. run_monad.
  fold path. rewrite Hdelete. simpl.
  unfold org.hasStatus. rewrite Hcode. reflexivity.
Qed.

End OrganizationCallbacks.

(** ** Purge and its poll *)

Section Purge.
Context {Remote : Type} `{!External Remote}.

Lemma inLabels_singleton (state label : string) :
  resource.inLabels state [label] = String.eqb state label.
Proof. unfold resource.inLabels. simpl. apply orb_false_r. Qed.


Lemma refreshLoop_target {St R} (conf : resource.StateChangeConf St R) (n tick : nat)
    (last : string) (t t' : St) (res : R) (label : string) :
  resource.Refresh conf t = (Ok (Some res, label, None), t') ->
  resource.inLabels label (resource.Target conf) = true ->
  resource.refreshLoop (S n) conf tick last t = (Ok (Some res, None), t').
Proof.
  intros Href Hin. cbn [resource.refreshLoop]. unfold bind. now rewrite Href, Hin.
Qed.

Lemma refreshLoop_pending {St R} (conf : resource.StateChangeConf St R) (n tick : nat)
    (last : string) (t t' : St) (res : R) (label : string) :
  resource.Refresh conf t = (Ok (Some res, label, None), t') ->
  resource.inLabels label (resource.Target conf) = false ->
  resource.inLabels label (resource.Pending conf) = true ->
  resource.refreshLoop (S n) conf tick last t = resource.refreshLoop n conf O label t'.
Proof.
  intros Href Hout Hin. cbn [resource.refreshLoop]. unfold bind. now rewrite Href, Hout, Hin.
Qed.



End Purge.

(** ** The callbacks on examples *)

Lemma stu3Create_existing_delegates_to_update_witness :
  let update := org.stu3Update (External0 := Fixture.external) Fixture.cdrClient Fixture.config0 in
  let s1 := {| data := schema.SetId "org-1" Fixture.data0; remote := 1%nat;
               calls := [CDRGetOrganizationByID "org-1"] |} in
  org.stu3Create (External0 := Fixture.external) update Fixture.config0 Fixture.cdrClient
    Fixture.state0
  = update s1
  /\ List.filter isOnboard (calls s1) = []
  /\ List.filter isOnboard
       (calls (snd (org.stu3Create (External0 := Fixture.external) update Fixture.config0
                      Fixture.cdrClient Fixture.state0)))
     = [].
Proof.
  intros update s1.
  apply (stu3Create_existing_delegates_to_update (External0 := Fixture.external)
           update Fixture.config0 Fixture.cdrClient Fixture.state0
           Fixture.hospital Fixture.hospital (Some (Fixture.response 200)) 1%nat);
    reflexivity.
Defined.

(** C3 does not hold: with no changed attribute, the STU3 update and the IAM
    update each make one remote call, the read of the organization. *)
Lemma update_without_changes_makes_one_call :
  schema.changed (data Fixture.state0) = ∅
  /\ calls (snd (org.stu3Update (External0 := Fixture.external)
                   Fixture.cdrClient Fixture.config0 Fixture.state0))
     = [CDRGetOrganizationByID "org-1"]
  /\ calls (snd (iam_org.resourceIAMOrgUpdate Fixture.config0 Fixture.state0))
     = [IAMGetOrganizationByID "org-1"]
  /\ length [CDRGetOrganizationByID "org-1"] <> O.
Proof.
  split; [reflexivity|]. split; [vm_compute; reflexivity|].
  split; [vm_compute; reflexivity | discriminate].
Qed.

Lemma update_without_changes_only_reads_witness :
  (exists diags rem',
     org.stu3Update (External0 := Fixture.external) Fixture.cdrClient Fixture.config0
       Fixture.state0
     = (Ok diags,
        {| data := Fixture.data0; remote := rem';
           calls := [CDRGetOrganizationByID "org-1"] |}))
  /\ (exists diags rem',
        iam_org.resourceIAMOrgUpdate Fixture.config0 Fixture.state0
        = (Ok diags,
           {| data := Fixture.data0; remote := rem';
              calls := [IAMGetOrganizationByID "org-1"] |})).
Proof.
  destruct (update_without_changes_only_reads (External0 := Fixture.external))
    as [Hstu3 Hiam].
  split.
  - apply (Hstu3 Fixture.cdrClient Fixture.config0 Fixture.state0). reflexivity.
  - apply (Hiam Fixture.config0 Fixture.iamClient Fixture.state0); reflexivity.
Defined.



(** C6 does not hold for the IAM organization: its delete reports the error
    of a delete call that answers 404 and leaves the identifier in place. *)
Lemma resourceIAMOrgDelete_not_found_is_error :
  let run := iam_org.resourceIAMOrgDelete (External0 := Fixture.external)
               Fixture.config0 Fixture.state0 in
  iam.Organizations_DeleteOrganization Fixture.iamClient Fixture.iamOrg 1%nat
  = ((false, Some {| iam.StatusCode := 404 |}, Some (errorString "404 Not Found")), 2%nat)
  /\ fst run
     = Ok [ {| diag.Severity_ := diag.Severity_Error; diag.Summary := "404 Not Found" |} ]
  /\ fst run <> Ok []
  /\ schema.Id (data (snd run)) = "org-1"
  /\ schema.Id (data (snd run)) <> "".
Proof.
  vm_compute. repeat split; discriminate.
Qed.

Lemma stu3Delete_soft_not_found_witness :
  org.stu3Delete (External0 := Fixture.external) 0 Fixture.cdrClient Fixture.state0
  = (Ok [],
     {| data := schema.SetId "" Fixture.data0; remote := 1%nat;
        calls := [CDRDelete "Organization/org-1"] |}).
Proof.
  apply (stu3Delete_soft_not_found (External0 := Fixture.external) 0 Fixture.cdrClient
           Fixture.state0 false (Fixture.response 404)
           (Some (errorString "404 Not Found")) 1%nat); reflexivity.
Defined.


(** A purge whose status check answers with the label "ERROR" fails at the
    first check and keeps the identifier. *)
Lemma stu3Delete_purge_unexpected_label :
  let run := org.stu3Delete (External0 := Fixture.external) 5 Fixture.cdrClientPurgeFails
               Fixture.purgeState0 in
  fst run
  = Ok [ {| diag.Severity_ := diag.Severity_Error;
            diag.Summary :=
              "error waiting for FHIR ORG purge 'org-1' operation: unexpected state 'ERROR'" |} ]
  /\ schema.Id (data (snd run)) = "org-1"
  /\ length (calls (snd run)) = 2%nat.
Proof.
  vm_compute. repeat split.
Qed.

(** The onboarding of an organization that the store does not hold yet:
    one read, one onboarding call, identifier set. *)
Lemma stu3Create_onboards :
  let run := org.stu3Create (External0 := Fixture.external) (ret []) Fixture.config0
               Fixture.cdrClientGone Fixture.state0 in
  fst run = Ok []
  /\ calls (snd run) = [CDRGetOrganizationByID "org-1"; CDROnboard Fixture.hospital].
Proof.
  vm_compute. repeat split.
Qed.

(** * Further properties *)

(** ** The classifier on every answer *)

Section ClassifierMore.
Context {Remote : Type} `{!External Remote}.

(** The answers that the classifier does not pass through: status 500, and
    status 400 with the intermittent message. *)
Lemma checkForIntermittentErrors_cases (resp : option console.Response)
    (err : option error) :
  metrics.checkForIntermittentErrors resp err = err
  \/ metrics.checkForIntermittentErrors resp err = backoff.Permanent err
  \/ (exists r cause,
        resp = Some r /\ console.StatusCode r = 500
        /\ metrics.checkForIntermittentErrors resp err = Some (PermanentError cause))
  \/ (exists r,
        resp = Some r /\ console.StatusCode r = 400
        /\ Contains (console.Error_Message r) "invalid character" = true
        /\ metrics.checkForIntermittentErrors resp err = Some ErrIntermittent).
Proof.
  unfold metrics.checkForIntermittentErrors.
  destruct resp as [r|]; [|now left].
  destruct (console.StatusCode r >? 500); [now left|].
  destruct (console.StatusCode r =? StatusInternalServerError) eqn:H500.
  - right; right; left. apply Z.eqb_eq in H500. eexists _, _. repeat split. exact H500.
  - destruct (console.StatusCode r =? StatusBadRequest) eqn:H400; simpl.
    + destruct (Contains _ _) eqn:Hmsg.
      * right; right; right. apply Z.eqb_eq in H400. now exists r.
      * right; now left.
    + right; now left.
Qed.

(** An error is never turned into success: when the classifier answers nil,
    the call had returned no error. *)
Theorem checkForIntermittentErrors_keeps_errors (resp : option console.Response)
    (err : option error) :
  metrics.checkForIntermittentErrors resp err = None -> err = None.
Proof.
  intros Hnil.
  destruct (checkForIntermittentErrors_cases resp err)
    as [H | [H | [(r & cause & _ & _ & H) | (r & _ & _ & _ & H)]]];
    rewrite H in Hnil; try discriminate; try exact Hnil.
  destruct err; [discriminate | reflexivity].
Qed.

(** An answer with a status code below 500, other than a 400 with the
    intermittent message, makes the error of the call permanent: it is not
    retried, whatever the error is. *)
Theorem checkForIntermittentErrors_client_error (resp : console.Response) (e : error) :
  console.StatusCode resp < 500 ->
  (console.StatusCode resp = 400 ->
   Contains (console.Error_Message resp) "invalid character" = false) ->
  metrics.checkForIntermittentErrors (Some resp) (Some e) = Some (PermanentError e)
  /\ backoff.classify (metrics.checkForIntermittentErrors (Some resp) (Some e))
     = backoff.PermanentFailure e.
Proof.
  intros Hlt Hmsg. unfold metrics.checkForIntermittentErrors.
  replace (console.StatusCode resp >? 500) with false
    by (symmetry; rewrite Z.gtb_ltb; apply Z.ltb_ge; lia).
  replace (console.StatusCode resp =? StatusInternalServerError) with false
    by (symmetry; apply Z.eqb_neq; unfold StatusInternalServerError; lia).
  destruct (console.StatusCode resp =? StatusBadRequest) eqn:H400; simpl.
  - apply Z.eqb_eq in H400. rewrite (Hmsg H400). split; reflexivity.
  - split; reflexivity.
Qed.

End ClassifierMore.

(** ** Bounds on the attempts of the retry loop *)

Section RetryBounds.
Context {St B : Type} `{!backoff.BackOff B}.

Lemma RetryLoop_counted_bounds (operation : M St (option error)) (fuel : nat) :
  forall (b : backoff.backOffTries B) (n0 : nat) (s : St),
    let n := fst (snd (backoff.RetryLoop fuel (counted operation) b (n0, s))) in
    (n <= n0 + N.to_nat (backoff.maxTries b - backoff.numTries b) + 1)%nat
    /\ ((0 < fuel)%nat -> (n0 < n)%nat).
Proof.
  induction fuel as [|fuel IH]; intros b n0 s; cbv zeta.
  - simpl. split; lia.
  - cbn [backoff.RetryLoop]. unfold bind.
    assert (Hc : counted operation (n0, s)
                 = (fst (operation s), (S n0, snd (operation s))))
      by (unfold counted; simpl; now destruct (operation s)).
    rewrite Hc. clear Hc.
    destruct (fst (operation s)) as [err| |]; [|simpl; split; lia..].
    destruct (backoff.classify err); [simpl; split; lia | | simpl; split; lia].
    simpl.
    destruct (backoff.maxTries b =? 0)%N; [simpl; split; lia|].
    destruct (backoff.maxTries b <=? backoff.numTries b)%N eqn:Hle; [simpl; split; lia|].
    destruct (backoff.NextBackOff (backoff.delegate b)) as [next d].
    destruct (next =? backoff.Stop); [simpl; split; lia|].
    apply N.leb_gt in Hle.
    specialize (IH {| backoff.delegate := d; backoff.maxTries := backoff.maxTries b;
                      backoff.numTries := (backoff.numTries b + 1)%N |}
                  (S n0) (snd (operation s))).
    cbv zeta in IH. simpl backoff.maxTries in IH. simpl backoff.numTries in IH.
    destruct IH as [IHle IHlt]. split; [lia|].
    intros _. destruct fuel; [simpl; lia|]. specialize (IHlt ltac:(lia)). lia.
Qed.

(** Whatever the operation and the wrapped policy do, a retry under
    [WithMaxRetries b maxRetries] runs the operation at least once and at
    most [maxRetries + 1] times. *)
Theorem Retry_attempts_bounded (operation : M St (option error)) (b0 : B)
    (maxRetries : N) (fuel n0 : nat) (s : St) :
  (0 < fuel)%nat ->
  let n := fst (snd (backoff.Retry fuel (counted operation)
                       (backoff.WithMaxRetries b0 maxRetries) (n0, s))) in
  (n0 + 1 <= n <= n0 + N.to_nat maxRetries + 1)%nat.
Proof.
  intros Hfuel n.
  pose proof (RetryLoop_counted_bounds operation fuel
                (backoff.Reset (backoff.WithMaxRetries b0 maxRetries)) n0 s) as Hbounds.
  cbv zeta in Hbounds. destruct Hbounds as [Hle Hlt].
  change (backoff.maxTries (backoff.Reset (backoff.WithMaxRetries b0 maxRetries)))
    with maxRetries in Hle.
  change (backoff.numTries (backoff.Reset (backoff.WithMaxRetries b0 maxRetries)))
    with 0%N in Hle.
  rewrite N.sub_0_r in Hle.
  specialize (Hlt Hfuel). unfold n, backoff.Retry. lia.
Qed.

End RetryBounds.

(** ** The autoscaler callbacks: calls made and identifier *)

Section AutoscalerMore.
Context {Remote : Type} `{!External Remote}.

Lemma updateOperation_step (client : console.Client Remote) (instanceID : string)
    (app : console.Application) (c : option console.Application) (s : State Remote) :
  exists created resp err rem',
    console.Metrics_UpdateApplicationAutoscaler client instanceID app (remote s)
    = ((created, resp, err), rem')
    /\ metrics.updateOperation client instanceID app (c, s)
       = (Ok (metrics.checkForIntermittentErrors resp err),
          (created,
           {| data := data s; remote := rem';
              calls := calls s ++ [ConsoleUpdateApplicationAutoscaler instanceID app] |})).
Proof.
  unfold metrics.updateOperation, bind, liftSt, invoke, setLocal, ret. simpl.
  destruct (console.Metrics_UpdateApplicationAutoscaler client instanceID app (remote s))
    as [[[created resp] err] rem'].
  now exists created, resp, err, rem'.
Qed.

(** The retry loop of the update only ever repeats the same update call,
    and leaves the resource data alone. *)
Lemma updateLoop_calls (client : console.Client Remote) (instanceID : string)
    (app : console.Application) (fuel : nat) :
  forall (b : backoff.backOffTries ExponentialBackOff) (c : option console.Application)
         (s : State Remote),
    let s' := snd (snd (backoff.RetryLoop fuel
                          (metrics.updateOperation client instanceID app) b (c, s))) in
    exists k,
      (k <= N.to_nat (backoff.maxTries b - backoff.numTries b) + 1)%nat
      /\ ((0 < fuel)%nat -> (1 <= k)%nat)
      /\ data s' = data s
      /\ calls s' = calls s ++ repeat (ConsoleUpdateApplicationAutoscaler instanceID app) k.
Proof.
  induction fuel as [|fuel IH]; intros b c s; cbv zeta.
  - exists O. simpl. rewrite app_nil_r. repeat split; lia.
  - cbn [backoff.RetryLoop]. unfold bind.
    destruct (updateOperation_step client instanceID app c s)
      as (created & resp & err & rem' & _ & ->).
    set (s1 := {| data := data s; remote := rem';
                  calls := calls s ++ [ConsoleUpdateApplicationAutoscaler instanceID app] |}).
    assert (Hone : exists k,
               (k <= N.to_nat (backoff.maxTries b - backoff.numTries b) + 1)%nat
               /\ ((0 < S fuel)%nat -> (1 <= k)%nat)
               /\ data s1 = data s
               /\ calls s1
                  = calls s ++ repeat (ConsoleUpdateApplicationAutoscaler instanceID app) k).
    { exists 1%nat. repeat split; simpl; lia. }
    destruct (backoff.classify _); [exact Hone | | exact Hone].
    simpl.
    destruct (backoff.maxTries b =? 0)%N; [exact Hone|].
    destruct (backoff.maxTries b <=? backoff.numTries b)%N eqn:Hle; [exact Hone|].
    destruct (backoff.NextBackOff (backoff.delegate b)) as [next d].
    destruct (next =? backoff.Stop); [exact Hone|].
    apply N.leb_gt in Hle.
    destruct (IH {| backoff.delegate := d; backoff.maxTries := backoff.maxTries b;
                    backoff.numTries := (backoff.numTries b + 1)%N |} created s1)
      as (k & Hk & _ & Hdata & Hcalls).
    simpl backoff.maxTries in Hk. simpl backoff.numTries in Hk.
    exists (S k). split; [lia|]. split; [lia|]. split; [exact Hdata|].
    rewrite Hcalls. unfold s1. simpl. now rewrite <- app_assoc.
Qed.

Lemma updateWithRetry_state (client : console.Client Remote) (instanceID : string)
    (app : console.Application) (s : State Remote) :
  exists created err s' k,
    metrics.updateWithRetry client instanceID app s = (Ok (created, err), s')
    /\ (1 <= k <= 31)%nat
    /\ data s' = data s
    /\ calls s' = calls s ++ repeat (ConsoleUpdateApplicationAutoscaler instanceID app) k.
Proof.
  destruct (updateWithRetry_returns client instanceID app s) as (created & err & s' & Hrun).
  pose proof (updateLoop_calls client instanceID app 31
                (backoff.Reset (backoff.WithMaxRetries NewExponentialBackOff 30)) None s)
    as Hloop.
  cbv zeta in Hloop. destruct Hloop as (k & Hk & Hk1 & Hdata & Hcalls).
  exists created, err, s', k.
  split; [exact Hrun|].
  assert (Hs' : snd (snd (backoff.RetryLoop 31
                            (metrics.updateOperation client instanceID app)
                            (backoff.Reset (backoff.WithMaxRetries NewExponentialBackOff 30))
                            (None, s))) = s').
  { revert Hrun. unfold metrics.updateWithRetry, bind, withLocal, backoff.Retry.
    destruct (backoff.RetryLoop _ _ _ _) as [[e| |] [c0 s0]]; unfold ret; simpl; congruence. }
  rewrite Hs' in Hdata, Hcalls.
  change (N.to_nat _) with 30%nat in Hk.
  split; [specialize (Hk1 ltac:(lia)); lia|]. split; assumption.
Qed.

(** The update with retry makes between 1 and 31 calls, all of them the
    same update call, and does not touch the resource data. *)
Theorem updateWithRetry_calls_bounded (client : console.Client Remote)
    (instanceID : string) (app : console.Application) (s : State Remote) :
  let s' := snd (metrics.updateWithRetry client instanceID app s) in
  exists k,
    (1 <= k <= 31)%nat
    /\ data s' = data s
    /\ calls s' = calls s ++ repeat (ConsoleUpdateApplicationAutoscaler instanceID app) k.
Proof.
  destruct (updateWithRetry_state client instanceID app s)
    as (created & err & s' & k & Hrun & Hk & Hdata & Hcalls).
  cbv zeta. rewrite Hrun. now exists k.
Qed.

(** The first answer that is not transient ends the update after one call:
    a success gives the application and no error, a permanent outcome gives
    its cause, without the permanent wrapper. *)
Theorem updateWithRetry_settled (client : console.Client Remote) (instanceID : string)
    (app : console.Application) (s : State Remote)
    (created : option console.Application) (resp : option console.Response)
    (err : option error) (rem' : Remote) :
  console.Metrics_UpdateApplicationAutoscaler client instanceID app (remote s)
  = ((created, resp, err), rem') ->
  (forall e, backoff.classify (metrics.checkForIntermittentErrors resp err)
             <> backoff.Transient e) ->
  metrics.updateWithRetry client instanceID app s
  = (Ok (created,
         match backoff.classify (metrics.checkForIntermittentErrors resp err) with
         | backoff.PermanentFailure cause => Some cause
         | _ => None
         end),
     {| data := data s; remote := rem';
        calls := calls s ++ [ConsoleUpdateApplicationAutoscaler instanceID app] |}).
Proof.
  intros Hcall Hsettled.
  unfold metrics.updateWithRetry, bind at 1, withLocal, backoff.Retry.
  cbn [backoff.RetryLoop]. unfold bind at 1.
  destruct (updateOperation_step client instanceID app None s)
    as (created' & resp' & err' & rem'' & Hcall' & ->).
  rewrite Hcall in Hcall'. injection Hcall' as <- <- <- <-.
  destruct (backoff.classify (metrics.checkForIntermittentErrors resp err)) as [|e|cause];
    [reflexivity | now destruct (Hsettled e) | reflexivity].
Qed.

(** A run that ends in an error diagnostic or a panic is not [Ok []]. *)
Ltac not_ok :=
  let H := fresh in unfold ret; simpl; intros H; inversion H.

Lemma appendThresholds_state {St} (key : string)
    (vL : list (list (string * schema.Value))) :
  forall (acc : list console.Threshold) (s : St),
    snd (metrics.appendThresholds key vL acc s) = s.
Proof.
  induction vL as [|mVi vL IH]; intros acc s; [reflexivity|].
  cbn [metrics.appendThresholds]. unfold bind, metrics.assertFloat64, metrics.assertBool.
  destruct (schema.index mVi "min") as [[]|]; try reflexivity.
  destruct (schema.index mVi "max") as [[]|]; try reflexivity.
  destruct (schema.index mVi "enabled") as [[]|]; try reflexivity.
  apply IH.
Qed.

Lemma rangeThresholds_state {St} (d : schema.ResourceData)
    (order : list (string * metrics.threshold)) :
  forall (acc : list console.Threshold) (s : St),
    snd (metrics.rangeThresholds d order acc s) = s.
Proof.
  induction order as [|[key mapping] order IH]; intros acc s; [reflexivity|].
  cbn [metrics.rangeThresholds].
  destruct (schema.GetOkSet d (metrics.fieldName mapping)) as [vL|]; [|apply IH].
  unfold bind. pose proof (appendThresholds_state key vL acc s) as Hs.
  destruct (metrics.appendThresholds key vL acc s) as [[acc'| |] s1]; simpl in Hs; subst s1;
    [apply IH | reflexivity | reflexivity].
Qed.

(** What the retry loop of the update returns is what the console answered
    to its last call; and it returns no error only when that answer was
    classified as a success. *)
Lemma updateLoop_last (client : console.Client Remote) (instanceID : string)
    (app : console.Application) (fuel : nat) :
  forall (b : backoff.backOffTries ExponentialBackOff) (c : option console.Application)
         (s : State Remote) (res : option error) (created : option console.Application)
         (s' : State Remote),
    backoff.RetryLoop fuel (metrics.updateOperation client instanceID app) b (c, s)
    = (Ok res, (created, s')) ->
    exists r resp err,
      console.Metrics_UpdateApplicationAutoscaler client instanceID app r
      = ((created, resp, err), remote s')
      /\ (res = None -> metrics.checkForIntermittentErrors resp err = None).
Proof.
  induction fuel as [|fuel IH]; intros b c s res created s'.
  - simpl. unfold diverge. discriminate.
  - cbn [backoff.RetryLoop]. unfold bind.
    destruct (updateOperation_step client instanceID app c s)
      as (created1 & resp & err & rem' & Hcall & ->).
    assert (Hhere : forall res0,
              (res0 = None -> metrics.checkForIntermittentErrors resp err = None) ->
              (Ok res0,
               (created1,
                {| data := data s; remote := rem';
                   calls := calls s ++ [ConsoleUpdateApplicationAutoscaler instanceID app] |}))
              = (Ok res, (created, s')) ->
              exists r resp0 err0,
                console.Metrics_UpdateApplicationAutoscaler client instanceID app r
                = ((created, resp0, err0), remote s')
                /\ (res = None -> metrics.checkForIntermittentErrors resp0 err0 = None)).
    { intros res0 Hres Heq. inversion Heq; subst.
      exists (remote s), resp, err. split; [exact Hcall | exact Hres]. }
    destruct (backoff.classify (metrics.checkForIntermittentErrors resp err)) eqn:Hclass.
    + apply Hhere. intros _.
      destruct (metrics.checkForIntermittentErrors resp err) as [e|]; [|reflexivity].
      unfold backoff.classify in Hclass. destruct (As_PermanentError e); discriminate.
    + simpl.
      destruct (backoff.maxTries b =? 0)%N;
        [apply Hhere; discriminate|].
      destruct (backoff.maxTries b <=? backoff.numTries b)%N;
        [apply Hhere; discriminate|].
      destruct (backoff.NextBackOff (backoff.delegate b)) as [next d].
      destruct (next =? backoff.Stop); [apply Hhere; discriminate|].
      apply IH.
    + apply Hhere. discriminate.
Qed.

Lemma updateWithRetry_last (client : console.Client Remote) (instanceID : string)
    (app : console.Application) (s s' : State Remote)
    (created : option console.Application) (err : option error) :
  metrics.updateWithRetry client instanceID app s = (Ok (created, err), s') ->
  exists r resp cerr,
    console.Metrics_UpdateApplicationAutoscaler client instanceID app r
    = ((created, resp, cerr), remote s')
    /\ (err = None -> metrics.checkForIntermittentErrors resp cerr = None).
Proof.
  unfold metrics.updateWithRetry, bind, withLocal, backoff.Retry.
  destruct (backoff.RetryLoop _ _ _ _) as [[res| |] [c0 s0]] eqn:Hloop;
    unfold ret; simpl; intros Hrun; inversion Hrun; subst.
  exact (updateLoop_last client instanceID app _ _ _ _ _ _ _ Hloop).
Qed.

(** The create callback (and with it the update callback) stores an
    identifier exactly when it returns without diagnostics: the identifier
    is the instance identifier followed by the name of the application that
    the console returned to the last update call, an answer classified as a
    success.  In every other case the resource data are as before. *)
Theorem resourceMetricsAutoscalerCreate_identifier
    (order : list (string * metrics.threshold)) (m : config.Config Remote)
    (s : State Remote) :
  let run := metrics.resourceMetricsAutoscalerCreate order m s in
  let d := data s in
  let instanceID := schema.GetString d "metrics_instance_id" in
  (fst run = Ok []
   /\ exists client thresholds app' s1 resp err r,
        let app := {| console.Name := schema.GetString d "app_name";
                      console.Enabled := schema.GetBool d "enabled";
                      console.MinInstances := schema.GetInt d "min_instances";
                      console.MaxInstances := schema.GetInt d "max_instances";
                      console.Thresholds := thresholds |} in
        config.ConsoleClient m = inl client
        /\ metrics.rangeThresholds d order [] s = (Ok thresholds, s)
        /\ metrics.updateWithRetry client instanceID app s = (Ok (Some app', None), s1)
        /\ console.Metrics_UpdateApplicationAutoscaler client instanceID app r
           = ((Some app', resp, err), remote s1)
        /\ metrics.checkForIntermittentErrors resp err = None
        /\ snd run = {| data := schema.SetId (instanceID +:+ console.Name app') d;
                        remote := remote s1; calls := calls s1 |})
  \/ (fst run <> Ok [] /\ data (snd run) = d).
Proof.
  intros run d instanceID.
  assert (Hrun : run = metrics.resourceMetricsAutoscalerCreate order m s) by reflexivity.
  clearbody run. revert Hrun. unfold metrics.resourceMetricsAutoscalerCreate.
  destruct (config.ConsoleClient m) as [client|cerr] eqn:Hclient;
    [|intros ->; right; split; [not_ok | reflexivity]].
  unfold bind at 1, getData. unfold bind at 1. fold d.
  pose proof (rangeThresholds_state d order [] s) as Hs.
  destruct (metrics.rangeThresholds d order [] s) as [[thresholds| |] s0] eqn:Hthresholds;
    simpl in Hs; subst s0; [|intros ->; right; split; [not_ok | reflexivity]..].
  unfold bind at 1. fold instanceID.
  set (app := {| console.Name := schema.GetString d "app_name";
                 console.Enabled := schema.GetBool d "enabled";
                 console.MinInstances := schema.GetInt d "min_instances";
                 console.MaxInstances := schema.GetInt d "max_instances";
                 console.Thresholds := thresholds |}).
  destruct (updateWithRetry_state client instanceID app s)
    as (created & err & s' & k & Hretry & _ & Hdata & _).
  rewrite Hretry.
  destruct err as [e|]; [intros ->; right; split; [not_ok | exact Hdata]|].
  destruct created as [app'|]; [|intros ->; right; split; [not_ok | exact Hdata]].
  destruct (updateWithRetry_last client instanceID app s s' (Some app') None Hretry)
    as (r & resp & cerr & Hcall & Hsuccess).
  intros ->. left. split; [reflexivity|].
  exists client, thresholds, app', s', resp, cerr, r. cbv zeta. fold app.
  split; [reflexivity|]. split; [reflexivity|]. split; [exact Hretry|].
  split; [exact Hcall|]. split; [exact (Hsuccess eq_refl)|].
  unfold bind, updateData, ret. simpl. now rewrite Hdata.
Qed.

(** The delete callback only ever sends the application by its name, with
    [Enabled] false, no instances and no thresholds; it clears the
    identifier exactly when it returns without diagnostics, and leaves the
    resource data as they are otherwise. *)
Theorem resourceMetricsAutoscalerDelete_disables (m : config.Config Remote)
    (s : State Remote) :
  let run := autoscaler.resourceMetricsAutoscalerDelete m s in
  let sent := ConsoleUpdateApplicationAutoscaler
                (schema.GetString (data s) "metrics_instance_id")
                (autoscaler.disabledApplication (data s)) in
  (exists k, (k <= 31)%nat /\ calls (snd run) = calls s ++ repeat sent k)
  /\ ((fst run = Ok [] /\ data (snd run) = schema.SetId "" (data s))
      \/ (fst run <> Ok [] /\ data (snd run) = data s)).
Proof.
  intros run sent.
  assert (Hrun : run = autoscaler.resourceMetricsAutoscalerDelete m s) by reflexivity.
  clearbody run. revert Hrun. unfold autoscaler.resourceMetricsAutoscalerDelete.
  destruct (config.ConsoleClient m) as [client|err].
  - unfold bind at 1, getData. unfold bind at 1.
    destruct (updateWithRetry_state client (schema.GetString (data s) "metrics_instance_id")
                (autoscaler.disabledApplication (data s)) s)
      as (result & err & s' & k & -> & Hk & Hdata & Hcalls).
    assert (Hlog : exists k0, (k0 <= 31)%nat /\ calls s' = calls s ++ repeat sent k0)
      by (exists k; split; [lia | exact Hcalls]).
    destruct err as [e|];
      [intros ->; split; [exact Hlog | right; split; [not_ok | exact Hdata]]|].
    destruct result as [app'|];
      [|intros ->; split; [exact Hlog | right; split; [not_ok | exact Hdata]]].
    intros ->. split; [exact Hlog|]. left. split; [reflexivity|]. simpl. now rewrite Hdata.
  - intros ->. split; [exists O; simpl; rewrite app_nil_r; split; [lia | reflexivity]|].
    right. split; [not_ok | reflexivity].
Qed.

End AutoscalerMore.

(** ** What the read callback stores, the create callback sends *)

Section AutoscalerRoundTrip.
Context {Remote : Type} `{!External Remote}.

Lemma lookupMapping_known (name : string) (mapping : metrics.threshold) :
  autoscaler.lookupMapping metrics.thresholdMapping name = Some mapping ->
  In (name, mapping) metrics.thresholdMapping.
Proof.
  unfold metrics.thresholdMapping. cbn [autoscaler.lookupMapping In].
  repeat (destruct (String.eqb _ name) eqn:Heq;
          [apply String.eqb_eq in Heq; subst name; intros [= <-]; tauto | clear Heq]).
  discriminate.
Qed.

Lemma lookupMapping_In (key : string) (mapping : metrics.threshold) :
  In (key, mapping) metrics.thresholdMapping ->
  autoscaler.lookupMapping metrics.thresholdMapping key = Some mapping.
Proof.
  unfold metrics.thresholdMapping. simpl.
  intros [H | [H | [H | [H | []]]]]; injection H as <- <-; reflexivity.
Qed.

Lemma fieldOf_injective (n1 n2 : string) (m1 m2 : metrics.threshold) :
  autoscaler.lookupMapping metrics.thresholdMapping n1 = Some m1 ->
  autoscaler.lookupMapping metrics.thresholdMapping n2 = Some m2 ->
  metrics.fieldName m1 = metrics.fieldName m2 -> n1 = n2.
Proof.
  intros H1 H2. apply lookupMapping_known in H1, H2.
  unfold metrics.thresholdMapping in H1, H2. simpl in H1, H2.
  destruct H1 as [H1 | [H1 | [H1 | [H1 | []]]]]; injection H1 as <- <-;
    destruct H2 as [H2 | [H2 | [H2 | [H2 | []]]]]; injection H2 as <- <-;
    simpl; intros Hf; try reflexivity; discriminate Hf.
Qed.

Lemma fieldOf_not_scalar (name : string) (mapping : metrics.threshold) :
  autoscaler.lookupMapping metrics.thresholdMapping name = Some mapping ->
  metrics.fieldName mapping <> "min_instances"
  /\ metrics.fieldName mapping <> "max_instances"
  /\ metrics.fieldName mapping <> "enabled".
Proof.
  intros H. apply lookupMapping_known in H.
  unfold metrics.thresholdMapping in H. simpl in H.
  destruct H as [H | [H | [H | [H | []]]]]; injection H as <- <-; simpl;
    repeat split; discriminate.
Qed.

(** The loop of the read callback over thresholds with known names: it
    returns no diagnostics, writes the attribute of each threshold and
    nothing else. *)
Lemma rangeAppThresholds_known {C} (ths : list console.Threshold) :
  forall (w : World schema.ResourceData Remote C),
    (forall th, In th ths ->
       exists mapping,
         autoscaler.lookupMapping metrics.thresholdMapping (console.Threshold_Name th)
         = Some mapping) ->
    exists d',
      autoscaler.rangeAppThresholds ths w
      = (Ok [], {| wdata := d'; wremote := wremote w; wcalls := wcalls w |})
      /\ schema.Id d' = schema.Id (wdata w)
      /\ (forall key,
            (forall th, In th ths -> fieldOf (console.Threshold_Name th) <> key) ->
            schema.attrs d' !! key = schema.attrs (wdata w) !! key)
      /\ (NoDup (map console.Threshold_Name ths) ->
          forall th, In th ths ->
            schema.attrs d' !! fieldOf (console.Threshold_Name th)
            = Some (schema.VSet [autoscaler.fields th])).
Proof.
  induction ths as [|th ths IH]; intros w Hknown.
  - exists (wdata w). destruct w. simpl.
    split; [reflexivity|]. split; [reflexivity|].
    split; [intros; reflexivity | intros _ th []].
  - destruct (Hknown th (or_introl eq_refl)) as [mapping Hmap].
    cbn [autoscaler.rangeAppThresholds]. rewrite Hmap.
    unfold bind at 1, updateWData.
    set (w1 := {| wdata := schema.Set_ (metrics.fieldName mapping)
                             (schema.VSet [autoscaler.fields th]) (wdata w);
                  wremote := wremote w; wcalls := wcalls w |}).
    destruct (IH w1 (fun th' Hin => Hknown th' (or_intror Hin)))
      as (d' & Hrun & Hid & Hkeep & Hstored).
    assert (Hfield : fieldOf (console.Threshold_Name th) = metrics.fieldName mapping)
      by (unfold fieldOf; now rewrite Hmap).
    exists d'. split; [exact Hrun|]. split; [exact Hid|]. split.
    + intros key Hkey. rewrite (Hkeep key (fun th' Hin => Hkey th' (or_intror Hin))).
      unfold w1. simpl. apply lookup_insert_ne.
      rewrite <- Hfield. apply (Hkey th). now left.
    + intros Hnodup th0 [<- | Hin].
      * inversion Hnodup as [|? ? Hnotin Hnodup']; subst.
        rewrite Hkeep.
        -- unfold w1. simpl. rewrite Hfield. apply lookup_insert_eq.
        -- intros th' Hin' Heq. apply Hnotin.
           destruct (Hknown th' (or_intror Hin')) as [mapping' Hmap'].
           assert (console.Threshold_Name th' = console.Threshold_Name th) as <-.
           { apply (fieldOf_injective _ _ mapping' mapping Hmap' Hmap).
             revert Heq. unfold fieldOf. now rewrite Hmap, Hmap'. }
           now apply list_elem_of_In, in_map.
      * inversion Hnodup as [|? ? Hnotin Hnodup']; subst. now apply Hstored.
Qed.

Lemma appendThresholds_fields {St} (key : string) (th : console.Threshold)
    (acc : list console.Threshold) (s : St) :
  console.Threshold_Name th = key ->
  metrics.appendThresholds key [autoscaler.fields th] acc s = (Ok (acc ++ [th]), s).
Proof.
  intros <-. destruct th. reflexivity.
Qed.

Lemma find_named (ths : list console.Threshold) (th : console.Threshold) :
  NoDup (map console.Threshold_Name ths) -> In th ths ->
  thresholdNamed ths (console.Threshold_Name th) = th.
Proof.
  unfold thresholdNamed.
  induction ths as [|th0 ths IH]; intros Hnodup Hin; [destruct Hin|].
  inversion Hnodup as [|? ? Hnotin Hnodup']; subst. simpl.
  destruct (String.eqb _ _) eqn:Heq.
  - apply String.eqb_eq in Heq. destruct Hin as [-> | Hin]; [reflexivity|].
    exfalso. apply Hnotin. rewrite Heq. now apply list_elem_of_In, in_map.
  - destruct Hin as [-> | Hin]; [now rewrite String.eqb_refl in Heq | now apply IH].
Qed.

Lemma rangeThresholds_stored {St} (d : schema.ResourceData) (ths : list console.Threshold)
    (order : list (string * metrics.threshold)) :
  (forall th, In th ths ->
     schema.attrs d !! fieldOf (console.Threshold_Name th)
     = Some (schema.VSet [autoscaler.fields th])) ->
  NoDup (map console.Threshold_Name ths) ->
  (forall key mapping, In (key, mapping) order ->
     In (key, mapping) metrics.thresholdMapping /\ In key (map console.Threshold_Name ths)) ->
  forall (acc : list console.Threshold) (s : St),
    metrics.rangeThresholds d order acc s
    = (Ok (acc ++ map (thresholdNamed ths) (map fst order)), s).
Proof.
  intros Hstored Hnodup. induction order as [|[key mapping] order IH]; intros Horder acc s.
  - simpl. now rewrite app_nil_r.
  - destruct (Horder key mapping (or_introl eq_refl)) as [Hmap Hname].
    apply in_map_iff in Hname. destruct Hname as (th & Hkey & Hin).
    cbn [metrics.rangeThresholds]. unfold schema.GetOkSet.
    assert (Hfield : metrics.fieldName mapping = fieldOf (console.Threshold_Name th)).
    { unfold fieldOf. now rewrite Hkey, (lookupMapping_In key mapping Hmap). }
    rewrite Hfield, (Hstored th Hin). unfold bind.
    rewrite (appendThresholds_fields key th acc s Hkey).
    rewrite IH by (intros k m' Hk; apply Horder; now right).
    simpl. rewrite <- Hkey, (find_named ths th Hnodup Hin), <- app_assoc. reflexivity.
Qed.

End AutoscalerRoundTrip.

Section AutoscalerRead.
Context {Remote : Type} `{!External Remote}.

Lemma thresholdMapping_keys_NoDup : NoDup (map fst metrics.thresholdMapping).
Proof.
  unfold metrics.thresholdMapping. simpl.
  repeat (apply NoDup_cons_2; [rewrite list_elem_of_In; simpl; intuition discriminate|]).
  apply NoDup_nil_2.
Qed.

Lemma key_known (name : string) :
  In name (map fst metrics.thresholdMapping) ->
  exists mapping,
    autoscaler.lookupMapping metrics.thresholdMapping name = Some mapping.
Proof.
  intros Hin. apply in_map_iff in Hin. destruct Hin as ([key mapping] & <- & Hin).
  exists mapping. now apply lookupMapping_In.
Qed.

(** Read, then create: when the fetch of the read callback succeeds with an
    application that carries the four thresholds of [thresholdMapping], the
    read returns no diagnostics and stores the application so that the
    create callback reads it back: the same instance bounds, the same
    enabled flag and, in whatever order the map is visited, the same
    thresholds up to their order. *)
Theorem resourceMetricsAutoscalerRead_round_trip
    (m : config.Config Remote) (consoleClient : console.Client Remote)
    (client : autoscaler.Reader Remote)
    (w w1 : World schema.ResourceData Remote autoscaler.ReadCall)
    (a : console.Application) (order : list (string * metrics.threshold)) :
  config.ConsoleClient m = inl consoleClient ->
  autoscaler.getWitRetry client (schema.GetString (wdata w) "metrics_instance_id")
    (schema.GetString (wdata w) "app_name") w
  = (Ok (Some a, None), w1) ->
  Permutation (map console.Threshold_Name (console.Thresholds a))
    (map fst metrics.thresholdMapping) ->
  Permutation order metrics.thresholdMapping ->
  exists d',
    autoscaler.resourceMetricsAutoscalerRead m client w
    = (Ok [], {| wdata := d'; wremote := wremote w1; wcalls := wcalls w1 |})
    /\ schema.Id d' = schema.Id (wdata w1)
    /\ schema.GetInt d' "min_instances" = console.MinInstances a
    /\ schema.GetInt d' "max_instances" = console.MaxInstances a
    /\ schema.GetBool d' "enabled" = console.Enabled a
    /\ exists sent,
         (forall (s : State Remote),
            metrics.rangeThresholds d' order [] s = (Ok sent, s))
         /\ Permutation sent (console.Thresholds a).
Proof.
  intros Hclient Hfetch Hnames Horder.
  set (ths := console.Thresholds a) in *.
  assert (Hnodup : NoDup (map console.Threshold_Name ths))
    by (rewrite Hnames; apply thresholdMapping_keys_NoDup).
  assert (Hknown : forall th, In th ths ->
            exists mapping,
              autoscaler.lookupMapping metrics.thresholdMapping (console.Threshold_Name th)
              = Some mapping).
  { intros th Hin. apply key_known. apply (Permutation_in _ Hnames). now apply in_map. }
  set (w2 := {| wdata := schema.Set_ "enabled" (schema.VBool (console.Enabled a))
                   (schema.Set_ "max_instances" (schema.VInt (console.MaxInstances a))
                      (schema.Set_ "min_instances" (schema.VInt (console.MinInstances a))
                         (wdata w1)));
                wremote := wremote w1; wcalls := wcalls w1 |}).
  destruct (rangeAppThresholds_known ths w2 Hknown) as (d' & Hrun & Hid & Hkeep & Hstored).
  assert (Hscalar : forall key,
            key = "min_instances" \/ key = "max_instances" \/ key = "enabled" ->
            schema.attrs d' !! key = schema.attrs (wdata w2) !! key).
  { intros key Hkey. apply Hkeep. intros th Hin Heq.
    destruct (Hknown th Hin) as [mapping Hmap].
    destruct (fieldOf_not_scalar _ _ Hmap) as (Hmin & Hmax & Hen).
    unfold fieldOf in Heq. rewrite Hmap in Heq. intuition congruence. }
  exists d'. split; [|split; [exact Hid|]].
  - unfold autoscaler.resourceMetricsAutoscalerRead. rewrite Hclient.
    unfold bind at 1, getWData. unfold bind at 1. rewrite Hfetch.
    unfold bind, updateWData. simpl. exact Hrun.
  - split; [|split; [|split]].
    + unfold schema.GetInt. rewrite Hscalar by tauto. unfold w2. simpl.
      rewrite lookup_insert_ne by discriminate.
      rewrite lookup_insert_ne by discriminate.
      now rewrite lookup_insert_eq.
    + unfold schema.GetInt. rewrite Hscalar by tauto. unfold w2. simpl.
      rewrite lookup_insert_ne by discriminate.
      now rewrite lookup_insert_eq.
    + unfold schema.GetBool. rewrite Hscalar by tauto. unfold w2. simpl.
      now rewrite lookup_insert_eq.
    + exists (map (thresholdNamed ths) (map fst order)). split.
      * intros s.
        apply (rangeThresholds_stored d' ths order (Hstored Hnodup) Hnodup).
        intros key mapping Hin. split.
        -- now apply (Permutation_in _ Horder).
        -- apply (Permutation_in _ (Permutation_sym Hnames)).
           apply (Permutation_in _ (Permutation_map fst Horder)).
           now apply (in_map fst _ (key, mapping)).
      * rewrite (Permutation_map fst Horder), <- Hnames, map_map.
        rewrite (map_ext_in _ id); [now rewrite map_id|].
        intros th Hin. now apply find_named.
Qed.

Lemma rangeAppThresholds_unknown {C} (ths : list console.Threshold) :
  forall (w : World schema.ResourceData Remote C),
    (exists th, In th ths
       /\ autoscaler.lookupMapping metrics.thresholdMapping (console.Threshold_Name th)
          = None) ->
    exists diags w',
      autoscaler.rangeAppThresholds ths w = (Ok diags, w')
      /\ diag.HasError diags = true
      /\ wcalls w' = wcalls w.
Proof.
  induction ths as [|th ths IH]; intros w (bad & Hin & Hbad); [destruct Hin|].
  cbn [autoscaler.rangeAppThresholds].
  destruct (autoscaler.lookupMapping _ (console.Threshold_Name th)) as [mapping|] eqn:Hmap.
  - destruct Hin as [-> | Hin]; [congruence|].
    unfold bind at 1, updateWData.
    destruct (IH {| wdata := schema.Set_ (metrics.fieldName mapping)
                               (schema.VSet [autoscaler.fields th]) (wdata w);
                    wremote := wremote w; wcalls := wcalls w |})
      as (diags & w' & Hrun & Herr & Hcalls); [now exists bad|].
    now exists diags, w'.
  - eexists _, w. repeat split.
Qed.

(** A threshold whose name is not in [thresholdMapping] makes the read
    callback end with an error diagnostic. *)
Theorem resourceMetricsAutoscalerRead_unknown_threshold
    (m : config.Config Remote) (consoleClient : console.Client Remote)
    (client : autoscaler.Reader Remote)
    (w w1 : World schema.ResourceData Remote autoscaler.ReadCall)
    (a : console.Application) (th : console.Threshold) :
  config.ConsoleClient m = inl consoleClient ->
  autoscaler.getWitRetry client (schema.GetString (wdata w) "metrics_instance_id")
    (schema.GetString (wdata w) "app_name") w
  = (Ok (Some a, None), w1) ->
  In th (console.Thresholds a) ->
  ~ In (console.Threshold_Name th) (map fst metrics.thresholdMapping) ->
  exists diags w',
    autoscaler.resourceMetricsAutoscalerRead m client w = (Ok diags, w')
    /\ diag.HasError diags = true
    /\ wcalls w' = wcalls w1.
Proof.
  intros Hclient Hfetch Hin Hunknown.
  unfold autoscaler.resourceMetricsAutoscalerRead. rewrite Hclient.
  unfold bind at 1, getWData. unfold bind at 1. rewrite Hfetch.
  unfold bind at 1 2 3, updateWData. cbv beta iota zeta.
  match goal with
  | |- context [autoscaler.rangeAppThresholds ?l ?w0] =>
      destruct (rangeAppThresholds_unknown l w0) as (diags & w' & Hrun & Herr & Hcalls)
  end.
  - exists th. split; [exact Hin|].
    destruct (autoscaler.lookupMapping _ _) as [mapping|] eqn:Hmap; [|reflexivity].
    exfalso. apply Hunknown. apply lookupMapping_known in Hmap.
    now apply (in_map fst _ (_, mapping)).
  - exists diags, w'. now rewrite Hrun.
Qed.

End AutoscalerRead.

(** ** The delete of the STU3 organization on every answer *)

Section DeleteMore.
Context {Remote : Type} `{!External Remote}.

(** A soft delete makes exactly one call.  It either returns no diagnostics
    and clears the identifier, or returns an error and leaves the resource
    data as they are. *)
Theorem stu3Delete_soft_outcomes (rounds : nat) (client : cdr.Client Remote)
    (s : State Remote) :
  schema.GetBool (data s) "purge_delete" = false ->
  let run := org.stu3Delete rounds client s in
  calls (snd run)
  = calls s ++ [CDRDelete (path_Join ["Organization"; schema.Id (data s)])]
  /\ ((fst run = Ok [] /\ data (snd run) = schema.SetId "" (data s))
      \/ (exists diags, fst run = Ok diags /\ diag.HasError diags = true
                        /\ data (snd run) = data s)).
Proof.
  intros Hsoft run.
  assert (Hrun : run = org.stu3Delete rounds client s) by reflexivity.
  clearbody run. revert Hrun. unfold org.stu3Delete.
  unfold bind at 1, getData. rewrite Hsoft. change (negb false) with true. cbv iota.
  unfold bind at 1, invoke.
  destruct (cdr.OperationsSTU3_Delete client _ (remote s)) as [[[deleted resp] err] rem'].
  destruct (org.hasStatus resp StatusNotFound);
    [intros ->; split; [reflexivity | left; split; reflexivity]|].
  destruct err as [e|];
    [intros ->; split; [reflexivity | right; eexists; repeat split]|].
  destruct deleted; simpl negb; cbv iota;
    [intros ->; split; [reflexivity | left; split; reflexivity]|].
  destruct resp as [rsp|]; intros ->; (split; [reflexivity | right; eexists; repeat split]).
Qed.

(** A purge that is not accepted makes the purge request and no status
    check.  A response with status 404 clears the identifier without
    diagnostics; every other answer is an error that leaves the resource
    data as they are. *)
Theorem stu3Delete_purge_not_accepted (rounds : nat) (client : cdr.Client Remote)
    (s : State Remote) (contained : option cdr.ContainedResource)
    (resp : option cdr.Response) (err : option error) (rem' : Remote) :
  let id := schema.Id (data s) in
  let opaque := "/store/fhir/" +:+ id +:+ "/$purge" in
  schema.GetBool (data s) "purge_delete" = true ->
  cdr.OperationsSTU3_Post client (path_Join ["$purge"]) [] opaque (remote s)
  = ((contained, resp, err), rem') ->
  err <> None \/ org.hasStatus resp StatusAccepted = false ->
  let run := org.stu3Delete rounds client s in
  calls (snd run) = calls s ++ [CDRPost (path_Join ["$purge"]) [] opaque]
  /\ remote (snd run) = rem'
  /\ (org.hasStatus resp StatusNotFound = true ->
      fst run = Ok [] /\ data (snd run) = schema.SetId "" (data s))
  /\ (org.hasStatus resp StatusNotFound = false ->
      exists diags, fst run = Ok diags /\ diag.HasError diags = true
                    /\ data (snd run) = data s).
Proof.
  intros id opaque Hpurge Hpost Hrejected run.
  assert (Hrun : run = org.stu3Delete rounds client s) by reflexivity.
  clearbody run. revert Hrun. unfold org.stu3Delete.
  unfold bind at 1, getData. rewrite Hpurge. change (negb true) with false. cbv iota.
  unfold bind at 1, invoke. fold id opaque. rewrite Hpost.
  destruct (org.hasStatus resp StatusNotFound) eqn:H404;
    [intros ->; repeat split; discriminate|].
  destruct err as [e|];
    [intros ->; split; [reflexivity|]; split; [reflexivity|];
     split; [discriminate | intros _; eexists; repeat split]|].
  destruct Hrejected as [Herr | H202]; [congruence|].
  destruct resp as [rsp|];
    [|intros ->; split; [reflexivity|]; split; [reflexivity|];
      split; [discriminate | intros _; eexists; repeat split]].
  simpl in H202. rewrite H202. simpl negb. cbv iota.
  intros ->. split; [reflexivity|]. split; [reflexivity|].
  split; [discriminate | intros _; eexists; repeat split].
Qed.

(** A refresh that never makes a call nor finds a resource makes the
    waiter end with an error, whatever the number of rounds. *)
Lemma refreshLoop_never_found {St R} (conf : resource.StateChangeConf St R)
    (label : string) :
  resource.Refresh conf = ret (None, label, None) ->
  resource.Target conf <> [] ->
  forall (rounds tick : nat) (last : string) (t : St),
    exists e, resource.refreshLoop rounds conf tick last t = (Ok (None, Some e), t).
Proof.
  intros Href Htarget. induction rounds as [|rounds IH]; intros tick last t.
  - eexists. reflexivity.
  - cbn [resource.refreshLoop]. rewrite Href. unfold bind at 1, ret at 1.
    destruct (resource.Target conf) as [|target targets] eqn:Ht; [congruence|].
    destruct (20 <? S tick)%nat; [eexists; reflexivity|].
    specialize (IH (S tick) label t). cbn [resource.refreshLoop] in IH.
    exact IH.
Qed.

(** When the Location of an accepted purge does not parse as a URL, the
    delete makes no status check at all and ends with an error, the
    identifier being kept. *)
Theorem stu3Delete_purge_unparsable_location (rounds : nat) (client : cdr.Client Remote)
    (s : State Remote) (contained : option cdr.ContainedResource) (rsp : cdr.Response)
    (rem' : Remote) (parseError : error) :
  let id := schema.Id (data s) in
  let opaque := "/store/fhir/" +:+ id +:+ "/$purge" in
  schema.GetBool (data s) "purge_delete" = true ->
  cdr.OperationsSTU3_Post client (path_Join ["$purge"]) [] opaque (remote s)
  = ((contained, Some rsp, None), rem') ->
  cdr.StatusCode rsp = 202 ->
  url_Parse (cdr.Header_Get (cdr.Header rsp) "Location") = inr parseError ->
  exists diags,
    org.stu3Delete rounds client s
    = (Ok diags,
       {| data := data s; remote := rem';
          calls := calls s ++ [CDRPost (path_Join ["$purge"]) [] opaque] |})
    /\ diag.HasError diags = true.
Proof.
  intros id opaque Hpurge Hpost Hcode Hparse.
  unfold org.stu3Delete.
  unfold bind at 1, getData. rewrite Hpurge. change (negb true) with false. cbv iota.
  unfold bind at 1, invoke. fold id opaque. rewrite Hpost.
  unfold org.hasStatus. rewrite Hcode.
  change (202 =? StatusNotFound) with false. change (negb (202 =? StatusAccepted)) with false.
  cbv iota. unfold bind at 1, resource.WaitForStateContext.
  match goal with
  | |- context [resource.refreshLoop rounds ?conf O "" ?w0] =>
      assert (Hwait : exists e,
                resource.refreshLoop rounds conf O "" w0 = (Ok (None, Some e), w0));
      [apply (refreshLoop_never_found conf "FAILED") | destruct Hwait as [e ->]]
  end.
  - unfold org.purgeStateConf, org.stu3PurgeStateRefreshFunc. simpl resource.Refresh.
    now rewrite Hparse.
  - discriminate.
  - eexists. split; reflexivity.
Qed.

End DeleteMore.

(** ** The purge poll from the first check to the last *)

Section PurgePoll.
Context {Remote : Type} `{!External Remote}.

Lemma purge_refresh_ok (client : cdr.Client Remote) (d : schema.ResourceData)
    (rsp : cdr.Response) (url : cdr.URL) (t : State Remote)
    (contained : option cdr.ContainedResource) (rsp' : cdr.Response) (rem' : Remote) :
  url_Parse (cdr.Header_Get (cdr.Header rsp) "Location") = inl url ->
  cdr.OperationsSTU3_Get client (schema.Id d) url (remote t)
  = ((contained, Some rsp', None), rem') ->
  let t' := {| data := data t; remote := rem';
               calls := calls t ++ [CDRGet (schema.Id d) url] |} in
  (cdr.StatusCode rsp' = 202 ->
   resource.Refresh (org.purgeStateConf client d rsp) t
   = (Ok (Some (Some rsp'), "PURGING", None), t'))
  /\ (forall params v,
        cdr.StatusCode rsp' <> 202 ->
        cdr.GetParameters contained = Some params ->
        org.statusParameter params = Ok (Some v) ->
        resource.Refresh (org.purgeStateConf client d rsp) t
        = (Ok (Some (Some rsp'), v, None), t')).
Proof.
  intros Hparse Hget t'.
  unfold org.purgeStateConf. simpl resource.Refresh.
  unfold org.stu3PurgeStateRefreshFunc. rewrite Hparse. unfold bind, invoke, liftRes.
  rewrite Hget. cbv beta iota zeta. unfold StatusAccepted. split.
  - intros ->. reflexivity.
  - intros params v Hother Hparams Hstatus.
    apply Z.eqb_neq in Hother. now rewrite Hother, Hparams, Hstatus.
Qed.

(** [k] checks in a row that answer 202 use up [k] rounds of the waiter
    and log [k] status checks. *)
Lemma refreshLoop_still_purging (client : cdr.Client Remote) (d : schema.ResourceData)
    (rsp : cdr.Response) (url : cdr.URL) (k : nat) :
  url_Parse (cdr.Header_Get (cdr.Header rsp) "Location") = inl url ->
  forall (n tick : nat) (last : string) (t : State Remote) (r' : Remote),
    stillPurging client (schema.Id d) url k (remote t) r' ->
    exists tick' last',
      resource.refreshLoop (k + n) (org.purgeStateConf client d rsp) tick last t
      = resource.refreshLoop n (org.purgeStateConf client d rsp) tick' last'
          {| data := data t; remote := r';
             calls := calls t ++ repeat (CDRGet (schema.Id d) url) k |}.
Proof.
  intros Hparse. induction k as [|k IH]; intros n tick last t r' Hk.
  - simpl in Hk. subst r'. exists tick, last. simpl. rewrite app_nil_r. now destruct t.
  - destruct Hk as (contained & rsp' & rmid & Hget & Hcode & Hk).
    destruct (purge_refresh_ok client d rsp url t contained rsp' rmid Hparse Hget)
      as [Href _].
    specialize (Href Hcode).
    change (S k + n)%nat with (S (k + n)).
    rewrite (refreshLoop_pending _ (k + n) tick last t _ (Some rsp') "PURGING" Href)
      by reflexivity.
    destruct (IH n O "PURGING"
                {| data := data t; remote := rmid;
                   calls := calls t ++ [CDRGet (schema.Id d) url] |} r' Hk)
      as (tick' & last' & ->).
    exists tick', last'. simpl. now rewrite <- app_assoc.
Qed.

(** A purge that the store reports as still running [k] times and then as
    "SUCCESS", with more than [k] rounds before the timeout, ends without
    diagnostics after exactly [k + 1] status checks of the location, and
    clears the identifier. *)
Theorem stu3Delete_purge_succeeds_after (rounds k : nat) (client : cdr.Client Remote)
    (s : State Remote) (contained contained' : option cdr.ContainedResource)
    (rsp rsp' : cdr.Response) (rem' rk rend : Remote) (url : cdr.URL)
    (params : list cdr.Parameters_Parameter) :
  let id := schema.Id (data s) in
  let opaque := "/store/fhir/" +:+ id +:+ "/$purge" in
  schema.GetBool (data s) "purge_delete" = true ->
  cdr.OperationsSTU3_Post client (path_Join ["$purge"]) [] opaque (remote s)
  = ((contained, Some rsp, None), rem') ->
  cdr.StatusCode rsp = 202 ->
  url_Parse (cdr.Header_Get (cdr.Header rsp) "Location") = inl url ->
  stillPurging client id url k rem' rk ->
  cdr.OperationsSTU3_Get client id url rk = ((contained', Some rsp', None), rend) ->
  cdr.StatusCode rsp' <> 202 ->
  cdr.GetParameters contained' = Some params ->
  org.statusParameter params = Ok (Some "SUCCESS") ->
  (k < rounds)%nat ->
  org.stu3Delete rounds client s
  = (Ok [],
     {| data := schema.SetId "" (data s); remote := rend;
        calls := calls s ++ [CDRPost (path_Join ["$purge"]) [] opaque]
                 ++ repeat (CDRGet id url) (S k) |}).
Proof.
  intros id opaque Hpurge Hpost Hcode Hparse Hk Hget Hdone Hparams Hstatus Hrounds.
  unfold org.stu3Delete.
  unfold bind at 1, getData. rewrite Hpurge. change (negb true) with false. cbv iota.
  unfold bind at 1, invoke. fold id opaque. rewrite Hpost.
  unfold org.hasStatus. rewrite Hcode.
  change (202 =? StatusNotFound) with false. change (negb (202 =? StatusAccepted)) with false.
  cbv iota. unfold bind at 1, resource.WaitForStateContext.
  set (s1 := {| data := data s; remote := rem';
                calls := calls s ++ [CDRPost (path_Join ["$purge"]) [] opaque] |}).
  replace rounds with (k + S (rounds - S k))%nat at 1 by lia.
  destruct (refreshLoop_still_purging client (data s) rsp url k Hparse
              (S (rounds - S k)) O "" s1 rk Hk) as (tick' & last' & ->).
  set (sk := {| data := data s1; remote := rk;
                calls := calls s1 ++ repeat (CDRGet (schema.Id (data s)) url) k |}).
  destruct (purge_refresh_ok client (data s) rsp url sk contained' rsp' rend Hparse Hget)
    as [_ Href].
  specialize (Href params "SUCCESS" Hdone Hparams Hstatus).
  rewrite (refreshLoop_target _ (rounds - S k) tick' last' sk _ (Some rsp') "SUCCESS" Href)
    by reflexivity.
  unfold bind, updateData, ret. simpl. f_equal. f_equal.
  fold id. rewrite <- !app_assoc. f_equal. simpl. f_equal.
  symmetry. apply repeat_cons.
Qed.

(** A purge that the store reports as still running at every check before
    the timeout ends with an error after as many status checks as there were
    rounds, and keeps the identifier. *)
Theorem stu3Delete_purge_times_out (rounds : nat) (client : cdr.Client Remote)
    (s : State Remote) (contained : option cdr.ContainedResource)
    (rsp : cdr.Response) (rem' rend : Remote) (url : cdr.URL) :
  let id := schema.Id (data s) in
  let opaque := "/store/fhir/" +:+ id +:+ "/$purge" in
  schema.GetBool (data s) "purge_delete" = true ->
  cdr.OperationsSTU3_Post client (path_Join ["$purge"]) [] opaque (remote s)
  = ((contained, Some rsp, None), rem') ->
  cdr.StatusCode rsp = 202 ->
  url_Parse (cdr.Header_Get (cdr.Header rsp) "Location") = inl url ->
  stillPurging client id url rounds rem' rend ->
  exists diags,
    org.stu3Delete rounds client s
    = (Ok diags,
       {| data := data s; remote := rend;
          calls := calls s ++ [CDRPost (path_Join ["$purge"]) [] opaque]
                   ++ repeat (CDRGet id url) rounds |})
    /\ diag.HasError diags = true.
Proof.
  intros id opaque Hpurge Hpost Hcode Hparse Hk.
  set (s1 := {| data := data s; remote := rem';
                calls := calls s ++ [CDRPost (path_Join ["$purge"]) [] opaque] |}).
  destruct (refreshLoop_still_purging client (data s) rsp url rounds Hparse
              O O "" s1 rend Hk) as (tick' & last' & Hloop).
  rewrite Nat.add_0_r in Hloop.
  eexists. split.
  - unfold org.stu3Delete.
    unfold bind at 1, getData. rewrite Hpurge. change (negb true) with false. cbv iota.
    unfold bind at 1, invoke. fold id opaque. rewrite Hpost.
    unfold org.hasStatus. rewrite Hcode.
    change (202 =? StatusNotFound) with false.
    change (negb (202 =? StatusAccepted)) with false.
    cbv iota. unfold bind at 1, resource.WaitForStateContext.
    fold s1. rewrite Hloop. cbn [resource.refreshLoop]. unfold ret. simpl.
    rewrite <- app_assoc. reflexivity.
  - reflexivity.
Qed.

End PurgePoll.

(** ** Update, read and create of the organizations on more answers *)

Section OrganizationMore.
Context {Remote : Type} `{!External Remote}.

(** The STU3 update never touches the resource data, starts with the read
    of the organization and makes at most one more call, a patch of
    ["Organization/" ++ id]. *)
Theorem stu3Update_at_most_one_patch (client : cdr.Client Remote)
    (m : config.Config Remote) (s : State Remote) :
  let s' := snd (org.stu3Update client m s) in
  let id := schema.Id (data s) in
  data s' = data s
  /\ exists added,
       calls s' = calls s ++ CDRGetOrganizationByID id :: added
       /\ (added = [] \/ exists patch, added = [CDRPatch ("Organization/" +:+ id) patch]).
Proof.
  cbv zeta. unfold org.stu3Update. run_monad.
  repeat (destruct_match; simpl);
    (split; [reflexivity|]);
    first [ exists []; split; [reflexivity | now left]
          | eexists [_]; split; [now rewrite <- app_assoc | right; eexists; reflexivity] ].
Qed.


(** A read changes the identifier in one case only: the fetch failed with a
    response of status 404, and then the identifier is cleared and no
    diagnostics are returned.  This holds for the STU3 organization and for
    the IAM organization. *)
Theorem reads_clear_identifier_only_on_404 :
  (forall (client : cdr.Client Remote) (s : State Remote),
     let run := org.stu3Read client s in
     schema.Id (data (snd run)) = schema.Id (data s)
     \/ (exists fetched resp e rem',
           cdr.TenantSTU3_GetOrganizationByID client
             (schema.GetString (data s) "org_id") (remote s)
           = ((fetched, resp, Some e), rem')
           /\ org.hasStatus resp StatusNotFound = true
           /\ run = (Ok [],
                     {| data := schema.SetId "" (data s); remote := rem';
                        calls := calls s ++ [CDRGetOrganizationByID
                                               (schema.GetString (data s) "org_id")] |})))
  /\ (forall (m : config.Config Remote) (s : State Remote),
        let run := iam_org.resourceIAMOrgRead m s in
        schema.Id (data (snd run)) = schema.Id (data s)
        \/ (exists client fetched resp e rem',
              config.IAMClient m = inl client
              /\ iam.Organizations_GetOrganizationByID client (schema.Id (data s)) (remote s)
                 = ((fetched, resp, Some e), rem')
              /\ iam_org.hasStatus resp StatusNotFound = true
              /\ run = (Ok [],
                        {| data := schema.SetId "" (data s); remote := rem';
                           calls := calls s ++ [IAMGetOrganizationByID
                                                  (schema.Id (data s))] |}))).
Proof.
  split.
  - intros client s run. subst run. unfold org.stu3Read. run_monad.
    destruct (cdr.TenantSTU3_GetOrganizationByID client _ (remote s))
      as [[[fetched resp] err] rem'] eqn:Hget. simpl.
    destruct err as [e|].
    + destruct (org.hasStatus resp StatusNotFound) eqn:H404; [|now left].
      right. now exists fetched, resp, e, rem'.
    + left. destruct fetched as [o|]; [|reflexivity]. simpl.
      destruct (cdr.PartOf o) as [[]|]; reflexivity.
  - intros m s run. subst run. unfold iam_org.resourceIAMOrgRead.
    destruct (config.IAMClient m) as [client|cerr] eqn:Hclient; [|now left].
    run_monad.
    destruct (iam.Organizations_GetOrganizationByID client _ (remote s))
      as [[[fetched resp] err] rem'] eqn:Hget. simpl.
    destruct err as [e|].
    + destruct (iam_org.hasStatus resp StatusNotFound) eqn:H404; [|now left].
      right. now exists client, fetched, resp, e, rem'.
    + left. destruct fetched as [o|]; reflexivity.
Qed.


(** When the read by [org_id] does not find the organization and the first
    onboarding attempt is classified as a success, create makes the read
    and one onboarding call, and stores the identifier of the onboarded
    organization.  The organization sent carries the [part_of] reference
    exactly when [part_of] is not empty. *)
Theorem stu3Create_onboards_missing
    (resourceCDROrgUpdate : M (State Remote) diag.Diagnostics)
    (c : config.Config Remote) (client : cdr.Client Remote) (s : State Remote)
    (org0 onboarded : cdr.Organization) (found : option cdr.Organization)
    (resp : option cdr.Response) (err oerr : option error) (oresp : cdr.Response)
    (rem1 rem2 rem3 : Remote) :
  let orgID := schema.GetString (data s) "org_id" in
  let partOf := schema.GetString (data s) "part_of" in
  let sent :=
    {| cdr.Id := cdr.Id org0; cdr.Name := cdr.Name org0;
       cdr.PartOf := if String.eqb partOf "" then cdr.PartOf org0
                     else Some (cdr.Reference_OrganizationId partOf) |} in
  stu3_NewOrganization (config.TimeZone c) orgID (schema.GetString (data s) "name")
  = inl org0 ->
  cdr.TenantSTU3_GetOrganizationByID client orgID (remote s) = ((found, resp, err), rem1) ->
  err <> None \/ found = None ->
  cdr.TenantSTU3_Onboard client sent rem1 = ((Some onboarded, Some oresp, oerr), rem2) ->
  tools_CheckForIAMPermissionErrors client (Some oresp) oerr rem2 = (None, rem3) ->
  org.stu3Create resourceCDROrgUpdate c client s
  = (Ok [],
     {| data := schema.SetId (cdr.Id onboarded) (data s); remote := rem3;
        calls := calls s ++ [CDRGetOrganizationByID orgID; CDROnboard sent] |}).
Proof.
  intros orgID partOf sent Hnew Hget Hmiss Honboard Hcheck.
  assert (Hsent : (if negb (String.eqb partOf "")
                   then org.setPartOf (Some (cdr.Reference_OrganizationId partOf)) org0
                   else org0) = sent).
  { unfold sent. destruct (String.eqb partOf ""); simpl; [now destruct org0 | reflexivity]. }
  unfold org.stu3Create. unfold bind at 1, getData. cbv beta iota zeta.
  fold orgID partOf. rewrite Hnew, Hsent. unfold bind at 1, invoke. rewrite Hget.
  set (s1 := {| data := data s; remote := rem1;
                calls := calls s ++ [CDRGetOrganizationByID orgID] |}).
  assert (Hretry :
    withLocal found
      (backoff.Retry 9 (org.onboardOperation client sent)
         (backoff.WithMaxRetries NewExponentialBackOff 8)) s1
    = (Ok (None, Some onboarded),
       {| data := data s; remote := rem3;
          calls := calls s1 ++ [CDROnboard sent] |})).
  { unfold withLocal, backoff.Retry. cbn [backoff.RetryLoop].
    unfold org.onboardOperation, bind, liftSt, invoke, onRemote, setLocal, ret. simpl.
    rewrite Honboard. simpl. rewrite Hcheck. reflexivity. }
  assert (Hend :
    (r <- withLocal found
            (backoff.Retry 9 (org.onboardOperation client sent)
               (backoff.WithMaxRetries NewExponentialBackOff 8)) ;;
     (let '(err0, onboardedOrg) := r in
      match err0 with
      | Some _ => ret (diag.FromErr err0)
      | None =>
          match onboardedOrg with
          | None => panic
          | Some onboarded0 =>
              updateData (schema.SetId (cdr.Id onboarded0)) ;;; ret []
          end
      end)) s1
    = (Ok [],
       {| data := schema.SetId (cdr.Id onboarded) (data s); remote := rem3;
          calls := calls s ++ [CDRGetOrganizationByID orgID; CDROnboard sent] |})).
  { unfold bind at 1. rewrite Hretry. unfold bind, updateData, ret. simpl.
    now rewrite <- app_assoc. }
  destruct Hmiss as [Herr | ->].
  - destruct err as [e|]; [exact Hend | congruence].
  - destruct err as [e|]; exact Hend.
Qed.

(** The refresh of the purge reports a missing status parameter exactly
    when no parameter of the answer is named "status". *)
Theorem statusParameter_missing_iff (params : list cdr.Parameters_Parameter) :
  org.statusParameter params = Ok None
  <-> Forall (fun p => cdr.Parameter_Name p <> "status") params.
Proof.
  induction params as [|p params IH]; simpl.
  - split; [constructor | reflexivity].
  - destruct (String.eqb (cdr.Parameter_Name p) "status") eqn:Hname.
    + apply String.eqb_eq in Hname. split.
      * destruct (cdr.Parameter_Value p); discriminate.
      * intros Hall. inversion Hall; subst. congruence.
    + apply String.eqb_neq in Hname. rewrite IH. split.
      * intros Hall. now constructor.
      * intros Hall. now inversion Hall.
Qed.

End OrganizationMore.

(** ** Update and delete of the IAM organization *)

Section IAMOrganizationMore.
Context {Remote : Type} `{!External Remote}.

(** A change of the parent organization (or of the deprecated root flag, or
    of the computed active flag) alone is never sent: the IAM update then
    makes the read only and reports what the read reports. *)
Theorem resourceIAMOrgUpdate_parent_change_not_sent (m : config.Config Remote)
    (client : iam.Client Remote) (s : State Remote) :
  config.IAMClient m = inl client ->
  schema.changed (data s) ⊆ {[ "parent_org_id"; "is_root_org"; "active" ]} ->
  let id := schema.Id (data s) in
  let fetched := iam.Organizations_GetOrganizationByID client id (remote s) in
  iam_org.resourceIAMOrgUpdate m s
  = (Ok (match snd (fst fetched) with
         | Some _ => diag.FromErr (snd (fst fetched))
         | None => []
         end),
     {| data := data s; remote := snd fetched;
        calls := calls s ++ [IAMGetOrganizationByID id] |}).
Proof.
  intros Hclient Hchanged id fetched.
  assert (Hsame : forall key,
            key ∉ ({[ "parent_org_id"; "is_root_org"; "active" ]} : gset string) ->
            schema.HasChange (data s) key = false).
  { intros key Hkey. unfold schema.HasChange. apply bool_decide_eq_false_2. set_solver. }
  unfold iam_org.resourceIAMOrgUpdate. rewrite Hclient. run_monad.
  fold id. fold fetched.
  destruct fetched as [[[o resp] err] rem']. simpl.
  destruct err as [e|]; [reflexivity|].
  rewrite !Hsame by (apply not_elem_of_union; split;
                     [apply not_elem_of_union; split|];
                     apply not_elem_of_singleton; discriminate).
  reflexivity.
Qed.

(** When the organization is read and one of description, name, type,
    external identifier or display name has changed, the IAM update sends
    exactly one update call.  The organization sent keeps the identifier,
    the active flag and the parent of the organization as read, and takes
    the five other fields from the resource data.  The diagnostics are those
    of the update call, and the resource data is untouched. *)
Theorem resourceIAMOrgUpdate_sends_declared_fields (m : config.Config Remote)
    (client : iam.Client Remote) (s : State Remote) (o : iam.Organization)
    (resp resp2 : option iam.Response) (updated : option iam.Organization)
    (err2 : option error) (rem1 rem2 : Remote) :
  let d := data s in
  let id := schema.Id d in
  let sent :=
    {| iam.ID := iam.ID o;
       iam.Name := schema.GetString d "name";
       iam.Description := schema.GetString d "description";
       iam.Type_ := schema.GetString d "type";
       iam.ExternalID := schema.GetString d "external_id";
       iam.DisplayName := schema.GetString d "display_name";
       iam.Active := iam.Active o;
       iam.Parent_Value := iam.Parent_Value o |} in
  config.IAMClient m = inl client ->
  iam.Organizations_GetOrganizationByID client id (remote s) = ((Some o, resp, None), rem1) ->
  (exists key, key ∈ ["description"; "name"; "type"; "external_id"; "display_name"]
               /\ schema.HasChange d key = true) ->
  iam.Organizations_UpdateOrganization client sent rem1 = ((updated, resp2, err2), rem2) ->
  iam_org.resourceIAMOrgUpdate m s
  = (Ok (diag.FromErr err2),
     {| data := d; remote := rem2;
        calls := calls s ++ [IAMGetOrganizationByID id; IAMUpdateOrganization sent] |}).
Proof.
  intros d id sent Hclient Hget (key & Hkey & Hchanged) Hupdate.
  assert (Hany : schema.HasChange d "description" || schema.HasChange d "name"
                 || schema.HasChange d "type" || schema.HasChange d "external_id"
                 || schema.HasChange d "display_name" = true).
  { repeat (apply elem_of_cons in Hkey; destruct Hkey as [-> | Hkey];
            [rewrite Hchanged; rewrite ?orb_true_r; reflexivity|]).
    now apply elem_of_nil in Hkey. }
  unfold iam_org.resourceIAMOrgUpdate. rewrite Hclient.
  unfold bind at 1, getData. unfold bind at 1, invoke. fold d id. rewrite Hget.
  cbv beta iota zeta. rewrite Hany. fold sent.
  unfold bind, invoke. cbn [remote data calls]. rewrite Hupdate. cbv beta iota zeta.
  destruct err2; unfold ret; simpl; rewrite <- app_assoc; reflexivity.
Qed.

(** The IAM delete never changes the resource data, not even the
    identifier.  It starts with the read and makes at most one more call,
    the deletion of the organization as read; and it returns no diagnostics
    only when both the read and the deletion came back without error and the
    deletion answered [true]. *)
Theorem resourceIAMOrgDelete_outcomes (m : config.Config Remote)
    (client : iam.Client Remote) (s : State Remote) :
  config.IAMClient m = inl client ->
  let run := iam_org.resourceIAMOrgDelete m s in
  let id := schema.Id (data s) in
  data (snd run) = data s
  /\ (exists added,
        calls (snd run) = calls s ++ IAMGetOrganizationByID id :: added
        /\ (added = []
            \/ exists o resp rem1,
                 iam.Organizations_GetOrganizationByID client id (remote s)
                 = ((Some o, resp, None), rem1)
                 /\ added = [IAMDeleteOrganization o]))
  /\ (fst run = Ok [] ->
      exists o resp rem1 resp2,
        iam.Organizations_GetOrganizationByID client id (remote s)
        = ((Some o, resp, None), rem1)
        /\ iam.Organizations_DeleteOrganization client o rem1
           = ((true, resp2, None), remote (snd run))).
Proof.
  intros Hclient run id. subst run.
  unfold iam_org.resourceIAMOrgDelete. rewrite Hclient. run_monad. fold id.
  destruct (iam.Organizations_GetOrganizationByID client id (remote s))
    as [[[fetched resp] err] rem1] eqn:Hget. simpl.
  destruct err as [e|]; simpl.
  { split; [reflexivity|]. split; [exists []; split; [reflexivity | now left]|].
    intros Hok. inversion Hok. }
  destruct fetched as [o|]; simpl.
  2:{ split; [reflexivity|]. split; [exists []; split; [reflexivity | now left]|].
      intros Hok. inversion Hok. }
  destruct (iam.Organizations_DeleteOrganization client o rem1)
    as [[[ok resp2] err2] rem2] eqn:Hdelete. simpl.
  assert (Hcalls : exists added,
    (calls s ++ [IAMGetOrganizationByID id]) ++ [IAMDeleteOrganization o]
    = calls s ++ IAMGetOrganizationByID id :: added
    /\ (added = []
        \/ exists o0 resp0 rem0,
             (Some o, resp, @None error, rem1) = (Some o0, resp0, None, rem0)
             /\ added = [IAMDeleteOrganization o0])).
  { exists [IAMDeleteOrganization o]. split; [now rewrite <- app_assoc|].
    right. now exists o, resp, rem1. }
  destruct err2 as [e2|]; simpl.
  { split; [reflexivity|]. split; [exact Hcalls|]. intros Hok. inversion Hok. }
  destruct ok; simpl.
  - split; [reflexivity|]. split; [exact Hcalls|].
    intros _. now exists o, resp, rem1, resp2.
  - split; [reflexivity|]. split; [exact Hcalls|]. intros Hok. inversion Hok.
Qed.

End IAMOrganizationMore.

(** ** The further properties at concrete inputs *)

(** An answer of 200 without error is classified as success. *)
Lemma checkForIntermittentErrors_keeps_errors_witness :
  metrics.checkForIntermittentErrors (External0 := Fixture.external)
    (Some Examples.ok200) None = None
  /\ (None : option error) = None.
Proof.
  split; [reflexivity|].
  apply (checkForIntermittentErrors_keeps_errors (External0 := Fixture.external)
           (Some Examples.ok200) None).
  reflexivity.
Defined.

(** A 404 makes the error of the call permanent. *)
Lemma checkForIntermittentErrors_client_error_witness :
  metrics.checkForIntermittentErrors (External0 := Fixture.external)
    (Some Examples.notFound) (Some (errorString "404 Not Found"))
  = Some (PermanentError (errorString "404 Not Found")).
Proof.
  apply (checkForIntermittentErrors_client_error (External0 := Fixture.external)
           Examples.notFound (errorString "404 Not Found")).
  - simpl. lia.
  - simpl. intros H. discriminate H.
Defined.

(** With fuel for 20 attempts and 8 retries allowed, an operation that
    always fails is run between 1 and 9 times. *)
Lemma Retry_attempts_bounded_witness :
  let n := fst (snd (backoff.Retry (H := Fixture.triesBackOff) 20
                       (counted Fixture.unavailableOperation)
                       (backoff.WithMaxRetries tt 8) (O, tt))) in
  (0 + 1 <= n <= 0 + N.to_nat 8 + 1)%nat.
Proof.
  apply (Retry_attempts_bounded (H := Fixture.constantBackOff)
           Fixture.unavailableOperation tt 8 20 O tt).
  lia.
Defined.

(** A console that answers 404: one call, and the error is returned. *)
Lemma updateWithRetry_settled_witness :
  metrics.updateWithRetry (External0 := Fixture.external) Examples.console404
    "instance" Fixture.app0 Fixture.state0
  = (Ok (None, Some (errorString "404 Not Found")),
     {| data := Fixture.data0; remote := 1%nat;
        calls := [ConsoleUpdateApplicationAutoscaler "instance" Fixture.app0] |}).
Proof.
  apply (updateWithRetry_settled (External0 := Fixture.external) Examples.console404
           "instance" Fixture.app0 Fixture.state0 None (Some Examples.notFound)
           (Some (errorString "404 Not Found")) 1%nat).
  - reflexivity.
  - intros e H. discriminate H.
Defined.

(** The four thresholds of the application come back, whatever the order
    in which the mapping is walked. *)
Lemma resourceMetricsAutoscalerRead_round_trip_witness :
  exists d',
    autoscaler.resourceMetricsAutoscalerRead (External0 := Fixture.external)
      Fixture.config0 (Examples.readerOf Examples.reported) Examples.world0
    = (Ok [], {| wdata := d'; wremote := 1%nat;
                 wcalls := [autoscaler.ConsoleGetApplicationAutoscaler "instance-1" "app"] |})
    /\ schema.GetInt d' "min_instances" = 2
    /\ schema.GetInt d' "max_instances" = 8
    /\ exists sent,
         metrics.rangeThresholds d' (rev metrics.thresholdMapping) [] Fixture.state0
         = (Ok sent, Fixture.state0)
         /\ Permutation sent (console.Thresholds Examples.reported).
Proof.
  destruct (resourceMetricsAutoscalerRead_round_trip (External0 := Fixture.external)
              Fixture.config0 Fixture.console503
              (Examples.readerOf Examples.reported) Examples.world0
              {| wdata := wdata Examples.world0; wremote := 1%nat;
                 wcalls := [autoscaler.ConsoleGetApplicationAutoscaler "instance-1" "app"] |}
              Examples.reported (rev metrics.thresholdMapping))
    as (d' & Hread & _ & Hmin & Hmax & _ & sent & Hsent & Hperm).
  - reflexivity.
  - reflexivity.
  - simpl. apply perm_swap.
  - apply Permutation_sym, Permutation_rev.
  - exists d'. split; [exact Hread|]. split; [exact Hmin|]. split; [exact Hmax|].
    exists sent. split; [apply Hsent | exact Hperm].
Defined.

(** A threshold named "disk" is refused by the read. *)
Lemma resourceMetricsAutoscalerRead_unknown_threshold_witness :
  exists diags w',
    autoscaler.resourceMetricsAutoscalerRead (External0 := Fixture.external)
      Fixture.config0 (Examples.readerOf Examples.reportedUnknown) Examples.world0
    = (Ok diags, w')
    /\ diag.HasError diags = true
    /\ wcalls w' = [autoscaler.ConsoleGetApplicationAutoscaler "instance-1" "app"].
Proof.
  apply (resourceMetricsAutoscalerRead_unknown_threshold (External0 := Fixture.external)
           Fixture.config0 Fixture.console503
           (Examples.readerOf Examples.reportedUnknown) Examples.world0
           {| wdata := wdata Examples.world0; wremote := 1%nat;
              wcalls := [autoscaler.ConsoleGetApplicationAutoscaler "instance-1" "app"] |}
           Examples.reportedUnknown (Examples.threshold "disk" 1 2)).
  - reflexivity.
  - reflexivity.
  - simpl. right. left. reflexivity.
  - simpl. intros H. repeat (destruct H as [H | H]; [discriminate H|]). exact H.
Defined.

(** A soft delete that is answered with 404 makes the one delete call and
    clears the identifier. *)
Lemma stu3Delete_soft_outcomes_witness :
  let run := org.stu3Delete (External0 := Fixture.external) 5 Fixture.cdrClient
               Fixture.state0 in
  calls (snd run) = [CDRDelete "Organization/org-1"]
  /\ fst run = Ok []
  /\ schema.Id (data (snd run)) = "".
Proof.
  intros run.
  destruct (stu3Delete_soft_outcomes (External0 := Fixture.external) 5 Fixture.cdrClient
              Fixture.state0 eq_refl) as [Hcalls _].
  split; [exact Hcalls|]. split; reflexivity.
Defined.

(** A purge that is refused with 403 is reported, and nothing is polled. *)
Lemma stu3Delete_purge_not_accepted_witness :
  let run := org.stu3Delete (External0 := Fixture.external) 5
               Examples.cdrClientPurgeRefused Fixture.purgeState0 in
  calls (snd run) = [CDRPost "$purge" [] "/store/fhir/org-1/$purge"]
  /\ exists diags, fst run = Ok diags /\ diag.HasError diags = true
                   /\ data (snd run) = data Fixture.purgeState0.
Proof.
  intros run.
  assert (Hrefused : Some (errorString "403 Forbidden") <> None
                     \/ org.hasStatus (Some (Fixture.response 403)) StatusAccepted = false)
    by (right; reflexivity).
  destruct (stu3Delete_purge_not_accepted (External0 := Fixture.external) 5
              Examples.cdrClientPurgeRefused Fixture.purgeState0 None
              (Some (Fixture.response 403)) (Some (errorString "403 Forbidden")) 1%nat
              eq_refl eq_refl Hrefused)
    as (Hcalls & _ & _ & Hreported).
  split; [exact Hcalls | exact (Hreported eq_refl)].
Defined.

(** An accepted purge whose location cannot be parsed. *)
Lemma stu3Delete_purge_unparsable_location_witness :
  exists diags,
    org.stu3Delete (External0 := Examples.externalNoURL) 5 Fixture.cdrClient
      Fixture.purgeState0
    = (Ok diags,
       {| data := data Fixture.purgeState0; remote := 1%nat;
          calls := [CDRPost "$purge" [] "/store/fhir/org-1/$purge"] |})
    /\ diag.HasError diags = true.
Proof.
  apply (stu3Delete_purge_unparsable_location (External0 := Examples.externalNoURL) 5
           Fixture.cdrClient Fixture.purgeState0 None (Fixture.response 202) 1%nat
           (errorString "parse: missing protocol scheme"));
    reflexivity.
Defined.

(** One pending status check, then "SUCCESS". *)
Lemma stu3Delete_purge_succeeds_after_witness :
  org.stu3Delete (External0 := Fixture.external) 5 Fixture.cdrClient Fixture.purgeState0
  = (Ok [],
     {| data := schema.SetId "" (data Fixture.purgeState0); remote := 3%nat;
        calls := [CDRPost "$purge" [] "/store/fhir/org-1/$purge"]
                 ++ repeat (CDRGet "org-1" {| cdr.URL_String := "/purge-status/1" |}) 2 |}).
Proof.
  apply (stu3Delete_purge_succeeds_after (External0 := Fixture.external) 5 1
           Fixture.cdrClient Fixture.purgeState0 None
           (Some (cdr.Contained_Parameters
                    [ {| cdr.Parameter_Name := "status";
                         cdr.Parameter_Value := cdr.StringValue "SUCCESS" |} ]))
           (Fixture.response 202) (Fixture.response 200) 1%nat 2%nat 3%nat
           {| cdr.URL_String := "/purge-status/1" |}
           [ {| cdr.Parameter_Name := "status";
                cdr.Parameter_Value := cdr.StringValue "SUCCESS" |} ]).
  - reflexivity.
  - reflexivity.
  - reflexivity.
  - reflexivity.
  - exists None, (Fixture.response 202), 2%nat. repeat split.
  - reflexivity.
  - simpl. discriminate.
  - reflexivity.
  - reflexivity.
  - lia.
Defined.

(** A purge that is still running after the three checks that fit in the
    timeout. *)
Lemma stu3Delete_purge_times_out_witness :
  exists diags,
    org.stu3Delete (External0 := Fixture.external) 3 Examples.cdrClientPurging
      Fixture.purgeState0
    = (Ok diags,
       {| data := data Fixture.purgeState0; remote := 4%nat;
          calls := [CDRPost "$purge" [] "/store/fhir/org-1/$purge"]
                   ++ repeat (CDRGet "org-1" {| cdr.URL_String := "/purge-status/1" |}) 3 |})
    /\ diag.HasError diags = true.
Proof.
  apply (stu3Delete_purge_times_out (External0 := Fixture.external) 3
           Examples.cdrClientPurging Fixture.purgeState0 None (Fixture.response 202)
           1%nat 4%nat {| cdr.URL_String := "/purge-status/1" |}).
  - reflexivity.
  - reflexivity.
  - reflexivity.
  - reflexivity.
  - exists None, (Fixture.response 202), 2%nat. repeat split.
    exists None, (Fixture.response 202), 3%nat. repeat split.
    exists None, (Fixture.response 202), 4%nat. repeat split.
Defined.



(** An organization that is not there yet is onboarded at the first
    attempt. *)
Lemma stu3Create_onboards_missing_witness :
  org.stu3Create (External0 := Fixture.external) (ret []) Fixture.config0
    Fixture.cdrClientGone Fixture.state0
  = (Ok [],
     {| data := schema.SetId "org-1" Fixture.data0; remote := 2%nat;
        calls := [CDRGetOrganizationByID "org-1"; CDROnboard Fixture.hospital] |}).
Proof.
  apply (stu3Create_onboards_missing (External0 := Fixture.external) (ret [])
           Fixture.config0 Fixture.cdrClientGone Fixture.state0 Fixture.hospital
           Fixture.hospital None (Some (Fixture.response 404))
           (Some (errorString "404 Not Found")) None (Fixture.response 201)
           1%nat 2%nat 2%nat).
  - reflexivity.
  - reflexivity.
  - left. discriminate.
  - reflexivity.
  - reflexivity.
Defined.

(** A new parent alone: the read, and nothing sent. *)
Lemma resourceIAMOrgUpdate_parent_change_not_sent_witness :
  iam_org.resourceIAMOrgUpdate Fixture.config0
    Examples.moved
  = (Ok [],
     {| data := data Examples.moved; remote := 1%nat;
        calls := [IAMGetOrganizationByID "org-1"] |}).
Proof.
  apply (resourceIAMOrgUpdate_parent_change_not_sent
           Fixture.config0 Fixture.iamClient Examples.moved).
  - reflexivity.
  - simpl. set_solver.
Defined.

(** A renamed organization: the update carries the new name and keeps the
    parent of the organization as read, not the one of the resource data. *)
Lemma resourceIAMOrgUpdate_sends_declared_fields_witness :
  iam_org.resourceIAMOrgUpdate Fixture.config0
    Examples.renamed
  = (Ok [],
     {| data := data Examples.renamed; remote := 2%nat;
        calls := [IAMGetOrganizationByID "org-1";
                  IAMUpdateOrganization
                    {| iam.ID := "org-1"; iam.Name := "Clinic"; iam.Description := "";
                       iam.Type_ := ""; iam.ExternalID := ""; iam.DisplayName := "";
                       iam.Active := true; iam.Parent_Value := "root" |}] |}).
Proof.
  apply (resourceIAMOrgUpdate_sends_declared_fields
           Fixture.config0 Fixture.iamClient Examples.renamed Fixture.iamOrg
           (Some {| iam.StatusCode := 200 |}) (Some {| iam.StatusCode := 200 |})
           (Some {| iam.ID := "org-1"; iam.Name := "Clinic"; iam.Description := "";
                    iam.Type_ := ""; iam.ExternalID := ""; iam.DisplayName := "";
                    iam.Active := true; iam.Parent_Value := "root" |})
           None 1%nat 2%nat).
  - reflexivity.
  - reflexivity.
  - exists "name". split; [set_solver | reflexivity].
  - reflexivity.
Defined.

(** The delete of an organization that the IAM refuses to delete: two
    calls, data as before. *)
Lemma resourceIAMOrgDelete_outcomes_witness :
  let run := iam_org.resourceIAMOrgDelete (External0 := Fixture.external)
               Fixture.config0 Fixture.state0 in
  data (snd run) = Fixture.data0
  /\ calls (snd run) = [IAMGetOrganizationByID "org-1"; IAMDeleteOrganization Fixture.iamOrg].
Proof.
  intros run.
  destruct (resourceIAMOrgDelete_outcomes (External0 := Fixture.external)
              Fixture.config0 Fixture.iamClient Fixture.state0 eq_refl)
    as (Hdata & _ & _).
  split; [exact Hdata | reflexivity].
Defined.

(** ** The export route: reading the configuration blocks *)

Section ExportRouteBlocks.
Context {St : Type}.

Lemma last_cons_default {A} (a d : A) (l : list A) :
  List.last (a :: l) d = List.last l a.
Proof.
  revert a d. induction l as [|b l IH]; intros a d; [reflexivity|].
  change (List.last (a :: b :: l) d) with (List.last (b :: l) d).
  rewrite !IH. reflexivity.
Qed.

Lemma rangeLabels_values (labels acc : list cdl.ExportLabel) (s : St) :
  hsdp.rangeLabels (map hsdp.labelValue labels) acc s = (Ok (acc ++ labels), s).
Proof.
  revert acc. induction labels as [|l labels IH]; intros acc.
  - simpl. unfold ret. now rewrite app_nil_r.
  - cbn [map hsdp.rangeLabels]. unfold hsdp.labelValue at 1.
    unfold bind, hsdp.assertMap, hsdp.assertString, hsdp.assertBool, ret. simpl.
    rewrite IH. rewrite <- app_assoc. now destruct l.
Qed.

Lemma rangeDataObjects_values (objs acc : list cdl.ExportDataObject) (s : St) :
  hsdp.rangeDataObjects (map hsdp.dataObjectValue objs) acc s = (Ok (acc ++ objs), s).
Proof.
  revert acc. induction objs as [|o objs IH]; intros acc.
  - simpl. unfold ret. now rewrite app_nil_r.
  - cbn [map hsdp.rangeDataObjects]. unfold hsdp.dataObjectValue at 1.
    unfold bind, hsdp.assertMap, hsdp.assertString, hsdp.assertList, ret. simpl.
    rewrite rangeLabels_values. simpl app.
    rewrite IH. rewrite <- app_assoc. now destruct o.
Qed.

Lemma find_snoc {A} (f : A -> bool) (l : list A) (x : A) :
  find f (l ++ [x])
  = match find f l with
    | Some y => Some y
    | None => if f x then Some x else None
    end.
Proof.
  induction l as [|a l IH]; [reflexivity|].
  cbn [app find]. now destruct (f a).
Qed.

Lemma lastAllowed_cons (block : string * list cdl.ExportDataObject)
    (blocks : list (string * list cdl.ExportDataObject)) :
  hsdp.lastAllowed (block :: blocks)
  = match hsdp.lastAllowed blocks with
    | Some allowed => Some allowed
    | None =>
        if (0 <? length (snd block))%nat
        then Some {| cdl.DataObject := snd block |}
        else None
    end.
Proof.
  unfold hsdp.lastAllowed. cbn [map rev]. rewrite find_snoc.
  destruct (find _ (rev (map snd blocks))); [reflexivity|].
  now destruct (0 <? length (snd block))%nat.
Qed.

Lemma rangeSourceResearchStudy_values
    (blocks : list (string * list cdl.ExportDataObject))
    (source : cdl.ExportResearchStudySource) (s : St) :
  hsdp.rangeSourceResearchStudy (map hsdp.sourceResearchStudyValue blocks) source s
  = (Ok {| cdl.Endpoint := List.last (map fst blocks) (cdl.Endpoint source);
           cdl.Allowed := match hsdp.lastAllowed blocks with
                          | Some allowed => Some allowed
                          | None => cdl.Allowed source
                          end |}, s).
Proof.
  revert source. induction blocks as [|block blocks IH]; intros source.
  - simpl. unfold ret. now destruct source.
  - cbn [map hsdp.rangeSourceResearchStudy].
    rewrite last_cons_default, lastAllowed_cons.
    unfold hsdp.sourceResearchStudyValue at 1.
    unfold bind, hsdp.assertMap, hsdp.assertString, hsdp.assertList, ret.
    cbn [hsdp.index String.eqb Ascii.eqb Bool.eqb].
    rewrite rangeDataObjects_values. cbn [app].
    rewrite IH. cbn [cdl.Endpoint cdl.Allowed].
    destruct (hsdp.lastAllowed blocks); [reflexivity|].
    destruct (0 <? length (snd block))%nat; reflexivity.
Qed.

(** The source of the route is read off the blocks of
    [source_research_study] in the order of the set: the endpoint is that
    of the last block, and the allowed data objects, with their labels in
    their order, are those of the last block that has any.  A block without
    data objects keeps the data objects of an earlier block. *)
Theorem getSourceResearchStudyDetails_blocks (d : hsdp.ResourceData)
    (blocks : list (string * list cdl.ExportDataObject)) (s : St) :
  hsdp.attrs d !! "source_research_study"
  = Some (hsdp.VSet (map hsdp.sourceResearchStudyValue blocks)) ->
  hsdp.getSourceResearchStudyDetails d s
  = (Ok {| cdl.Endpoint := List.last (map fst blocks) "";
           cdl.Allowed := hsdp.lastAllowed blocks |}, s).
Proof.
  intros Hattr. unfold hsdp.getSourceResearchStudyDetails, hsdp.GetOk. rewrite Hattr.
  destruct blocks as [|block blocks]; [reflexivity|].
  cbn [map hsdp.isZero]. unfold bind at 1, hsdp.assertSetList, ret at 1.
  change (hsdp.sourceResearchStudyValue block :: map hsdp.sourceResearchStudyValue blocks)
    with (map hsdp.sourceResearchStudyValue (block :: blocks)).
  rewrite rangeSourceResearchStudy_values. cbn [cdl.Endpoint cdl.Allowed].
  destruct (hsdp.lastAllowed (block :: blocks)); reflexivity.
Qed.

Lemma rangeServiceAccount_values (accounts : list cdl.ExportServiceAccountDetails)
    (account : cdl.ExportServiceAccountDetails) (s : St) :
  hsdp.rangeServiceAccount (map hsdp.serviceAccountValue accounts) account s
  = (Ok (List.last accounts account), s).
Proof.
  revert account. induction accounts as [|a accounts IH]; intros account.
  - reflexivity.
  - cbn [map hsdp.rangeServiceAccount]. rewrite last_cons_default.
    unfold hsdp.serviceAccountValue at 1.
    unfold bind, hsdp.assertMap, hsdp.assertString, ret.
    cbn [hsdp.index String.eqb Ascii.eqb Bool.eqb].
    rewrite IH. now destruct a.
Qed.

(** The service account of the route is the last block of
    [service_account_details], in the order of the set; without a block all
    four of its fields are empty. *)
Theorem getServiceAccountDetails_blocks (d : hsdp.ResourceData)
    (accounts : list cdl.ExportServiceAccountDetails) (s : St) :
  hsdp.attrs d !! "service_account_details"
  = Some (hsdp.VSet (map hsdp.serviceAccountValue accounts)) ->
  hsdp.getServiceAccountDetails d s
  = (Ok {| cdl.CDLServiceAccount :=
             List.last accounts
               {| cdl.ServiceID := ""; cdl.PrivateKey := "";
                  cdl.AccessTokenEndPoint := ""; cdl.TokenEndPoint := "" |} |}, s).
Proof.
  intros Hattr. unfold hsdp.getServiceAccountDetails, hsdp.GetOk. rewrite Hattr.
  destruct accounts as [|a accounts]; [reflexivity|].
  cbn [map hsdp.isZero]. unfold bind at 1. unfold bind at 1, hsdp.assertSetList, ret at 1.
  change (hsdp.serviceAccountValue a :: map hsdp.serviceAccountValue accounts)
    with (map hsdp.serviceAccountValue (a :: accounts)).
  rewrite rangeServiceAccount_values. reflexivity.
Qed.

(** Reading the blocks changes no state, whatever they hold. *)
Lemma rangeLabels_state (labels : list hsdp.Value) (acc : list cdl.ExportLabel) (s : St) :
  snd (hsdp.rangeLabels labels acc s) = s.
Proof.
  revert acc. induction labels as [|l labels IH]; intros acc; [reflexivity|].
  cbn [hsdp.rangeLabels].
  unfold bind, hsdp.assertMap, hsdp.assertString, hsdp.assertBool, ret, panic.
  destruct l; try reflexivity.
  destruct (hsdp.index fields "label_name") as [[]|]; try reflexivity.
  destruct (hsdp.index fields "approval_required") as [[]|]; try reflexivity.
  specialize (IH (acc ++ [{| cdl.Name := s0; cdl.ApprovalRequired := b |}])).
  destruct (hsdp.rangeLabels labels _ s) as [[] ?]; exact IH.
Qed.

Lemma rangeDataObjects_state (objs : list hsdp.Value) (acc : list cdl.ExportDataObject)
    (s : St) :
  snd (hsdp.rangeDataObjects objs acc s) = s.
Proof.
  revert acc. induction objs as [|o objs IH]; intros acc; [reflexivity|].
  cbn [hsdp.rangeDataObjects].
  unfold bind, hsdp.assertMap, hsdp.assertString, hsdp.assertList, ret, panic.
  destruct o; try reflexivity.
  destruct (hsdp.index fields "resource_type") as [[]|]; try reflexivity.
  destruct (hsdp.index fields "associated_labels") as [[]|]; try reflexivity.
  pose proof (rangeLabels_state items [] s) as Hlabels.
  destruct (hsdp.rangeLabels items [] s) as [[labels| |] s1]; simpl in Hlabels; subst s1;
    try reflexivity.
  specialize (IH (acc ++ [{| cdl.Type_ := s0; cdl.DataObject_ExportLabel := labels |}])).
  destruct (hsdp.rangeDataObjects objs _ s) as [[] ?]; exact IH.
Qed.

Lemma rangeSourceResearchStudy_state (vL : list hsdp.Value)
    (source : cdl.ExportResearchStudySource) (s : St) :
  snd (hsdp.rangeSourceResearchStudy vL source s) = s.
Proof.
  revert source. induction vL as [|vi vL IH]; intros source; [reflexivity|].
  cbn [hsdp.rangeSourceResearchStudy].
  unfold bind, hsdp.assertMap, hsdp.assertString, hsdp.assertList, ret, panic.
  destruct vi; try reflexivity.
  destruct (hsdp.index fields "source_research_study_endpoint") as [[]|]; try reflexivity.
  destruct (hsdp.index fields "allowed_dataobjects") as [[]|]; try reflexivity.
  pose proof (rangeDataObjects_state items [] s) as Hobjs.
  destruct (hsdp.rangeDataObjects items [] s) as [[objs| |] s1]; simpl in Hobjs; subst s1;
    try reflexivity.
  match goal with
  | |- context [hsdp.rangeSourceResearchStudy vL ?src s] =>
      specialize (IH src); destruct (hsdp.rangeSourceResearchStudy vL src s) as [[] ?]
  end; exact IH.
Qed.

Lemma getSourceResearchStudyDetails_state (d : hsdp.ResourceData) (s : St) :
  snd (hsdp.getSourceResearchStudyDetails d s) = s.
Proof.
  unfold hsdp.getSourceResearchStudyDetails.
  destruct (hsdp.GetOk d "source_research_study") as [v|]; [|reflexivity].
  unfold bind, hsdp.assertSetList, ret, panic. destruct v; try reflexivity.
  match goal with
  | |- context [hsdp.rangeSourceResearchStudy items ?src s] =>
      pose proof (rangeSourceResearchStudy_state items src s) as H;
      destruct (hsdp.rangeSourceResearchStudy items src s) as [[] ?]
  end; exact H.
Qed.

Lemma rangeServiceAccount_state (vL : list hsdp.Value)
    (account : cdl.ExportServiceAccountDetails) (s : St) :
  snd (hsdp.rangeServiceAccount vL account s) = s.
Proof.
  revert account. induction vL as [|vi vL IH]; intros account; [reflexivity|].
  cbn [hsdp.rangeServiceAccount].
  unfold bind, hsdp.assertMap, hsdp.assertString, ret, panic.
  destruct vi; try reflexivity.
  destruct (hsdp.index fields "service_id") as [[]|]; try reflexivity.
  destruct (hsdp.index fields "private_key") as [[]|]; try reflexivity.
  destruct (hsdp.index fields "access_token_endpoint") as [[]|]; try reflexivity.
  destruct (hsdp.index fields "token_endpoint") as [[]|]; try reflexivity.
  match goal with
  | |- context [hsdp.rangeServiceAccount vL ?acc s] =>
      specialize (IH acc); destruct (hsdp.rangeServiceAccount vL acc s) as [[] ?]
  end; exact IH.
Qed.

Lemma getServiceAccountDetails_state (d : hsdp.ResourceData) (s : St) :
  snd (hsdp.getServiceAccountDetails d s) = s.
Proof.
  unfold hsdp.getServiceAccountDetails.
  destruct (hsdp.GetOk d "service_account_details") as [v|]; [|reflexivity].
  unfold bind, hsdp.assertSetList, ret, panic. destruct v; try reflexivity.
  match goal with
  | |- context [hsdp.rangeServiceAccount items ?acc s] =>
      pose proof (rangeServiceAccount_state items acc s) as H;
      destruct (hsdp.rangeServiceAccount items acc s) as [[] ?]
  end; exact H.
Qed.

End ExportRouteBlocks.

(** ** The export route: the callbacks *)

Section ExportRouteCallbacks.
Context {Remote : Type} `{!hsdp.JSON}.

Lemma Set__Id (key : string) (v : hsdp.Value) (d : hsdp.ResourceData) :
  hsdp.Id (hsdp.Set_ key v d) = hsdp.Id d.
Proof.
  unfold hsdp.Set_. destruct (hsdp.schemaType _ key); [|reflexivity].
  now destruct (hsdp.hasType _ v).
Qed.

Lemma Set__other (key : string) (v : hsdp.Value) (d : hsdp.ResourceData) (k : string) :
  key <> k -> hsdp.attrs (hsdp.Set_ key v d) !! k = hsdp.attrs d !! k.
Proof.
  intros Hne. unfold hsdp.Set_. destruct (hsdp.schemaType _ key); [|reflexivity].
  destruct (hsdp.hasType _ v); [|reflexivity]. simpl. now apply lookup_insert_ne.
Qed.

Lemma Set__same (key : string) (t : hsdp.ValueType) (v : hsdp.Value)
    (d : hsdp.ResourceData) :
  hsdp.schemaType hsdp.resourceCDLExportRoute_Schema key = Some t ->
  hsdp.hasType t v = true ->
  hsdp.attrs (hsdp.Set_ key v d) !! key = Some v.
Proof.
  intros Hkey Htype. unfold hsdp.Set_. rewrite Hkey, Htype. simpl.
  apply lookup_insert_eq.
Qed.

(** The run of the read callback when the route is found and serialized. *)
Lemma read_found (config : hsdp.Config Remote) (client : cdl.Client Remote)
    (w : World hsdp.ResourceData Remote hsdp.Call) (route : cdl.ExportRoute)
    (resp : option cdl.Response) (rem1 : Remote) (sourceBytes destinationBytes : list Byte.byte) :
  hsdp.getCDLClientFromEndpoint config (hsdp.GetString (wdata w) "cdl_endpoint")
  = inl client ->
  cdl.ExportRoute_GetExportRouteByID client (hsdp.Id (wdata w)) (wremote w)
  = ((Some route, resp, None), rem1) ->
  hsdp.json_Marshal_Source (cdl.Source_ route) = (sourceBytes, None) ->
  hsdp.json_Marshal_Destination (cdl.Destination_ route) = (destinationBytes, None) ->
  exists d',
    hsdp.resourceCDLExportRouteRead config w
    = (Ok [],
       {| wdata := d'; wremote := cdl.Close client rem1;
          wcalls := wcalls w ++ [hsdp.GetExportRouteByID (hsdp.Id (wdata w)); hsdp.Close] |})
    /\ hsdp.Id d' = hsdp.Id (wdata w)
    /\ hsdp.holdsRoute d' route.
Proof.
  intros Hclient Hget Hsource Hdestination.
  unfold hsdp.resourceCDLExportRouteRead.
  unfold bind at 1, getWData. rewrite Hclient.
  unfold hsdp.defer_. unfold bind at 1, invokeW at 1. rewrite Hget.
  cbv beta iota zeta. rewrite Hsource, Hdestination.
  unfold bind, updateWData, ret, hsdp.close, invokeW.
  cbn [fst snd wdata wremote wcalls].
  eexists. split; [rewrite <- app_assoc; reflexivity|].
  split; [now rewrite !Set__Id|].
  unfold hsdp.holdsRoute, hsdp.GetString, hsdp.GetBool.
  repeat split;
    repeat (rewrite Set__other by discriminate);
    now erewrite Set__same by reflexivity.
Qed.

(** A read that finds the route returns no diagnostics, keeps the
    identifier and stores the name, description, display name, export flag
    and the four audit fields of the route; it makes the fetch by the
    identifier and closes the client. *)
Theorem resourceCDLExportRouteRead_refreshes (config : hsdp.Config Remote)
    (client : cdl.Client Remote) (w : World hsdp.ResourceData Remote hsdp.Call)
    (route : cdl.ExportRoute) (resp : option cdl.Response) (rem1 : Remote)
    (sourceBytes destinationBytes : list Byte.byte) :
  hsdp.getCDLClientFromEndpoint config (hsdp.GetString (wdata w) "cdl_endpoint")
  = inl client ->
  cdl.ExportRoute_GetExportRouteByID client (hsdp.Id (wdata w)) (wremote w)
  = ((Some route, resp, None), rem1) ->
  hsdp.json_Marshal_Source (cdl.Source_ route) = (sourceBytes, None) ->
  hsdp.json_Marshal_Destination (cdl.Destination_ route) = (destinationBytes, None) ->
  let run := hsdp.resourceCDLExportRouteRead config w in
  fst run = Ok []
  /\ hsdp.Id (wdata (snd run)) = hsdp.Id (wdata w)
  /\ hsdp.holdsRoute (wdata (snd run)) route
  /\ wremote (snd run) = cdl.Close client rem1
  /\ wcalls (snd run)
     = wcalls w ++ [hsdp.GetExportRouteByID (hsdp.Id (wdata w)); hsdp.Close].
Proof.
  intros Hclient Hget Hsource Hdestination run.
  destruct (read_found config client w route resp rem1 sourceBytes destinationBytes
              Hclient Hget Hsource Hdestination) as (d' & Hrun & Hid & Hholds).
  subst run. rewrite Hrun. cbn [fst snd wdata wremote wcalls].
  split; [reflexivity|]. split; [exact Hid|]. split; [exact Hholds|].
  split; reflexivity.
Qed.

(** What a read never does.  It never changes the identifier, and never
    changes an attribute other than the eight it refreshes: the configured
    source research study, destination endpoint and service account are not
    read back from the route ([Set] is called with the keys "source" and
    "destination", which the schema does not have).  And a read that returns
    diagnostics or panics leaves the resource data exactly as they were. *)
Theorem resourceCDLExportRouteRead_keeps_configuration (config : hsdp.Config Remote)
    (w : World hsdp.ResourceData Remote hsdp.Call) :
  let run := hsdp.resourceCDLExportRouteRead config w in
  hsdp.Id (wdata (snd run)) = hsdp.Id (wdata w)
  /\ (forall key, ~ In key hsdp.refreshed ->
        hsdp.attrs (wdata (snd run)) !! key = hsdp.attrs (wdata w) !! key)
  /\ (fst run <> Ok [] -> wdata (snd run) = wdata w).
Proof.
  intros run.
  assert (Hrun : run = hsdp.resourceCDLExportRouteRead config w) by reflexivity.
  clearbody run. revert Hrun. unfold hsdp.resourceCDLExportRouteRead.
  unfold bind at 1, getWData.
  destruct (hsdp.getCDLClientFromEndpoint config _) as [client|cerr];
    [|intros ->; repeat split; reflexivity].
  unfold hsdp.defer_. unfold bind at 1, invokeW at 1.
  destruct (cdl.ExportRoute_GetExportRouteByID client _ (wremote w))
    as [[[exportRoute resp] err] rem1].
  cbv beta iota zeta.
  destruct err as [e|]; [intros ->; repeat split; reflexivity|].
  destruct exportRoute as [route|]; [|intros ->; repeat split; reflexivity].
  destruct (hsdp.json_Marshal_Source _) as [sourceBytes [e|]];
    [intros ->; repeat split; reflexivity|].
  destruct (hsdp.json_Marshal_Destination _) as [destinationBytes [e|]];
    [intros ->; repeat split; reflexivity|].
  unfold bind, updateWData, ret, hsdp.close, invokeW.
  cbn [fst snd wdata wremote wcalls]. intros ->. cbn [fst snd wdata wremote wcalls].
  split; [now rewrite !Set__Id|]. split.
  - intros key Hkey.
    change (hsdp.Set_ "source" (hsdp.VString (string_of_list_byte sourceBytes)))
      with (fun d : hsdp.ResourceData => d).
    change (hsdp.Set_ "destination" (hsdp.VString (string_of_list_byte destinationBytes)))
      with (fun d : hsdp.ResourceData => d).
    cbv beta.
    repeat (rewrite Set__other
              by (intros <-; apply Hkey; unfold hsdp.refreshed; cbn [In];
                  repeat (first [left; reflexivity | right]))).
    reflexivity.
  - intros Hdiags. now contradiction Hdiags.
Qed.

(** A create call that fails is reported as it is, whatever the status of
    the response (a 409 is handled like every other status): the callback
    has sent one create call with the route built from the resource data,
    sets no identifier, does not read, and closes the client. *)
Theorem resourceCDLExportRouteCreate_rejected (config : hsdp.Config Remote)
    (client : cdl.Client Remote) (w : World hsdp.ResourceData Remote hsdp.Call)
    (source : cdl.ExportResearchStudySource) (account : cdl.ExportServiceAccount)
    (created : option cdl.ExportRoute) (resp : option cdl.Response) (e : error)
    (rem1 : Remote) :
  let d := wdata w in
  let route := hsdp.exportRouteToCreate d source account in
  hsdp.getSourceResearchStudyDetails d w = (Ok source, w) ->
  hsdp.getServiceAccountDetails d w = (Ok account, w) ->
  hsdp.getCDLClientFromEndpoint config (hsdp.GetString d "cdl_endpoint") = inl client ->
  cdl.ExportRoute_CreateExportRoute client route (wremote w)
  = ((created, resp, Some e), rem1) ->
  hsdp.resourceCDLExportRouteCreate config w
  = (Ok (diag.FromErr (Some e)),
     {| wdata := d; wremote := cdl.Close client rem1;
        wcalls := wcalls w ++ [hsdp.CreateExportRoute route; hsdp.Close] |}).
Proof.
  intros d route Hsource Haccount Hclient Hcreate.
  unfold hsdp.resourceCDLExportRouteCreate.
  unfold bind at 1, getWData. fold d.
  unfold bind at 1. rewrite Hsource. unfold bind at 1. rewrite Haccount.
  cbv beta iota zeta. rewrite Hclient. fold route.
  unfold hsdp.defer_. unfold bind at 1, invokeW at 1. rewrite Hcreate.
  cbv beta iota zeta.
  assert (Hsame : forall (A : Type) (c : bool) (x : A), (if c then x else x) = x)
    by (intros A c x; now destruct c).
  destruct resp as [rsp|]; rewrite ?Hsame;
    unfold ret, hsdp.close, invokeW; cbn [fst snd wdata wremote wcalls];
    now rewrite <- app_assoc.
Qed.

(** Create, then read: when the create call succeeds and the read that
    follows finds the route, the callback returns no diagnostics, the
    identifier is that of the created route, the refreshed attributes are
    those of the route as read, and the calls are the create, the fetch by
    the new identifier, and one close for each of the two clients. *)
Theorem resourceCDLExportRouteCreate_then_read (config : hsdp.Config Remote)
    (client : cdl.Client Remote) (w : World hsdp.ResourceData Remote hsdp.Call)
    (source : cdl.ExportResearchStudySource) (account : cdl.ExportServiceAccount)
    (created route : cdl.ExportRoute) (resp resp' : option cdl.Response)
    (rem1 rem2 : Remote) (sourceBytes destinationBytes : list Byte.byte) :
  let d := wdata w in
  let sent := hsdp.exportRouteToCreate d source account in
  hsdp.getSourceResearchStudyDetails d w = (Ok source, w) ->
  hsdp.getServiceAccountDetails d w = (Ok account, w) ->
  hsdp.getCDLClientFromEndpoint config (hsdp.GetString d "cdl_endpoint") = inl client ->
  cdl.ExportRoute_CreateExportRoute client sent (wremote w)
  = ((Some created, resp, None), rem1) ->
  cdl.ExportRoute_GetExportRouteByID client (cdl.ID created) rem1
  = ((Some route, resp', None), rem2) ->
  hsdp.json_Marshal_Source (cdl.Source_ route) = (sourceBytes, None) ->
  hsdp.json_Marshal_Destination (cdl.Destination_ route) = (destinationBytes, None) ->
  let run := hsdp.resourceCDLExportRouteCreate config w in
  fst run = Ok []
  /\ hsdp.Id (wdata (snd run)) = cdl.ID created
  /\ hsdp.holdsRoute (wdata (snd run)) route
  /\ wremote (snd run) = cdl.Close client (cdl.Close client rem2)
  /\ wcalls (snd run)
     = wcalls w ++ [hsdp.CreateExportRoute sent; hsdp.GetExportRouteByID (cdl.ID created);
                    hsdp.Close; hsdp.Close].
Proof.
  intros d sent Hsource Haccount Hclient Hcreate Hget Hsrc Hdst run.
  set (w1 := {| wdata := hsdp.SetId (cdl.ID created) d; wremote := rem1;
                wcalls := wcalls w ++ [hsdp.CreateExportRoute sent] |}).
  destruct (read_found config client w1 route resp' rem2 sourceBytes destinationBytes
              Hclient Hget Hsrc Hdst) as (d' & Hread & Hid & Hholds).
  assert (Hrun : run = (Ok [],
                        {| wdata := d'; wremote := cdl.Close client (cdl.Close client rem2);
                           wcalls := (wcalls w1 ++ [hsdp.GetExportRouteByID (cdl.ID created);
                                                    hsdp.Close]) ++ [hsdp.Close] |})).
  { subst run. unfold hsdp.resourceCDLExportRouteCreate.
    unfold bind at 1, getWData. fold d.
    unfold bind at 1. rewrite Hsource. unfold bind at 1. rewrite Haccount.
    cbv beta iota zeta. rewrite Hclient. fold sent.
    unfold hsdp.defer_ at 1. unfold bind at 1, invokeW at 1. rewrite Hcreate.
    cbv beta iota zeta. unfold bind at 1, updateWData.
    cbn [wdata wremote wcalls]. fold d. fold w1. rewrite Hread. reflexivity. }
  rewrite Hrun. cbn [fst snd wdata wremote wcalls].
  split; [reflexivity|]. split; [exact Hid|]. split; [exact Hholds|].
  split; [reflexivity|].
  subst w1. cbn [wcalls]. now rewrite <- !app_assoc.
Qed.

(** No callback leaves a client open.  The delete callback makes no call,
    or the deletion and the close; the read callback no call, or the fetch
    and the close; the create callback no call, or the create call and the
    close, or the create call followed by the fetch and two closes.  This
    holds on every input, also when the callback panics. *)
Theorem export_route_callbacks_close_client (config : hsdp.Config Remote)
    (w : World hsdp.ResourceData Remote hsdp.Call) :
  (wcalls (snd (hsdp.resourceCDLExportRouteDelete config w)) = wcalls w
   \/ wcalls (snd (hsdp.resourceCDLExportRouteDelete config w))
      = wcalls w ++ [hsdp.DeleteExportRouteByID (hsdp.Id (wdata w)); hsdp.Close])
  /\ (wcalls (snd (hsdp.resourceCDLExportRouteRead config w)) = wcalls w
      \/ wcalls (snd (hsdp.resourceCDLExportRouteRead config w))
         = wcalls w ++ [hsdp.GetExportRouteByID (hsdp.Id (wdata w)); hsdp.Close])
  /\ (wcalls (snd (hsdp.resourceCDLExportRouteCreate config w)) = wcalls w
      \/ exists sent,
           wcalls (snd (hsdp.resourceCDLExportRouteCreate config w))
           = wcalls w ++ [hsdp.CreateExportRoute sent; hsdp.Close]
           \/ exists id,
                wcalls (snd (hsdp.resourceCDLExportRouteCreate config w))
                = wcalls w ++ [hsdp.CreateExportRoute sent; hsdp.GetExportRouteByID id;
                               hsdp.Close; hsdp.Close]).
Proof.
  assert (Hread : forall w0 client,
            hsdp.getCDLClientFromEndpoint config (hsdp.GetString (wdata w0) "cdl_endpoint")
            = inl client ->
            wcalls (snd (hsdp.resourceCDLExportRouteRead config w0))
            = wcalls w0 ++ [hsdp.GetExportRouteByID (hsdp.Id (wdata w0)); hsdp.Close]).
  { intros w0 client Hclient. unfold hsdp.resourceCDLExportRouteRead.
    unfold bind at 1, getWData. rewrite Hclient.
    unfold hsdp.defer_. unfold bind at 1, invokeW at 1.
    destruct (cdl.ExportRoute_GetExportRouteByID client _ (wremote w0))
      as [[[exportRoute resp] err] rem1].
    cbv beta iota zeta.
    destruct err as [e|]; [|destruct exportRoute as [route|]];
      [| destruct (hsdp.json_Marshal_Source _) as [sourceBytes [e|]];
         [|destruct (hsdp.json_Marshal_Destination _) as [destinationBytes [e|]]] |];
      unfold bind, updateWData, ret, hsdp.close, invokeW;
      cbn [fst snd wdata wremote wcalls]; now rewrite <- app_assoc. }
  split; [|split].
  - remember (hsdp.resourceCDLExportRouteDelete config w) as run eqn:Hrun.
    revert Hrun. unfold hsdp.resourceCDLExportRouteDelete. unfold bind at 1, getWData.
    destruct (hsdp.getCDLClientFromEndpoint config _) as [client|cerr];
      [|intros ->; now left].
    unfold hsdp.defer_, hsdp.close, bind, invokeW.
    destruct (cdl.ExportRoute_DeleteExportRouteByID client _ (wremote w))
      as [[resp err] rem1].
    destruct err as [e|]; [destruct resp|];
      unfold ret; cbn [fst snd wdata wremote wcalls]; intros ->; right;
      cbn [fst snd wdata wremote wcalls]; now rewrite <- app_assoc.
  - destruct (hsdp.getCDLClientFromEndpoint config
                (hsdp.GetString (wdata w) "cdl_endpoint")) as [client|cerr] eqn:Hclient.
    + right. now apply (Hread w client).
    + left. unfold hsdp.resourceCDLExportRouteRead. unfold bind at 1, getWData.
      now rewrite Hclient.
  - remember (hsdp.resourceCDLExportRouteCreate config w) as run eqn:Hrun.
    revert Hrun. unfold hsdp.resourceCDLExportRouteCreate. unfold bind at 1, getWData.
    unfold bind at 1.
    pose proof (getSourceResearchStudyDetails_state (wdata w) w) as Hsource.
    destruct (hsdp.getSourceResearchStudyDetails (wdata w) w) as [[source| |] w1];
      simpl in Hsource; subst w1; [|intros ->; now left|intros ->; now left].
    unfold bind at 1.
    pose proof (getServiceAccountDetails_state (wdata w) w) as Haccount.
    destruct (hsdp.getServiceAccountDetails (wdata w) w) as [[account| |] w1];
      simpl in Haccount; subst w1; [|intros ->; now left|intros ->; now left].
    cbv beta iota zeta.
    destruct (hsdp.getCDLClientFromEndpoint config
                (hsdp.GetString (wdata w) "cdl_endpoint")) as [client|cerr] eqn:Hclient;
      [|intros ->; now left].
    unfold hsdp.defer_ at 1. unfold bind at 1, invokeW at 1.
    destruct (cdl.ExportRoute_CreateExportRoute client _ (wremote w))
      as [[[createdExportRoute resp] err] rem1].
    cbv beta iota zeta.
    destruct err as [e|].
    + destruct resp as [rsp|];
        [destruct (negb (cdl.StatusCode rsp =? hsdp.http_StatusConflict))|];
        unfold ret, hsdp.close, invokeW; cbn [fst snd wdata wremote wcalls];
        intros ->; right;
        exists (hsdp.exportRouteToCreate (wdata w) source account); left;
        cbn [fst snd wdata wremote wcalls]; now rewrite <- app_assoc.
    + destruct createdExportRoute as [created|].
      * unfold bind at 1, updateWData. cbn [wdata wremote wcalls].
        match goal with
        | |- context [hsdp.resourceCDLExportRouteRead config ?w0] =>
            pose proof (Hread w0 client Hclient) as Hcalls;
            destruct (hsdp.resourceCDLExportRouteRead config w0) as [r w2]
        end.
        unfold hsdp.close, invokeW. cbn [fst snd wdata wremote wcalls] in *.
        intros ->. right.
        exists (hsdp.exportRouteToCreate (wdata w) source account).
        right. exists (cdl.ID created).
        cbn [fst snd wdata wremote wcalls].
        rewrite Hcalls. now rewrite <- !app_assoc.
      * unfold panic, hsdp.close, invokeW. cbn [fst snd wdata wremote wcalls].
        intros ->. right.
        exists (hsdp.exportRouteToCreate (wdata w) source account). left.
        cbn [fst snd wdata wremote wcalls]. now rewrite <- app_assoc.
Qed.

End ExportRouteCallbacks.

(** ** The export route at concrete inputs *)

(** Two source blocks, of which the first alone has a data object: the
    endpoint of the second and the data object of the first. *)
Lemma getSourceResearchStudyDetails_blocks_witness :
  hsdp.getSourceResearchStudyDetails Routes.data0 tt
  = (Ok {| cdl.Endpoint := "https://cdl.example/study-b";
           cdl.Allowed := Some {| cdl.DataObject := [Routes.observation] |} |}, tt).
Proof.
  apply (getSourceResearchStudyDetails_blocks (St := unit) Routes.data0 Routes.blocks tt).
  reflexivity.
Defined.

Lemma getServiceAccountDetails_blocks_witness :
  hsdp.getServiceAccountDetails Routes.data0 tt
  = (Ok {| cdl.CDLServiceAccount := Routes.account |}, tt).
Proof.
  apply (getServiceAccountDetails_blocks (St := unit) Routes.data0 [Routes.account] tt).
  reflexivity.
Defined.

(** The read of the stored route. *)
Lemma resourceCDLExportRouteRead_refreshes_witness :
  let run := hsdp.resourceCDLExportRouteRead (H := Routes.json)
               (Routes.configOf Routes.client) Routes.world0 in
  fst run = Ok []
  /\ hsdp.GetString (wdata (snd run)) "created_by" = "admin"
  /\ wcalls (snd run) = [hsdp.GetExportRouteByID ""; hsdp.Close].
Proof.
  intros run.
  destruct (resourceCDLExportRouteRead_refreshes (H := Routes.json)
              (Routes.configOf Routes.client) Routes.client Routes.world0
              (Routes.stored Routes.sent) (Some {| cdl.StatusCode := 200 |}) 1%nat
              (list_byte_of_string "https://cdl.example/study-b")
              (list_byte_of_string "https://cdl.example/study-c")
              eq_refl eq_refl eq_refl eq_refl)
    as (Hdiags & _ & Hholds & _ & Hcalls).
  split; [exact Hdiags|]. split; [|exact Hcalls].
  destruct Hholds as (_ & _ & _ & _ & Hby & _). exact Hby.
Defined.

(** A conflict is reported like every other failure. *)
Lemma resourceCDLExportRouteCreate_rejected_witness :
  hsdp.resourceCDLExportRouteCreate (H := Routes.json)
    (Routes.configOf Routes.clientConflict) Routes.world0
  = (Ok (diag.FromErr (Some (errorString "409 Conflict"))),
     {| wdata := Routes.data0; wremote := 1%nat;
        wcalls := [hsdp.CreateExportRoute Routes.sent; hsdp.Close] |}).
Proof.
  apply (resourceCDLExportRouteCreate_rejected (H := Routes.json)
           (Routes.configOf Routes.clientConflict) Routes.clientConflict Routes.world0
           {| cdl.Endpoint := "https://cdl.example/study-b";
              cdl.Allowed := Some {| cdl.DataObject := [Routes.observation] |} |}
           {| cdl.CDLServiceAccount := Routes.account |}
           None (Some {| cdl.StatusCode := 409 |}) (errorString "409 Conflict") 1%nat);
    reflexivity.
Defined.

(** The route is created and read back. *)
Lemma resourceCDLExportRouteCreate_then_read_witness :
  let run := hsdp.resourceCDLExportRouteCreate (H := Routes.json)
               (Routes.configOf Routes.client) Routes.world0 in
  fst run = Ok []
  /\ hsdp.Id (wdata (snd run)) = "route-1"
  /\ wcalls (snd run)
     = [hsdp.CreateExportRoute Routes.sent; hsdp.GetExportRouteByID "route-1";
        hsdp.Close; hsdp.Close].
Proof.
  intros run.
  destruct (resourceCDLExportRouteCreate_then_read (H := Routes.json)
              (Routes.configOf Routes.client) Routes.client Routes.world0
              {| cdl.Endpoint := "https://cdl.example/study-b";
                 cdl.Allowed := Some {| cdl.DataObject := [Routes.observation] |} |}
              {| cdl.CDLServiceAccount := Routes.account |}
              (Routes.stored Routes.sent) (Routes.stored Routes.sent)
              (Some {| cdl.StatusCode := 201 |}) (Some {| cdl.StatusCode := 200 |})
              1%nat 2%nat
              (list_byte_of_string "https://cdl.example/study-b")
              (list_byte_of_string "https://cdl.example/study-c")
              eq_refl eq_refl eq_refl eq_refl eq_refl eq_refl eq_refl)
    as (Hdiags & Hid & _ & _ & Hcalls).
  split; [exact Hdiags|]. split; [exact Hid | exact Hcalls].
Defined.

(** The console keeps the application under another name than the one it
    was sent: the identifier carries the name that came back. *)
Lemma resourceMetricsAutoscalerCreate_identifier_witness :
  let run := metrics.resourceMetricsAutoscalerCreate (External0 := Fixture.external)
               metrics.thresholdMapping (Examples.configConsole Examples.consoleRenames)
               Examples.autoscalerState0 in
  fst run = Ok []
  /\ schema.Id (data (snd run)) = "instance-1app-blue"
  /\ calls (snd run)
     = [ConsoleUpdateApplicationAutoscaler "instance-1"
          {| console.Name := "app"; console.Enabled := false;
             console.MinInstances := 0; console.MaxInstances := 0;
             console.Thresholds := [] |}].
Proof.
  intros run.
  destruct (resourceMetricsAutoscalerCreate_identifier (External0 := Fixture.external)
              metrics.thresholdMapping (Examples.configConsole Examples.consoleRenames)
              Examples.autoscalerState0)
    as [(Hdiags & _) | (Hdiags & _)].
  - split; [exact Hdiags|]. split; vm_compute; reflexivity.
  - exfalso. apply Hdiags. vm_compute. reflexivity.
Defined.
